(** * k8s-cost-optimizer: recommendation engine and apply/rollback loop

    A shallow embedding of the decision logic of the optimizer API
    ([optimizer/ml_engine.py], [optimizer/cost_calculator.py],
    [optimizer/recommender.py], [models.py]) and of the operator
    ([operator/main.py], [handlers/optimization_handler.py],
    [handlers/rollback_handler.py]).

    Conventions of the embedding.
    - Python [float] values are idealised as exact rationals ([Q]); [int]
      values are [Z].  Comparisons, [round] (ties to even), [math.ceil] and
      [int()] (truncation) are the exact ones.
    - A call that may raise returns [res A]: [Ret a] for a normal return,
      [Raise e] for an exception that leaves the function.
    - Dictionaries with a fixed key set and string keys are [gmap string _];
      JSON-shaped payloads exchanged with collaborators are values of [json].
    - The external collaborators (pricing service, cluster API, cache) are
      inputs of the functions that call them. *)

From Stdlib Require Import QArith Qround Qabs Qminmax ZArith String Ascii List Lia Lqa.
From stdpp Require Import gmap strings pretty.
Import ListNotations.

Local Open Scope string_scope.

(* ================================================================== *)
(** ** Python primitives *)
(* ================================================================== *)

Module Py.

(** Exceptions that the modelled code can raise. *)
Inductive exn : Type :=
| ValueError
| TypeError
| KeyError
| ZeroDivisionError
| ValidationError
| AttributeError
| HTTPError
| ApiException (status : Z).

Inductive res (A : Type) : Type :=
| Ret (a : A)
| Raise (e : exn).
Arguments Ret {A} a.
Arguments Raise {A} e.

#[global] Instance res_ret : MRet res := fun _ a => Ret a.
#[global] Instance res_bind : MBind res := fun _ _ f m =>
  match m with
  | Ret a => f a
  | Raise e => Raise e
  end.

(** [try: body except Exception: handler] *)
Definition try_except {A} (body : res A) (handler : exn -> res A) : res A :=
  match body with
  | Ret a => Ret a
  | Raise e => handler e
  end.

(** *** Numbers *)

Definition Qltb (a b : Q) : bool := negb (Qle_bool b a).
Definition Qleb (a b : Q) : bool := Qle_bool a b.
Definition Qeqb (a b : Q) : bool := Qeq_bool a b.

(** [max(a, b)] on floats: the first maximal argument. *)
Definition max (a b : Q) : Q := if Qltb a b then b else a.
(** [min(a, b)] on floats: the first minimal argument. *)
Definition min (a b : Q) : Q := if Qltb b a then b else a.

(** [a / b] (true division). *)
Definition div (a b : Q) : res Q :=
  if Qeqb b 0 then Raise ZeroDivisionError else Ret (a / b)%Q.

(** [math.ceil(x)] *)
Definition ceil (x : Q) : Z := Qceiling x.

(** [int(x)] on a float: truncation toward zero. *)
Definition int_of_float (x : Q) : Z :=
  if Qleb 0 x then Qfloor x else Qceiling x.

(** [round(x)]: nearest integer, ties to the even one. *)
Definition round (x : Q) : Z :=
  let f := Qfloor x in
  let r := (x - inject_Z f)%Q in
  if Qltb r (1 # 2) then f
  else if Qltb (1 # 2) r then (f + 1)%Z
  else if Z.even f then f else (f + 1)%Z.

(** *** Strings *)

(** [s.endswith(suffix)] *)
Definition endswith (s suffix : string) : bool :=
  let n := String.length s in
  let k := String.length suffix in
  (k <=? n)%nat && String.eqb (substring (n - k) k s) suffix.

(** [s[:-k]] for [0 < k]. *)
Definition drop_last (k : nat) (s : string) : string :=
  substring 0 (String.length s - k) s.

Definition digit_of (c : ascii) : option N :=
  let n := N_of_ascii c in
  if ((48 <=? n) && (n <=? 57))%N then Some (n - 48)%N else None.

Fixpoint digits_acc (s : string) (acc : N) : option N :=
  match s with
  | EmptyString => Some acc
  | String c s' =>
      match digit_of c with
      | Some d => digits_acc s' (10 * acc + d)%N
      | None => None
      end
  end.

(** A non-empty run of decimal digits. *)
Definition digits (s : string) : option N :=
  match s with
  | EmptyString => None
  | _ => digits_acc s 0%N
  end.

(** Splits off an optional leading sign. *)
Definition split_sign (s : string) : bool * string :=
  match s with
  | String "-" s' => (true, s')
  | String "+" s' => (false, s')
  | _ => (false, s)
  end.

(** Splits at the first character satisfying [p]. *)
Fixpoint split_at (p : ascii -> bool) (s : string) : string * option string :=
  match s with
  | EmptyString => (EmptyString, None)
  | String c s' =>
      if p c then (EmptyString, Some s')
      else let '(a, b) := split_at p s' in (String c a, b)
  end.

(** [int(s)] on a string: an optional sign and decimal digits.  Python
    also accepts surrounding blanks and underscores between digits; such
    spellings are outside this model and are reported as [ValueError]. *)
Definition int_of_string (s : string) : res Z :=
  let '(neg, body) := split_sign s in
  match digits body with
  | Some n => Ret (if neg then (- Z.of_N n)%Z else Z.of_N n)
  | None => Raise ValueError
  end.

Definition is_dot (c : ascii) : bool := Ascii.eqb c ".".
Definition is_exp (c : ascii) : bool := Ascii.eqb c "e" || Ascii.eqb c "E".

Definition mantissa (s : string) : option Q :=
  let '(ip, fp) := split_at is_dot s in
  match fp with
  | None => match digits ip with
            | Some n => Some (inject_Z (Z.of_N n))
            | None => None
            end
  | Some fp =>
      let iv := match ip with EmptyString => Some 0%N | _ => digits ip end in
      let fv := match fp with EmptyString => Some 0%N | _ => digits fp end in
      match ip, fp with
      | EmptyString, EmptyString => None
      | _, _ =>
          match iv, fv with
          | Some i, Some f =>
              Some (inject_Z (Z.of_N i)
                    + inject_Z (Z.of_N f) / inject_Z (10 ^ Z.of_nat (String.length fp)))%Q
          | _, _ => None
          end
      end
  end.

(** [float(s)] on a string: decimal literals with an optional sign,
    fraction and exponent.  [inf], [nan], surrounding blanks and
    underscores are outside this model and are reported as
    [ValueError]. *)
Definition float_of_string (s : string) : res Q :=
  let '(neg, body) := split_sign s in
  let '(m, e) := split_at is_exp body in
  match mantissa m with
  | None => Raise ValueError
  | Some mv =>
      let signed := if neg then (- mv)%Q else mv in
      match e with
      | None => Ret signed
      | Some es =>
          match int_of_string es with
          | Ret ev => Ret (signed * Qpower (10 # 1) ev)%Q
          | Raise _ => Raise ValueError
          end
      end
  end.

(** [str(n)] for an int. *)
Definition str_of_int (n : Z) : string := pretty n.

Fixpoint zeros (k : nat) : string :=
  match k with
  | O => EmptyString
  | S k' => String "0" (zeros k')
  end.

(** [f"{x:.<d>f}"]: fixed notation with [d] decimals, ties to even. *)
Definition format_fixed (d : nat) (x : Q) : string :=
  let scale := (10 ^ Z.of_nat d)%Z in
  let n := Z.abs (round (x * inject_Z scale)%Q) in
  let ip := pretty (n / scale)%Z in
  let fp := pretty (n mod scale)%Z in
  let sign := if Qltb x 0 then "-" else "" in
  match d with
  | O => sign +:+ ip
  | _ => sign +:+ ip +:+ "." +:+ zeros (d - String.length fp) +:+ fp
  end.

End Py.

Import Py.

(* ================================================================== *)
(** ** models.py *)
(* ================================================================== *)

Module OptimizationType.
Inductive t : Type :=
| RIGHT_SIZE_CPU
| RIGHT_SIZE_MEMORY
| REDUCE_REPLICAS
| INCREASE_REPLICAS
| SPOT_INSTANCES
| CHANGE_INSTANCE_TYPE
| CONSOLIDATE_NODES
| MOVE_TO_CHEAPER_REGION
| SCHEDULED_SCALING
| REMOVE_UNUSED.

#[global] Instance eq_dec : EqDecision t.
Proof. solve_decision. Defined.

(** The string value of the enum member. *)
Definition value (x : t) : string :=
  match x with
  | RIGHT_SIZE_CPU => "right_size_cpu"
  | RIGHT_SIZE_MEMORY => "right_size_memory"
  | REDUCE_REPLICAS => "reduce_replicas"
  | INCREASE_REPLICAS => "increase_replicas"
  | SPOT_INSTANCES => "spot_instances"
  | CHANGE_INSTANCE_TYPE => "change_instance_type"
  | CONSOLIDATE_NODES => "consolidate_nodes"
  | MOVE_TO_CHEAPER_REGION => "move_to_cheaper_region"
  | SCHEDULED_SCALING => "scheduled_scaling"
  | REMOVE_UNUSED => "remove_unused"
  end.
End OptimizationType.

Module ResourceSpec.
Record t : Type := mk {
  cpu_request : string;
  memory_request : string;
  cpu_limit : string;
  memory_limit : string
}.

(** [a == b] on two models: field-wise equality. *)
Definition eqb (a b : t) : bool :=
  String.eqb (cpu_request a) (cpu_request b)
  && String.eqb (memory_request a) (memory_request b)
  && String.eqb (cpu_limit a) (cpu_limit b)
  && String.eqb (memory_limit a) (memory_limit b).
End ResourceSpec.

Module Workload.
Record t : Type := mk {
  id : string;
  cluster_id : string;
  cluster_name : string;
  namespace : string;
  name : string;
  kind : string;
  replicas : Z;
  current_resources : ResourceSpec.t;
  provider : string
}.
End Workload.

Module MetricStats.
Record t : Type := mk {
  avg : Q;
  p50 : Q;
  p95 : Q;
  p99 : Q;
  max : Q;
  min : Q
}.
End MetricStats.

Module WorkloadMetrics.
Record t : Type := mk {
  workload_id : string;
  cpu_usage : MetricStats.t;
  memory_usage : MetricStats.t;
  cpu_utilization_pct : Q;
  memory_utilization_pct : Q;
  sample_count : Z;
  time_range_hours : Z
}.
End WorkloadMetrics.

(* ================================================================== *)
(** ** optimizer/ml_engine.py *)
(* ================================================================== *)

Module MLEngine.

Local Open Scope Q_scope.

Definition safety_margin : Q := 1.15.

Definition _calculate_variance (stats : MetricStats.t) : Q :=
  if Qeqb (MetricStats.avg stats) 0 then 0
  else
    let variance :=
      if Qltb 0 (MetricStats.avg stats)
      then (MetricStats.p95 stats - MetricStats.p50 stats) / MetricStats.avg stats
      else 0 in
    Qabs variance.

Definition _format_cpu (cpu_cores : Q) : string :=
  if Qltb cpu_cores 1
  then str_of_int (int_of_float (cpu_cores * 1000)) +:+ "m"
  else format_fixed 1 cpu_cores.

Definition _format_memory (memory_bytes : Z) : string :=
  if (memory_bytes <? 1024 * 1024)%Z
  then str_of_int (memory_bytes / 1024)%Z +:+ "Ki"
  else if (memory_bytes <? 1024 * 1024 * 1024)%Z
  then str_of_int (memory_bytes / (1024 * 1024))%Z +:+ "Mi"
  else str_of_int (memory_bytes / (1024 * 1024 * 1024))%Z +:+ "Gi".

Definition calculate_confidence
    (metrics : WorkloadMetrics.t) (optimization_type : string) : Q :=
  let base_confidence := 0.5 in
  let base_confidence :=
    if (1000 <? WorkloadMetrics.sample_count metrics)%Z then base_confidence + 0.2
    else if (500 <? WorkloadMetrics.sample_count metrics)%Z then base_confidence + 0.15
    else if (100 <? WorkloadMetrics.sample_count metrics)%Z then base_confidence + 0.1
    else base_confidence in
  let cpu_variance := _calculate_variance (WorkloadMetrics.cpu_usage metrics) in
  let memory_variance := _calculate_variance (WorkloadMetrics.memory_usage metrics) in
  let avg_variance := (cpu_variance + memory_variance) / 2 in
  let base_confidence :=
    if Qltb avg_variance 0.15 then base_confidence + 0.2
    else if Qltb avg_variance 0.3 then base_confidence + 0.1
    else base_confidence in
  let base_confidence :=
    if (168 <=? WorkloadMetrics.time_range_hours metrics)%Z then base_confidence + 0.1
    else if (72 <=? WorkloadMetrics.time_range_hours metrics)%Z then base_confidence + 0.05
    else base_confidence in
  let base_confidence :=
    if String.eqb optimization_type "right_sizing" then
      if Qltb (WorkloadMetrics.cpu_utilization_pct metrics) 20
         || Qltb 90 (WorkloadMetrics.cpu_utilization_pct metrics)
      then base_confidence + 0.05
      else base_confidence
    else base_confidence in
  Py.min 1 base_confidence.

Definition right_size_resources
    (workload : Workload.t) (metrics : WorkloadMetrics.t) : ResourceSpec.t * Q :=
  let cpu_p95 := MetricStats.p95 (WorkloadMetrics.cpu_usage metrics) in
  let memory_p95 := MetricStats.p95 (WorkloadMetrics.memory_usage metrics) in
  let recommended_cpu := cpu_p95 * safety_margin in
  let recommended_memory := memory_p95 * safety_margin in
  let recommended_cpu_str := _format_cpu recommended_cpu in
  let recommended_memory_str := _format_memory (int_of_float recommended_memory) in
  let limit_cpu := recommended_cpu * 1.5 in
  let limit_memory := recommended_memory * 1.3 in
  let new_spec :=
    ResourceSpec.mk recommended_cpu_str recommended_memory_str
      (_format_cpu limit_cpu) (_format_memory (int_of_float limit_memory)) in
  let confidence := calculate_confidence metrics "right_sizing" in
  (new_spec, confidence).

(** The dictionary returned by [detect_patterns]. *)
Record Patterns : Type := mkPatterns {
  has_business_hours_pattern : bool;
  has_weekend_pattern : bool;
  has_burst_pattern : bool;
  has_steady_pattern : bool;
  recommended_scaling : string
}.

Definition detect_patterns (metrics : WorkloadMetrics.t) : Patterns :=
  let cpu_variance := _calculate_variance (WorkloadMetrics.cpu_usage metrics) in
  let memory_variance := _calculate_variance (WorkloadMetrics.memory_usage metrics) in
  let patterns :=
    if Qltb 0.4 cpu_variance || Qltb 0.3 memory_variance
    then mkPatterns false false true false "horizontal"
    else if Qltb cpu_variance 0.15 && Qltb memory_variance 0.15
    then mkPatterns false false false true "none"
    else mkPatterns true false false false "scheduled" in
  if Qltb (WorkloadMetrics.cpu_utilization_pct metrics) 30
     && Qltb (WorkloadMetrics.memory_utilization_pct metrics) 30
  then mkPatterns (has_business_hours_pattern patterns) (has_weekend_pattern patterns)
         (has_burst_pattern patterns) (has_steady_pattern patterns) "downsize"
  else patterns.

(** The value of [recommended_replicas] when line 92 is reached: after the
    utilization branches and the StatefulSet guard, before the 15% rule. *)
Definition proposed_replicas
    (workload : Workload.t) (metrics : WorkloadMetrics.t)
    (target_utilization : Q) : res Z :=
  let current_replicas := Workload.replicas workload in
  let avg_cpu_util := WorkloadMetrics.cpu_utilization_pct metrics in
  let avg_memory_util := WorkloadMetrics.memory_utilization_pct metrics in
  let max_utilization := Py.max avg_cpu_util avg_memory_util in
  recommended_replicas ←
    (if Qltb max_utilization 30 then
       let recommended_replicas := Z.max 1 (current_replicas - 1) in
       if Qltb max_utilization 15
       then Ret (Z.max 1 (ceil (inject_Z current_replicas * 0.5)))
       else Ret recommended_replicas
     else if Qltb 85 max_utilization then
       ratio ← Py.div max_utilization target_utilization;
       Ret (ceil (inject_Z current_replicas * ratio))
     else
       ratio ← Py.div max_utilization target_utilization;
       let optimal_replicas := inject_Z current_replicas * ratio in
       Ret (Z.max 1 (round optimal_replicas)));
  if String.eqb (Workload.kind workload) "StatefulSet"
     && (recommended_replicas <? current_replicas)%Z
  then Ret current_replicas
  else Ret recommended_replicas.

Definition optimize_replicas
    (workload : Workload.t) (metrics : WorkloadMetrics.t)
    (target_utilization : Q) : res (Z * Q) :=
  let current_replicas := Workload.replicas workload in
  recommended_replicas ← proposed_replicas workload metrics target_utilization;
  let confidence := calculate_confidence metrics "replica_optimization" in
  change ← Py.div (inject_Z (Z.abs (recommended_replicas - current_replicas)))
                  (inject_Z current_replicas);
  if Qltb change 0.15
  then Ret (current_replicas, confidence)
  else Ret (recommended_replicas, confidence).

(** The default of the keyword argument [target_utilization]. *)
Definition default_target_utilization : Q := 70.

Definition detect_unused_resources
    (metrics : WorkloadMetrics.t) (threshold_pct : Q) : bool :=
  Qltb (WorkloadMetrics.cpu_utilization_pct metrics) threshold_pct
  && Qltb (WorkloadMetrics.memory_utilization_pct metrics) threshold_pct.

Definition recommend_spot_instances
    (workload : Workload.t) (metrics : WorkloadMetrics.t) : bool * Q * string :=
  let confidence := 0.7 in
  let reason := "" in
  if String.eqb (Workload.kind workload) "StatefulSet"
     || String.eqb (Workload.kind workload) "DaemonSet"
  then (false, 0, "StatefulSets and DaemonSets are not suitable for spot instances")
  else
    let patterns := detect_patterns metrics in
    let '(confidence, reason) :=
      if has_burst_pattern patterns
      then (confidence - 0.2,
            "Burst pattern detected, spot interruptions may impact performance")
      else (confidence, reason) in
    let '(confidence, reason) :=
      if Qltb 80 (WorkloadMetrics.cpu_utilization_pct metrics)
         || Qltb 80 (WorkloadMetrics.memory_utilization_pct metrics)
      then (confidence - 0.15,
            "High utilization may be impacted by spot interruptions")
      else (confidence, reason) in
    if (Workload.replicas workload =? 1)%Z
    then (false, 0, "Single replica workload, spot interruptions would cause downtime")
    else
      let reason :=
        if String.eqb reason ""
        then "Workload is suitable for spot instances with appropriate redundancy"
        else reason in
      (true, confidence, reason).

(** The dictionary returned by [detect_scheduled_scaling_opportunity];
    a key that a branch does not set is [None]. *)
Record ScalingOpportunity : Type := mkScaling {
  suitable : bool;
  strategy : string;
  peak_hours : option string;
  peak_days : option string;
  off_peak_scale_down : option Q;
  weekend_scale_down : option Q;
  so_confidence : Q
}.

Definition detect_scheduled_scaling_opportunity
    (metrics : WorkloadMetrics.t) : ScalingOpportunity :=
  let patterns := detect_patterns metrics in
  if has_business_hours_pattern patterns
  then mkScaling true "business_hours" (Some "9am-5pm weekdays") None
         (Some 0.5) None 0.75
  else if has_weekend_pattern patterns
  then mkScaling true "weekend_reduction" None (Some "Monday-Friday")
         None (Some 0.3) 0.7
  else mkScaling false "none" None None None None 0.

End MLEngine.

(* ================================================================== *)
(** ** JSON-shaped values *)
(* ================================================================== *)

(** Payloads of the collaborators and dynamically typed dictionaries.  An
    object lists its items in insertion order; keys are distinct.  [JNum]
    holds the [int] and the [float] values alike; where Python tells them
    apart (a sequence repeated by [*]) a number of integral value is an
    [int]. *)
#[warnings="-register-all"] Inductive json : Type :=
| JNull
| JBool (b : bool)
| JNum (q : Q)
| JStr (s : string)
| JArr (items : list json)
| JObj (fields : list (string * json)).

Module Dict.

(** A Python [dict] with string keys. *)
Definition t : Type := list (string * json).

(** [d.get(k)] *)
Fixpoint get (k : string) (d : t) : option json :=
  match d with
  | [] => None
  | (k', v) :: d' => if String.eqb k k' then Some v else get k d'
  end.

(** [d.get(k, default)] *)
Definition get_default (k : string) (default : json) (d : t) : json :=
  match get k d with
  | Some v => v
  | None => default
  end.

(** [k in d] *)
Definition mem (k : string) (d : t) : bool :=
  match get k d with Some _ => true | None => false end.

(** [d[k] = v] *)
Fixpoint set (k : string) (v : json) (d : t) : t :=
  match d with
  | [] => [(k, v)]
  | (k', v') :: d' =>
      if String.eqb k k' then (k, v) :: d' else (k', v') :: set k v d'
  end.

(** [{**a, **b}] *)
Definition merge (a b : t) : t :=
  fold_left (fun acc kv => set (fst kv) (snd kv) acc) b a.

End Dict.

Module Json.

(** [j[k]] with a string key. *)
Definition subscript (j : json) (k : string) : res json :=
  match j with
  | JObj d =>
      match Dict.get k d with
      | Some v => Ret v
      | None => Raise KeyError
      end
  | _ => Raise TypeError
  end.

(** A value used as an operand of [/], [-] or an ordering against a
    number: a JSON number, or a boolean (an [int] in Python).  Anything else
    makes the operation raise. *)
Definition number (j : json) : res Q :=
  match j with
  | JNum q => Ret q
  | JBool true => Ret 1%Q
  | JBool false => Ret 0%Q
  | _ => Raise TypeError
  end.

(** A value given to a [float] field of a pydantic model: a number or a
    boolean as it is, a string through [float()]; anything else is
    refused. *)
Definition float_field (j : json) : res Q :=
  match j with
  | JNum q => Ret q
  | JBool true => Ret 1%Q
  | JBool false => Ret 0%Q
  | JStr s => try_except (float_of_string s) (fun _ => Raise ValidationError)
  | _ => Raise ValidationError
  end.

Definition is_int (n : Q) : bool := Qeqb (inject_Z (Qfloor n)) n.

Fixpoint repeat_string (s : string) (k : nat) : string :=
  match k with
  | O => EmptyString
  | S k' => s +:+ repeat_string s k'
  end.

(** [j * n] for a number [n]: the product of two numbers, or a sequence
    repeated [n] times when [n] is an [int]. *)
Definition times (j : json) (n : Q) : res json :=
  match j with
  | JNum q => Ret (JNum (q * n))
  | JBool true => Ret (JNum (1 * n))
  | JBool false => Ret (JNum (0 * n))
  | JStr s =>
      if is_int n then Ret (JStr (repeat_string s (Z.to_nat (Qfloor n))))
      else Raise TypeError
  | JArr l =>
      if is_int n then Ret (JArr (concat (repeat l (Z.to_nat (Qfloor n)))))
      else Raise TypeError
  | _ => Raise TypeError
  end.

(** A value used as a string (a method of [str] is called on it). *)
Definition str (j : json) : res string :=
  match j with
  | JStr s => Ret s
  | _ => Raise AttributeError
  end.

(** Truth value of [j] in a condition. *)
Definition truthy (j : json) : bool :=
  match j with
  | JNull => false
  | JBool b => b
  | JNum q => negb (Qeqb q 0)
  | JStr s => negb (String.eqb s "")
  | JArr l => match l with [] => false | _ => true end
  | JObj d => match d with [] => false | _ => true end
  end.

End Json.

(* ================================================================== *)
(** ** models.py: costs *)
(* ================================================================== *)

Module CostBreakdown.
Local Open Scope Q_scope.

Record t : Type := mk {
  compute : Q;
  memory : Q;
  storage : Q;
  network : Q;
  total : Q
}.

(** The [Field(ge=0)] constraints. *)
Definition valid (b : t) : Prop :=
  0 <= compute b /\ 0 <= memory b /\ 0 <= storage b /\ 0 <= network b
  /\ 0 <= total b.

(** The validating constructor. *)
Definition make (compute memory storage network total : Q) : res t :=
  if Qleb 0 compute && Qleb 0 memory && Qleb 0 storage && Qleb 0 network
     && Qleb 0 total
  then Ret (mk compute memory storage network total)
  else Raise ValidationError.

(** The constructor called on values of a payload. *)
Definition validate (compute memory storage network total : json) : res t :=
  compute ← Json.float_field compute;
  memory ← Json.float_field memory;
  storage ← Json.float_field storage;
  network ← Json.float_field network;
  total ← Json.float_field total;
  make compute memory storage network total.
End CostBreakdown.

Module CostEstimate.
Local Open Scope Q_scope.

Record t : Type := mk {
  hourly : Q;
  daily : Q;
  monthly : Q;
  yearly : Q;
  breakdown : CostBreakdown.t
}.

(** The [Field(ge=0)] constraints, on the estimate and on its breakdown. *)
Definition valid (c : t) : Prop :=
  0 <= hourly c /\ 0 <= daily c /\ 0 <= monthly c /\ 0 <= yearly c
  /\ CostBreakdown.valid (breakdown c).

(** The validating constructor; [breakdown] is an instance already. *)
Definition make (hourly daily monthly yearly : Q) (breakdown : CostBreakdown.t) : res t :=
  if Qleb 0 hourly && Qleb 0 daily && Qleb 0 monthly && Qleb 0 yearly
  then Ret (mk hourly daily monthly yearly breakdown)
  else Raise ValidationError.
End CostEstimate.

(* ================================================================== *)
(** ** The pricing collaborator *)
(* ================================================================== *)

Module Http.

(** What an HTTP call yields: no response at all (time-out, connection
    error), or a status with a body that is JSON ([Some]) or not ([None]). *)
Inductive reply : Type :=
| NoResponse
| Response (status : Z) (body : option json).

(** [response = await client.post(...); response.raise_for_status();
    response.json()] *)
Definition json_of (r : reply) : res json :=
  match r with
  | NoResponse => Raise HTTPError
  | Response status body =>
      if ((200 <=? status) && (status <? 300))%Z then
        match body with
        | Some j => Ret j
        | None => Raise ValueError
        end
      else Raise HTTPError
  end.

End Http.

(** The body of a [POST {pricing_url}/pricing] request. *)
Module PricingRequest.
Record t : Type := mk {
  instance_type : string;
  cpu_cores : Q;
  memory_gb : Q;
  storage_gb : Q;
  network_gb : Q;
  hours : Q;
  region : string
}.
End PricingRequest.

(* ================================================================== *)
(** ** optimizer/cost_calculator.py *)
(* ================================================================== *)

Module CostCalculator.

Local Open Scope Q_scope.

(** The defaults of the three URL settings. *)
Definition aws_pricing_url : string := "http://aws-pricing-api:8000".
Definition gcp_pricing_url : string := "http://gcp-pricing-api:8000".
Definition azure_pricing_url : string := "http://azure-pricing-api:8000".

Definition lower_ascii (c : ascii) : ascii :=
  let n := N_of_ascii c in
  if ((65 <=? n) && (n <=? 90))%N then ascii_of_N (n + 32) else c.

(** [s.lower()] on ASCII text. *)
Fixpoint lower (s : string) : string :=
  match s with
  | EmptyString => EmptyString
  | String c s' => String (lower_ascii c) (lower s')
  end.

Definition _get_pricing_url (provider : string) : string :=
  let p := lower provider in
  if String.eqb p "aws" then aws_pricing_url
  else if String.eqb p "gcp" then gcp_pricing_url
  else if String.eqb p "azure" then azure_pricing_url
  else aws_pricing_url.

Definition _parse_cpu (cpu_string : string) : res Q :=
  if endswith cpu_string "m"
  then x ← float_of_string (drop_last 1 cpu_string); Ret (x / 1000)
  else float_of_string cpu_string.

(** The [multipliers] table, in its iteration order. *)
Definition multipliers : list (string * Z) :=
  [ ("Ki", 1024); ("Mi", 1024 * 1024); ("Gi", 1024 * 1024 * 1024);
    ("K", 1000); ("M", 1000 * 1000); ("G", 1000 * 1000 * 1000) ]%Z.

Fixpoint _parse_memory_loop (table : list (string * Z)) (memory_string : string)
  : res Z :=
  match table with
  | [] => int_of_string memory_string
  | (suffix, multiplier) :: table' =>
      if endswith memory_string suffix
      then x ← float_of_string (drop_last (String.length suffix) memory_string);
           Ret (int_of_float (x * inject_Z multiplier))
      else _parse_memory_loop table' memory_string
  end.

Definition _parse_memory (memory_string : string) : res Z :=
  _parse_memory_loop multipliers memory_string.

Definition bytes_per_gb : Q := inject_Z (1024 ^ 3).

(** The provider table shared by [_infer_instance_type] and
    [_infer_instance_type_from_config]. *)
Definition instance_table (provider : string) (cpu_cores memory_gb : Q) : string :=
  if String.eqb provider "aws" then
    if Qleb cpu_cores 0.5 && Qleb memory_gb 1 then "t3.micro"
    else if Qleb cpu_cores 1 && Qleb memory_gb 2 then "t3.small"
    else if Qleb cpu_cores 2 && Qleb memory_gb 4 then "t3.medium"
    else if Qleb cpu_cores 2 && Qleb memory_gb 8 then "m5.large"
    else if Qleb cpu_cores 4 && Qleb memory_gb 16 then "m5.xlarge"
    else "m5.2xlarge"
  else if String.eqb provider "gcp" then
    if Qleb cpu_cores 0.5 && Qleb memory_gb 1 then "e2-micro"
    else if Qleb cpu_cores 1 && Qleb memory_gb 2 then "e2-small"
    else if Qleb cpu_cores 2 && Qleb memory_gb 4 then "e2-medium"
    else if Qleb cpu_cores 2 && Qleb memory_gb 8 then "n2-standard-2"
    else if Qleb cpu_cores 4 && Qleb memory_gb 16 then "n2-standard-4"
    else "n2-standard-8"
  else
    if Qleb cpu_cores 1 && Qleb memory_gb 1 then "B1s"
    else if Qleb cpu_cores 2 && Qleb memory_gb 4 then "B2s"
    else if Qleb cpu_cores 2 && Qleb memory_gb 8 then "Standard_D2s_v3"
    else if Qleb cpu_cores 4 && Qleb memory_gb 16 then "Standard_D4s_v3"
    else "Standard_D8s_v3".

Definition _infer_instance_type (workload : Workload.t) (provider : string)
  : res string :=
  cpu_cores ← _parse_cpu (ResourceSpec.cpu_request (Workload.current_resources workload));
  memory ← _parse_memory (ResourceSpec.memory_request (Workload.current_resources workload));
  let memory_gb := inject_Z memory / bytes_per_gb in
  Ret (instance_table provider cpu_cores memory_gb).

Definition _infer_instance_type_from_config (config : Dict.t) (provider : string)
  : res string :=
  cpu_string ← Json.str (Dict.get_default "cpu_request" (JStr "1000m") config);
  cpu_cores ← _parse_cpu cpu_string;
  memory_string ← Json.str (Dict.get_default "memory_request" (JStr "1Gi") config);
  memory ← _parse_memory memory_string;
  let memory_gb := inject_Z memory / bytes_per_gb in
  Ret (instance_table provider cpu_cores memory_gb).

Definition request_data (instance_type : string) (cpu_cores memory_gb : Q)
  : PricingRequest.t :=
  PricingRequest.mk instance_type cpu_cores memory_gb 10 50 730 "us-east-1".

(** The body of the [try] block of [fetch_current_costs] and of
    [calculate_optimized_costs], from the reply of the collaborator. *)
Definition priced (reply : Http.reply) (replicas : Q) : res CostEstimate.t :=
  pricing_data ← Http.json_of reply;
  b ← Json.subscript pricing_data "breakdown";
  compute ← Json.subscript b "compute";
  memory ← Json.subscript b "memory";
  storage ← Json.subscript b "storage";
  network ← Json.subscript b "network";
  total ← Json.subscript b "total";
  breakdown ← CostBreakdown.validate compute memory storage network total;
  monthly_cost ← Json.subscript pricing_data "monthly_cost"
                   ≫= fun x => Json.times x replicas;
  hourly ← Json.subscript pricing_data "hourly_cost"
             ≫= fun x => Json.times x replicas;
  monthly_cost ← Json.number monthly_cost;
  hourly ← Json.float_field hourly;
  CostEstimate.make hourly (monthly_cost / 30) monthly_cost
    (monthly_cost * 12) breakdown.

(** The common tail of the two fall-back estimates. *)
Definition linear_estimate (cpu_cores memory_gb replicas : Q) : res CostEstimate.t :=
  let hourly_cost := (cpu_cores * 0.04 + memory_gb * 0.005) * replicas in
  let monthly_cost := hourly_cost * 730 in
  breakdown ← CostBreakdown.make (monthly_cost * 0.7) (monthly_cost * 0.2)
                 (monthly_cost * 0.05) (monthly_cost * 0.05) monthly_cost;
  CostEstimate.make hourly_cost (monthly_cost / 30) monthly_cost
    (monthly_cost * 12) breakdown.

Definition _fallback_cost_estimate (workload : Workload.t) : res CostEstimate.t :=
  cpu_cores ← _parse_cpu (ResourceSpec.cpu_request (Workload.current_resources workload));
  memory ← _parse_memory (ResourceSpec.memory_request (Workload.current_resources workload));
  let memory_gb := inject_Z memory / bytes_per_gb in
  linear_estimate cpu_cores memory_gb (inject_Z (Workload.replicas workload)).

Definition config_replicas (workload : Workload.t) (recommended_config : Dict.t) : res Q :=
  Json.number (Dict.get_default "replicas" (JNum (inject_Z (Workload.replicas workload)))
                 recommended_config).

Definition _fallback_optimized_cost_estimate
    (workload : Workload.t) (recommended_config : Dict.t) : res CostEstimate.t :=
  let resources := Workload.current_resources workload in
  cpu_string ← Json.str (Dict.get_default "cpu_request"
                           (JStr (ResourceSpec.cpu_request resources)) recommended_config);
  cpu_cores ← _parse_cpu cpu_string;
  memory_string ← Json.str (Dict.get_default "memory_request"
                              (JStr (ResourceSpec.memory_request resources)) recommended_config);
  memory ← _parse_memory memory_string;
  let memory_gb := inject_Z memory / bytes_per_gb in
  replicas ← config_replicas workload recommended_config;
  linear_estimate cpu_cores memory_gb replicas.

(** The collaborator behind [self.client.post]: the reply to a request
    sent to a URL. *)
Definition pricing_service : Type := string -> PricingRequest.t -> Http.reply.

Definition fetch_current_costs
    (post : pricing_service) (workload : Workload.t) (instance_type : option string)
  : res CostEstimate.t :=
  let provider := lower (Workload.provider workload) in
  let pricing_url := _get_pricing_url provider in
  instance_type ←
    match instance_type with
    | Some s => if String.eqb s "" then _infer_instance_type workload provider else Ret s
    | None => _infer_instance_type workload provider
    end;
  cpu_cores ← _parse_cpu (ResourceSpec.cpu_request (Workload.current_resources workload));
  memory ← _parse_memory (ResourceSpec.memory_request (Workload.current_resources workload));
  let memory_gb := inject_Z memory / bytes_per_gb in
  let request := request_data instance_type cpu_cores memory_gb in
  try_except
    (priced (post (pricing_url +:+ "/pricing") request)
       (inject_Z (Workload.replicas workload)))
    (fun _ => _fallback_cost_estimate workload).

Definition calculate_optimized_costs
    (post : pricing_service) (workload : Workload.t) (recommended_config : Dict.t)
    (instance_type : option string)
  : res CostEstimate.t :=
  let provider := lower (Workload.provider workload) in
  let pricing_url := _get_pricing_url provider in
  let resources := Workload.current_resources workload in
  instance_type ←
    match instance_type with
    | Some s =>
        if String.eqb s "" then _infer_instance_type_from_config recommended_config provider
        else Ret s
    | None => _infer_instance_type_from_config recommended_config provider
    end;
  cpu_string ← Json.str (Dict.get_default "cpu_request"
                           (JStr (ResourceSpec.cpu_request resources)) recommended_config);
  cpu_cores ← _parse_cpu cpu_string;
  memory_string ← Json.str (Dict.get_default "memory_request"
                              (JStr (ResourceSpec.memory_request resources)) recommended_config);
  memory ← _parse_memory memory_string;
  let memory_gb := inject_Z memory / bytes_per_gb in
  let replicas := Dict.get_default "replicas"
                    (JNum (inject_Z (Workload.replicas workload))) recommended_config in
  let request := request_data instance_type cpu_cores memory_gb in
  try_except
    (replicas ← Json.number replicas;
     priced (post (pricing_url +:+ "/pricing") request) replicas)
    (fun _ => _fallback_optimized_cost_estimate workload recommended_config).

(** The dictionary returned by [spot_vs_ondemand]. *)
Record SpotSummary : Type := mkSpot {
  on_demand_monthly : Q;
  spot_monthly : Q;
  monthly_savings : Q;
  savings_percentage : Q;
  discount_percentage : json;
  interruption_rate : json
}.

Definition no_spot_summary : SpotSummary :=
  mkSpot 0 0 0 0 (JNum 0) (JStr "unknown").

(** [[p for p in prices if p["instance_type"] == instance_type]] *)
Fixpoint matching_prices (prices : list json) (instance_type : string)
  : res (list json) :=
  match prices with
  | [] => Ret []
  | p :: prices' =>
      it ← Json.subscript p "instance_type";
      rest ← matching_prices prices' instance_type;
      match it with
      | JStr s => if String.eqb s instance_type then Ret (p :: rest) else Ret rest
      | _ => Ret rest
      end
  end.

(** Iterating over [spot_data.get("prices", [])]. *)
Definition price_items (spot_data : json) : res (list json) :=
  match spot_data with
  | JObj d =>
      match Dict.get_default "prices" (JArr []) d with
      | JArr l => Ret l
      | JStr s => if String.eqb s "" then Ret [] else Raise TypeError
      | JObj [] => Ret []
      | _ => Raise TypeError
      end
  | _ => Raise AttributeError
  end.

(** [p.get("interruption_rate", "unknown")] on the first match. *)
Definition get_interruption_rate (p : json) : res json :=
  match p with
  | JObj d => Ret (Dict.get_default "interruption_rate" (JStr "unknown") d)
  | _ => Raise AttributeError
  end.

(** The collaborator behind [self.client.get]. *)
Definition spot_service : Type := string -> Http.reply.

(** The body of the [try] block of [spot_vs_ondemand]; [None] when no
    price matches. *)
Definition spot_lookup (reply : Http.reply) (instance_type : string) (replicas : Q)
  : res (option SpotSummary) :=
  spot_data ← Http.json_of reply;
  items ← price_items spot_data;
  spot_prices ← matching_prices items instance_type;
  match spot_prices with
  | [] => Ret None
  | spot_price :: _ =>
      on_demand ← Json.subscript spot_price "on_demand_price" ≫= Json.number;
      let on_demand_monthly := on_demand * 730 * replicas in
      spot ← Json.subscript spot_price "spot_price" ≫= Json.number;
      let spot_monthly := spot * 730 * replicas in
      let savings := on_demand_monthly - spot_monthly in
      discount ← Json.subscript spot_price "discount_percentage";
      rate ← get_interruption_rate spot_price;
      Ret (Some (mkSpot on_demand_monthly spot_monthly savings
                   (if Qltb 0 on_demand_monthly
                    then savings / on_demand_monthly * 100 else 0)
                   discount rate))
  end.

Definition spot_vs_ondemand
    (get : spot_service) (workload : Workload.t) (instance_type : option string)
  : res SpotSummary :=
  let provider := lower (Workload.provider workload) in
  let pricing_url := _get_pricing_url provider in
  instance_type ←
    match instance_type with
    | Some s => if String.eqb s "" then _infer_instance_type workload provider else Ret s
    | None => _infer_instance_type workload provider
    end;
  match spot_lookup (get (pricing_url +:+ "/spot-prices")) instance_type
          (inject_Z (Workload.replicas workload)) with
  | Ret (Some summary) => Ret summary
  | Ret None => Ret no_spot_summary
  | Raise _ => Ret no_spot_summary
  end.

End CostCalculator.

(* ================================================================== *)
(** ** models.py: recommendations *)
(* ================================================================== *)

Module RiskLevel.
Inductive t : Type := LOW | MEDIUM | HIGH | CRITICAL.

#[global] Instance eq_dec : EqDecision t.
Proof. solve_decision. Defined.

(** The string value of the enum member, as it is serialised. *)
Definition value (x : t) : string :=
  match x with
  | LOW => "low"
  | MEDIUM => "medium"
  | HIGH => "high"
  | CRITICAL => "critical"
  end.
End RiskLevel.

Module RiskAssessment.
Local Open Scope Q_scope.

Record t : Type := mk {
  level : RiskLevel.t;
  score : Q;
  factors : list string;
  mitigation_steps : list string
}.

(** The validating constructor: [score: float = Field(ge=0, le=1.0)]. *)
Definition make (level : RiskLevel.t) (score : Q)
    (factors mitigation_steps : list string) : res t :=
  if Qleb 0 score && Qleb score 1
  then Ret (mk level score factors mitigation_steps)
  else Raise ValidationError.
End RiskAssessment.

Module RollbackPlan.
Record t : Type := mk {
  steps : list string;
  estimated_time_minutes : Z;
  automation_available : bool
}.
End RollbackPlan.

(** [OptimizationRecommendation], without [id] (a random UUID) and
    [created_at] (the clock). *)
Module Recommendation.
Local Open Scope Q_scope.

Record t : Type := mk {
  workload_id : string;
  workload_name : string;
  cluster_name : string;
  namespace : string;
  optimization_type : OptimizationType.t;
  title : string;
  description : string;
  current_config : Dict.t;
  recommended_config : Dict.t;
  current_cost : CostEstimate.t;
  optimized_cost : CostEstimate.t;
  monthly_savings : Q;
  yearly_savings : Q;
  savings_percentage : Q;
  confidence_score : Q;
  risk_assessment : RiskAssessment.t;
  rollback_plan : RollbackPlan.t;
  dependencies : list string;
  implementation_complexity : string;
  estimated_implementation_time : string;
  status : string
}.

(** The validating constructor: [monthly_savings] and [yearly_savings] are
    [ge=0], [savings_percentage] is in [0, 100], [confidence_score] in
    [0, 1]; nested model instances are taken as they are. *)
Definition make (r : t) : res t :=
  if Qleb 0 (monthly_savings r) && Qleb 0 (yearly_savings r)
     && Qleb 0 (savings_percentage r) && Qleb (savings_percentage r) 100
     && Qleb 0 (confidence_score r) && Qleb (confidence_score r) 1
  then Ret r
  else Raise ValidationError.
End Recommendation.

(* ================================================================== *)
(** ** optimizer/recommender.py *)
(* ================================================================== *)

Module Recommender.

Local Open Scope Q_scope.
Import OptimizationType RiskLevel.

(** The answers of the pricing collaborator to the calls of one analysis,
    by call site: the service may answer the same request differently at
    different times. *)
Record collaborator : Type := mkCollaborator {
  post_current : CostCalculator.pricing_service;
  post_right_size : CostCalculator.pricing_service;
  post_replicas : CostCalculator.pricing_service;
  get_spot_prices : CostCalculator.spot_service
}.

(** [workload.current_resources.dict()] *)
Definition resources_dict (r : ResourceSpec.t) : Dict.t :=
  [ ("cpu_request", JStr (ResourceSpec.cpu_request r));
    ("memory_request", JStr (ResourceSpec.memory_request r));
    ("cpu_limit", JStr (ResourceSpec.cpu_limit r));
    ("memory_limit", JStr (ResourceSpec.memory_limit r)) ].

Definition jint (n : Z) : json := JNum (inject_Z n).

(** [(savings / current_cost.monthly * 100) if current_cost.monthly > 0 else 0] *)
Definition savings_pct (savings : Q) (current_cost : CostEstimate.t) : Q :=
  if Qltb 0 (CostEstimate.monthly current_cost)
  then savings / CostEstimate.monthly current_cost * 100
  else 0.

Definition assess_risk
    (workload : Workload.t) (optimization_type : OptimizationType.t)
    (metrics : option WorkloadMetrics.t) : res RiskAssessment.t :=
  let risk_score := 0.3 in
  let factors : list string := [] in
  let mitigation_steps : list string := [] in
  let '(risk_score, factors, mitigation_steps) :=
    if String.eqb (Workload.kind workload) "StatefulSet"
    then (risk_score + 0.2,
          (factors ++ ["StatefulSet requires careful handling"])%list,
          (mitigation_steps ++ ["Test in staging environment first"])%list)
    else (risk_score, factors, mitigation_steps) in
  let '(risk_score, factors, mitigation_steps) :=
    if (Workload.replicas workload =? 1)%Z
    then (risk_score + 0.15,
          (factors ++ ["Single replica - no redundancy"])%list,
          (mitigation_steps ++ ["Consider increasing replicas before optimization"])%list)
    else (risk_score, factors, mitigation_steps) in
  let '(risk_score, factors, mitigation_steps) :=
    if bool_decide (optimization_type = REDUCE_REPLICAS)
       || bool_decide (optimization_type = RIGHT_SIZE_CPU)
    then
      match metrics with
      | Some m =>
          if Qltb 80 (WorkloadMetrics.cpu_utilization_pct m)
          then (risk_score + 0.2,
                (factors ++ ["High CPU utilization"])%list,
                (mitigation_steps ++ ["Monitor performance closely after change"])%list)
          else (risk_score, factors, mitigation_steps)
      | None => (risk_score, factors, mitigation_steps)
      end
    else (risk_score, factors, mitigation_steps) in
  let '(risk_score, factors, mitigation_steps) :=
    if bool_decide (optimization_type = SPOT_INSTANCES)
    then (0.5,
          (factors ++ ["Spot instances can be interrupted"])%list,
          (mitigation_steps ++ ["Ensure application handles interruptions gracefully";
                               "Maintain on-demand fallback capacity"])%list)
    else (risk_score, factors, mitigation_steps) in
  let level :=
    if Qleb 0.7 risk_score then HIGH
    else if Qleb 0.5 risk_score then MEDIUM
    else LOW in
  RiskAssessment.make level (Py.min 1 risk_score)
    (match factors with [] => ["Standard optimization"] | _ => factors end)
    (match mitigation_steps with
     | [] => ["Follow standard deployment procedures"]
     | _ => mitigation_steps
     end).

Definition create_rollback_plan
    (workload : Workload.t) (optimization_type : OptimizationType.t) : RollbackPlan.t :=
  let resources := Workload.current_resources workload in
  let '(steps, estimated_time) :=
    if bool_decide (optimization_type = RIGHT_SIZE_CPU)
       || bool_decide (optimization_type = RIGHT_SIZE_MEMORY)
    then ([ "Restore original resource requests: " +:+ ResourceSpec.cpu_request resources
              +:+ " CPU, " +:+ ResourceSpec.memory_request resources +:+ " memory";
            "Apply updated manifest";
            "Verify pod stability" ], 5%Z)
    else if bool_decide (optimization_type = REDUCE_REPLICAS)
            || bool_decide (optimization_type = INCREASE_REPLICAS)
    then ([ "Scale back to " +:+ str_of_int (Workload.replicas workload) +:+ " replicas";
            "Verify all pods are running" ], 2%Z)
    else if bool_decide (optimization_type = SPOT_INSTANCES)
    then ([ "Switch back to on-demand instances";
            "Verify application availability";
            "Monitor for stability" ], 10%Z)
    else if bool_decide (optimization_type = SCHEDULED_SCALING)
    then ([ "Remove HorizontalPodAutoscaler or CronJob";
            "Set replicas to constant " +:+ str_of_int (Workload.replicas workload) ], 5%Z)
    else ([ "Revert to previous configuration"; "Verify workload health" ], 5%Z) in
  RollbackPlan.mk steps estimated_time true.

Definition utilization_text (metrics : WorkloadMetrics.t) : string :=
  "(CPU: " +:+ format_fixed 1 (WorkloadMetrics.cpu_utilization_pct metrics)
  +:+ "%, Memory: " +:+ format_fixed 1 (WorkloadMetrics.memory_utilization_pct metrics)
  +:+ "%)".

Definition _create_right_sizing_recommendation
    (env : collaborator) (workload : Workload.t) (metrics : WorkloadMetrics.t)
    (current_cost : CostEstimate.t) : res (option Recommendation.t) :=
  let '(new_resources, confidence) := MLEngine.right_size_resources workload metrics in
  if ResourceSpec.eqb new_resources (Workload.current_resources workload)
  then Ret None
  else
    let recommended_config : Dict.t :=
      [ ("cpu_request", JStr (ResourceSpec.cpu_request new_resources));
        ("memory_request", JStr (ResourceSpec.memory_request new_resources));
        ("cpu_limit", JStr (ResourceSpec.cpu_limit new_resources));
        ("memory_limit", JStr (ResourceSpec.memory_limit new_resources));
        ("replicas", jint (Workload.replicas workload)) ] in
    optimized_cost ← CostCalculator.calculate_optimized_costs
                       (post_right_size env) workload recommended_config None;
    let savings := CostEstimate.monthly current_cost - CostEstimate.monthly optimized_cost in
    if Qleb savings 0 then Ret None
    else
      risk ← assess_risk workload RIGHT_SIZE_CPU (Some metrics);
      let rollback := create_rollback_plan workload RIGHT_SIZE_CPU in
      r ← Recommendation.make
            {| Recommendation.workload_id := Workload.id workload;
               Recommendation.workload_name := Workload.name workload;
               Recommendation.cluster_name := Workload.cluster_name workload;
               Recommendation.namespace := Workload.namespace workload;
               Recommendation.optimization_type := RIGHT_SIZE_CPU;
               Recommendation.title := "Right-size resources for " +:+ Workload.name workload;
               Recommendation.description :=
                 "Reduce resource requests based on P95 utilization "
                 +:+ utilization_text metrics;
               Recommendation.current_config :=
                 resources_dict (Workload.current_resources workload);
               Recommendation.recommended_config := recommended_config;
               Recommendation.current_cost := current_cost;
               Recommendation.optimized_cost := optimized_cost;
               Recommendation.monthly_savings := savings;
               Recommendation.yearly_savings := savings * 12;
               Recommendation.savings_percentage := savings_pct savings current_cost;
               Recommendation.confidence_score := confidence;
               Recommendation.risk_assessment := risk;
               Recommendation.rollback_plan := rollback;
               Recommendation.dependencies := [];
               Recommendation.implementation_complexity := "low";
               Recommendation.estimated_implementation_time := "5-10 minutes";
               Recommendation.status := "pending" |};
      Ret (Some r).

Definition _create_replica_optimization_recommendation
    (env : collaborator) (workload : Workload.t) (metrics : WorkloadMetrics.t)
    (current_cost : CostEstimate.t) : res (option Recommendation.t) :=
  '(recommended_replicas, confidence) ←
    MLEngine.optimize_replicas workload metrics MLEngine.default_target_utilization;
  if (recommended_replicas =? Workload.replicas workload)%Z
  then Ret None
  else
    let recommended_config : Dict.t :=
      Dict.merge (resources_dict (Workload.current_resources workload))
        [ ("replicas", jint recommended_replicas) ] in
    optimized_cost ← CostCalculator.calculate_optimized_costs
                       (post_replicas env) workload recommended_config None;
    let savings := CostEstimate.monthly current_cost - CostEstimate.monthly optimized_cost in
    if Qleb savings 0 then Ret None
    else
      let opt_type :=
        if (recommended_replicas <? Workload.replicas workload)%Z
        then REDUCE_REPLICAS else INCREASE_REPLICAS in
      risk ← assess_risk workload opt_type (Some metrics);
      let rollback := create_rollback_plan workload opt_type in
      r ← Recommendation.make
            {| Recommendation.workload_id := Workload.id workload;
               Recommendation.workload_name := Workload.name workload;
               Recommendation.cluster_name := Workload.cluster_name workload;
               Recommendation.namespace := Workload.namespace workload;
               Recommendation.optimization_type := opt_type;
               Recommendation.title := "Optimize replica count for " +:+ Workload.name workload;
               Recommendation.description :=
                 "Adjust replicas from " +:+ str_of_int (Workload.replicas workload)
                 +:+ " to " +:+ str_of_int recommended_replicas
                 +:+ " based on utilization patterns";
               Recommendation.current_config :=
                 Dict.merge [ ("replicas", jint (Workload.replicas workload)) ]
                   (resources_dict (Workload.current_resources workload));
               Recommendation.recommended_config := recommended_config;
               Recommendation.current_cost := current_cost;
               Recommendation.optimized_cost := optimized_cost;
               Recommendation.monthly_savings := savings;
               Recommendation.yearly_savings := savings * 12;
               Recommendation.savings_percentage := savings_pct savings current_cost;
               Recommendation.confidence_score := confidence;
               Recommendation.risk_assessment := risk;
               Recommendation.rollback_plan := rollback;
               Recommendation.dependencies := [];
               Recommendation.implementation_complexity := "low";
               Recommendation.estimated_implementation_time := "2-5 minutes";
               Recommendation.status := "pending" |};
      Ret (Some r).

(** [f"{x:.0f}"] on a dynamically typed value. *)
Definition format_number_0 (j : json) : res string :=
  match j with
  | JNum q => Ret (format_fixed 0 q)
  | JBool b => Ret (if b then "1" else "0")
  | JStr _ => Raise ValueError
  | _ => Raise TypeError
  end.

Definition _create_spot_instance_recommendation
    (env : collaborator) (workload : Workload.t) (metrics : WorkloadMetrics.t)
    (current_cost : CostEstimate.t) : res (option Recommendation.t) :=
  let '(is_suitable, confidence, reason) :=
    MLEngine.recommend_spot_instances workload metrics in
  if negb is_suitable then Ret None
  else
    spot_data ← CostCalculator.spot_vs_ondemand (get_spot_prices env) workload None;
    let savings := CostCalculator.monthly_savings spot_data in
    if Qleb savings 0 then Ret None
    else
      let recommended_config : Dict.t :=
        Dict.merge (resources_dict (Workload.current_resources workload))
          [ ("instance_type", JStr "spot");
            ("replicas", jint (Workload.replicas workload)) ] in
      let optimized_monthly := CostCalculator.spot_monthly spot_data in
      let optimized_cost :=
        CostEstimate.mk (CostEstimate.hourly current_cost)
          (CostEstimate.daily current_cost) optimized_monthly
          (optimized_monthly * 12) (CostEstimate.breakdown current_cost) in
      risk ← RiskAssessment.make MEDIUM 0.5
               [ "Potential spot instance interruptions";
                 "Requires fault-tolerant application design" ]
               [ "Ensure replicas > 1"; "Implement graceful shutdown";
                 "Use spot instance pools" ];
      let rollback :=
        RollbackPlan.mk [ "Scale back to on-demand instances";
                          "Verify application stability" ] 5 true in
      discount ← format_number_0 (CostCalculator.discount_percentage spot_data);
      r ← Recommendation.make
            {| Recommendation.workload_id := Workload.id workload;
               Recommendation.workload_name := Workload.name workload;
               Recommendation.cluster_name := Workload.cluster_name workload;
               Recommendation.namespace := Workload.namespace workload;
               Recommendation.optimization_type := SPOT_INSTANCES;
               Recommendation.title := "Use spot instances for " +:+ Workload.name workload;
               Recommendation.description :=
                 "Switch to spot instances for " +:+ discount +:+ "% savings. " +:+ reason;
               Recommendation.current_config :=
                 Dict.merge [ ("instance_type", JStr "on-demand") ]
                   (resources_dict (Workload.current_resources workload));
               Recommendation.recommended_config := recommended_config;
               Recommendation.current_cost := current_cost;
               Recommendation.optimized_cost := optimized_cost;
               Recommendation.monthly_savings := savings;
               Recommendation.yearly_savings := savings * 12;
               Recommendation.savings_percentage := savings_pct savings current_cost;
               Recommendation.confidence_score := confidence;
               Recommendation.risk_assessment := risk;
               Recommendation.rollback_plan := rollback;
               Recommendation.dependencies := [];
               Recommendation.implementation_complexity := "medium";
               Recommendation.estimated_implementation_time := "15-30 minutes";
               Recommendation.status := "pending" |};
      Ret (Some r).

Definition _create_scheduled_scaling_recommendation
    (workload : Workload.t) (metrics : WorkloadMetrics.t)
    (current_cost : CostEstimate.t) : res (option Recommendation.t) :=
  let scaling_opportunity := MLEngine.detect_scheduled_scaling_opportunity metrics in
  if negb (MLEngine.suitable scaling_opportunity) then Ret None
  else
    let scale_down_factor :=
      match MLEngine.off_peak_scale_down scaling_opportunity with
      | Some f => f
      | None => 0.5
      end in
    let estimated_savings :=
      CostEstimate.monthly current_cost * (1 - scale_down_factor) * 0.5 in
    if Qleb estimated_savings 0 then Ret None
    else
      let recommended_config : Dict.t :=
        Dict.merge (resources_dict (Workload.current_resources workload))
          [ ("scaling_schedule", JStr (MLEngine.strategy scaling_opportunity));
            ("peak_replicas", jint (Workload.replicas workload));
            ("off_peak_replicas",
             jint (Z.max 1 (int_of_float
                              (inject_Z (Workload.replicas workload) * scale_down_factor)))) ] in
      let optimized_monthly := CostEstimate.monthly current_cost - estimated_savings in
      let optimized_cost :=
        CostEstimate.mk (CostEstimate.hourly current_cost)
          (CostEstimate.daily current_cost) optimized_monthly
          (optimized_monthly * 12) (CostEstimate.breakdown current_cost) in
      risk ← assess_risk workload SCHEDULED_SCALING (Some metrics);
      let rollback := create_rollback_plan workload SCHEDULED_SCALING in
      r ← Recommendation.make
            {| Recommendation.workload_id := Workload.id workload;
               Recommendation.workload_name := Workload.name workload;
               Recommendation.cluster_name := Workload.cluster_name workload;
               Recommendation.namespace := Workload.namespace workload;
               Recommendation.optimization_type := SCHEDULED_SCALING;
               Recommendation.title :=
                 "Implement scheduled scaling for " +:+ Workload.name workload;
               Recommendation.description :=
                 "Scale down during off-peak hours ("
                 +:+ match MLEngine.peak_hours scaling_opportunity with
                     | Some h => h
                     | None => "identified periods"
                     end +:+ ")";
               Recommendation.current_config :=
                 [ ("replicas", jint (Workload.replicas workload));
                   ("scaling", JStr "none") ];
               Recommendation.recommended_config := recommended_config;
               Recommendation.current_cost := current_cost;
               Recommendation.optimized_cost := optimized_cost;
               Recommendation.monthly_savings := estimated_savings;
               Recommendation.yearly_savings := estimated_savings * 12;
               Recommendation.savings_percentage := savings_pct estimated_savings current_cost;
               Recommendation.confidence_score := MLEngine.so_confidence scaling_opportunity;
               Recommendation.risk_assessment := risk;
               Recommendation.rollback_plan := rollback;
               Recommendation.dependencies := [];
               Recommendation.implementation_complexity := "medium";
               Recommendation.estimated_implementation_time := "20-40 minutes";
               Recommendation.status := "pending" |};
      Ret (Some r).

Definition _create_unused_resource_recommendation
    (workload : Workload.t) (metrics : WorkloadMetrics.t)
    (current_cost : CostEstimate.t) : res (option Recommendation.t) :=
  risk ← RiskAssessment.make LOW 0.2
           [ "Very low resource utilization detected"; "Workload may be unused" ]
           [ "Verify workload purpose"; "Check application logs"; "Coordinate with team" ];
  let rollback :=
    RollbackPlan.mk [ "Restore from backup"; "Redeploy from manifest" ] 10 true in
  r ← Recommendation.make
        {| Recommendation.workload_id := Workload.id workload;
           Recommendation.workload_name := Workload.name workload;
           Recommendation.cluster_name := Workload.cluster_name workload;
           Recommendation.namespace := Workload.namespace workload;
           Recommendation.optimization_type := REMOVE_UNUSED;
           Recommendation.title := "Remove unused workload " +:+ Workload.name workload;
           Recommendation.description :=
             "Workload has very low utilization " +:+ utilization_text metrics
             +:+ " and may be unused";
           Recommendation.current_config :=
             resources_dict (Workload.current_resources workload);
           Recommendation.recommended_config := [ ("action", JStr "delete") ];
           Recommendation.current_cost := current_cost;
           Recommendation.optimized_cost :=
             CostEstimate.mk (CostEstimate.hourly current_cost)
               (CostEstimate.daily current_cost) 0 0
               (CostEstimate.breakdown current_cost);
           Recommendation.monthly_savings := CostEstimate.monthly current_cost;
           Recommendation.yearly_savings := CostEstimate.yearly current_cost;
           Recommendation.savings_percentage := 100;
           Recommendation.confidence_score := 0.6;
           Recommendation.risk_assessment := risk;
           Recommendation.rollback_plan := rollback;
           Recommendation.dependencies := [];
           Recommendation.implementation_complexity := "low";
           Recommendation.estimated_implementation_time := "5 minutes";
           Recommendation.status := "pending" |};
  Ret (Some r).

(** [if rec and rec.confidence_score >= min_confidence:
       recommendations.append(rec)] *)
Definition append_if_confident
    (recommendations : list Recommendation.t) (rec : option Recommendation.t)
    (min_confidence : Q) : list Recommendation.t :=
  match rec with
  | Some r =>
      if Qleb min_confidence (Recommendation.confidence_score r)
      then (recommendations ++ [r])%list
      else recommendations
  | None => recommendations
  end.

(** Insertion into a list sorted by decreasing [monthly_savings], after the
    items that are not smaller. *)
Fixpoint insert_by_savings (r : Recommendation.t) (l : list Recommendation.t)
  : list Recommendation.t :=
  match l with
  | [] => [r]
  | r' :: l' =>
      if Qltb (Recommendation.monthly_savings r') (Recommendation.monthly_savings r)
      then r :: r' :: l'
      else r' :: insert_by_savings r l'
  end.

(** [recommendations.sort(key=lambda r: r.monthly_savings, reverse=True)]:
    a stable sort in decreasing order of the key. *)
Definition sort_by_savings (l : list Recommendation.t) : list Recommendation.t :=
  fold_left (fun acc r => insert_by_savings r acc) l [].

Definition generate_recommendations
    (env : collaborator) (workload : Workload.t) (metrics : WorkloadMetrics.t)
    (min_confidence : Q) : res (list Recommendation.t) :=
  let recommendations : list Recommendation.t := [] in
  current_cost ← CostCalculator.fetch_current_costs (post_current env) workload None;
  recommendations ←
    (if MLEngine.detect_unused_resources metrics 5
     then rec ← _create_unused_resource_recommendation workload metrics current_cost;
          Ret (append_if_confident recommendations rec min_confidence)
     else Ret recommendations);
  right_size_rec ← _create_right_sizing_recommendation env workload metrics current_cost;
  let recommendations := append_if_confident recommendations right_size_rec min_confidence in
  replica_rec ← _create_replica_optimization_recommendation env workload metrics current_cost;
  let recommendations := append_if_confident recommendations replica_rec min_confidence in
  spot_rec ← _create_spot_instance_recommendation env workload metrics current_cost;
  let recommendations := append_if_confident recommendations spot_rec min_confidence in
  scaling_rec ← _create_scheduled_scaling_recommendation workload metrics current_cost;
  let recommendations := append_if_confident recommendations scaling_rec min_confidence in
  Ret (sort_by_savings recommendations).

(** The default of the keyword argument [min_confidence]. *)
Definition default_min_confidence : Q := 0.5.

End Recommender.

(* ================================================================== *)
(** ** The cluster and the cache, as the operator sees them *)
(* ================================================================== *)

Module K8s.

(** [V1ResourceRequirements] *)
Record ResourceRequirements : Type := mkRequirements {
  requests : option (gmap string json);
  limits : option (gmap string json)
}.

(** [V1Container]: the fields the operator touches. *)
Record Container : Type := mkContainer {
  container_name : string;
  resources : option ResourceRequirements
}.

(** A Deployment, StatefulSet or DaemonSet: [spec.replicas],
    [spec.template.spec.containers], [metadata.annotations] and
    [metadata.labels]. *)
Record Object : Type := mkObject {
  replicas : Z;
  containers : list Container;
  annotations : option (gmap string string);
  labels : option (gmap string string)
}.

End K8s.

(** The dictionary built by [store_original_state]; serialising it to JSON
    text and reading it back yields the same dictionary. *)
Module RollbackState.
Record t : Type := mk {
  workload_name : string;
  workload_kind : string;
  namespace : string;
  replicas : Z;
  resources : gmap string json;
  timestamp : string;
  annotations : gmap string string;
  labels : gmap string string
}.
End RollbackState.

Module World.

(** A ConfigMap: its labels and what its [rollback_state] entry holds. *)
Record ConfigMap : Type := mkConfigMap {
  cm_labels : gmap string string;
  rollback_state : option RollbackState.t
}.

(** The live objects by (namespace, name), and the cache: [None] when no
    connection to Redis could be made, else its keys. *)
Record t : Type := mk {
  deployments : gmap (string * string) K8s.Object;
  stateful_sets : gmap (string * string) K8s.Object;
  daemon_sets : gmap (string * string) K8s.Object;
  config_maps : gmap (string * string) ConfigMap;
  redis : option (gmap string RollbackState.t)
}.

Definition set_deployment (ns name : string) (o : K8s.Object) (w : t) : t :=
  mk (<[(ns, name) := o]> (deployments w)) (stateful_sets w) (daemon_sets w)
     (config_maps w) (redis w).

Definition set_stateful_set (ns name : string) (o : K8s.Object) (w : t) : t :=
  mk (deployments w) (<[(ns, name) := o]> (stateful_sets w)) (daemon_sets w)
     (config_maps w) (redis w).

Definition set_config_map (ns name : string) (c : ConfigMap) (w : t) : t :=
  mk (deployments w) (stateful_sets w) (daemon_sets w)
     (<[(ns, name) := c]> (config_maps w)) (redis w).

Definition set_redis (key : string) (s : RollbackState.t) (w : t) : t :=
  mk (deployments w) (stateful_sets w) (daemon_sets w) (config_maps w)
     (match redis w with
      | Some kv => Some (<[key := s]> kv)
      | None => None
      end).

(** [read_namespaced_deployment]: a missing object is a 404. *)
Definition read_namespaced_deployment (name ns : string) (w : t) : res K8s.Object :=
  match deployments w !! (ns, name) with
  | Some o => Ret o
  | None => Raise (ApiException 404)
  end.

Definition read_namespaced_stateful_set (name ns : string) (w : t) : res K8s.Object :=
  match stateful_sets w !! (ns, name) with
  | Some o => Ret o
  | None => Raise (ApiException 404)
  end.

Definition read_namespaced_daemon_set (name ns : string) (w : t) : res K8s.Object :=
  match daemon_sets w !! (ns, name) with
  | Some o => Ret o
  | None => Raise (ApiException 404)
  end.

(** [patch_namespaced_deployment] with the object just read as body: the
    live object becomes the body. *)
Definition patch_namespaced_deployment (name ns : string) (body : K8s.Object) (w : t)
  : res t :=
  match deployments w !! (ns, name) with
  | Some _ => Ret (set_deployment ns name body w)
  | None => Raise (ApiException 404)
  end.

Definition patch_namespaced_stateful_set (name ns : string) (body : K8s.Object) (w : t)
  : res t :=
  match stateful_sets w !! (ns, name) with
  | Some _ => Ret (set_stateful_set ns name body w)
  | None => Raise (ApiException 404)
  end.

End World.

(* ================================================================== *)
(** ** Code shared by the two handlers *)
(* ================================================================== *)

Module Handlers.

Import K8s.

(** [if v is not None: d[k] = v] for the value found under a key. *)
Definition set_if (k : string) (v : option json) (d : gmap string json)
  : gmap string json :=
  match v with
  | Some x => <[k := x]> d
  | None => d
  end.

(** The body of the loop over the containers, in [_apply_*_optimization]
    and in [_rollback_*]: [source] is the lookup in the dictionary the
    values come from. *)
Definition write_resources (source : string -> option json) (container : Container)
  : Container :=
  let r := default (mkRequirements None None) (resources container) in
  let rq := default ∅ (requests r) in
  let rq := set_if "cpu" (source "cpu_request") rq in
  let rq := set_if "memory" (source "memory_request") rq in
  let lm := default ∅ (limits r) in
  let lm := set_if "cpu" (source "cpu_limit") lm in
  let lm := set_if "memory" (source "memory_limit") lm in
  mkContainer (container_name container) (Some (mkRequirements (Some rq) (Some lm))).

(** The two audit annotations written before a patch. *)
Definition stamp (at_key by_key now : string) (o : Object) : Object :=
  let a := default ∅ (annotations o) in
  let a := <[at_key := now]> a in
  let a := <[by_key := "cost-optimizer-operator"]> a in
  mkObject (replicas o) (containers o) (Some a) (labels o).

(** [_get_workload]: [None] for a missing object or an unsupported kind. *)
Definition _get_workload (name kind ns : string) (w : World.t) : option Object :=
  if String.eqb kind "Deployment" then World.deployments w !! (ns, name)
  else if String.eqb kind "StatefulSet" then World.stateful_sets w !! (ns, name)
  else if String.eqb kind "DaemonSet" then World.daemon_sets w !! (ns, name)
  else None.

(** Truth value of a dictionary. *)
Definition nonempty {A} (d : gmap string A) : bool := negb (size d =? 0)%nat.

(** [_extract_resources] of the rollback handler. *)
Definition _extract_resources (workload : Object) : gmap string json :=
  match containers workload with
  | [] => ∅
  | container :: _ =>
      let result : gmap string json := ∅ in
      match resources container with
      | None => result
      | Some r =>
          let result :=
            match requests r with
            | Some rq =>
                if nonempty rq
                then <["memory_request" := default (JStr "0") (rq !! "memory")]>
                       (<["cpu_request" := default (JStr "0") (rq !! "cpu")]> result)
                else result
            | None => result
            end in
          match limits r with
          | Some lm =>
              if nonempty lm
              then <["memory_limit" := default (JStr "0") (lm !! "memory")]>
                     (<["cpu_limit" := default (JStr "0") (lm !! "cpu")]> result)
              else result
          | None => result
          end
      end
  end.

End Handlers.

(* ================================================================== *)
(** ** operator/handlers/rollback_handler.py *)
(* ================================================================== *)

Module RollbackHandler.

Import K8s Handlers.

Definition redis_key (namespace workload_kind workload_name : string) : string :=
  "rollback:" +:+ namespace +:+ ":" +:+ workload_kind +:+ ":" +:+ workload_name.

Definition configmap_name (workload_name : string) : string :=
  workload_name +:+ "-rollback-state".

(** [_store_in_configmap]: create, and replace on a conflict. *)
Definition _store_in_configmap (namespace name : string) (state : RollbackState.t)
    (w : World.t) : bool * World.t :=
  let configmap :=
    World.mkConfigMap
      (<["component" := "rollback-state"]> (<["app" := "cost-optimizer"]> ∅))
      (Some state) in
  (true, World.set_config_map namespace name configmap w).

Definition store_original_state
    (workload_name workload_kind namespace : string) (workload : Object)
    (now : string) (w : World.t) : bool * World.t :=
  let state :=
    RollbackState.mk workload_name workload_kind namespace
      (replicas workload) (_extract_resources workload) now
      (default ∅ (annotations workload)) (default ∅ (labels workload)) in
  let key := redis_key namespace workload_kind workload_name in
  let w := World.set_redis key state w in
  let '(_, w) := _store_in_configmap namespace (configmap_name workload_name) state w in
  (true, w).

Definition _get_original_state
    (workload_name workload_kind namespace : string) (w : World.t)
  : option RollbackState.t :=
  let key := redis_key namespace workload_kind workload_name in
  let cached :=
    match World.redis w with
    | Some kv => kv !! key
    | None => None
    end in
  match cached with
  | Some state => Some state
  | None =>
      match World.config_maps w !! (namespace, configmap_name workload_name) with
      | Some configmap => World.rollback_state configmap
      | None => None
      end
  end.

(** What [_rollback_deployment] and [_rollback_statefulset] do to the
    object they read. *)
Definition rolled_back (original_state : RollbackState.t) (now : string) (o : Object)
  : Object :=
  let o := mkObject (RollbackState.replicas original_state)
             (map (write_resources (fun k => RollbackState.resources original_state !! k))
                  (containers o))
             (annotations o) (labels o) in
  stamp "optimization.k8s.io/rolled-back-at" "optimization.k8s.io/rolled-back-by" now o.

Definition _rollback_deployment
    (namespace name : string) (original_state : RollbackState.t) (now : string)
    (w : World.t) : bool * World.t :=
  match
    deployment ← World.read_namespaced_deployment name namespace w;
    World.patch_namespaced_deployment name namespace
      (rolled_back original_state now deployment) w
  with
  | Ret w' => (true, w')
  | Raise _ => (false, w)
  end.

Definition _rollback_statefulset
    (namespace name : string) (original_state : RollbackState.t) (now : string)
    (w : World.t) : bool * World.t :=
  match
    statefulset ← World.read_namespaced_stateful_set name namespace w;
    World.patch_namespaced_stateful_set name namespace
      (rolled_back original_state now statefulset) w
  with
  | Ret w' => (true, w')
  | Raise _ => (false, w)
  end.

(** [validate_rollback] only reads the cluster and its result is not used
    by [execute_rollback]. *)
Definition execute_rollback
    (workload_name workload_kind namespace : string) (now : string) (w : World.t)
  : bool * World.t :=
  match _get_original_state workload_name workload_kind namespace w with
  | None => (false, w)
  | Some original_state =>
      if String.eqb workload_kind "Deployment"
      then _rollback_deployment namespace workload_name original_state now w
      else if String.eqb workload_kind "StatefulSet"
      then _rollback_statefulset namespace workload_name original_state now w
      else (false, w)
  end.

End RollbackHandler.

(* ================================================================== *)
(** ** operator/handlers/optimization_handler.py *)
(* ================================================================== *)

Module OptimizationHandler.

Import K8s Handlers.

(** [k in c] for a string [k]. *)
Definition contains (c : json) (k : string) : res bool :=
  match c with
  | JObj d => Ret (Dict.mem k d)
  | JArr l =>
      Ret (existsb (fun x => match x with JStr s => String.eqb s k | _ => false end) l)
  | JStr s => Ret (match index 0 k s with Some _ => true | None => false end)
  | _ => Raise TypeError
  end.

(** [int(v)] *)
Definition int_of (v : json) : res Z :=
  match v with
  | JNum q => Ret (int_of_float q)
  | JBool b => Ret (if b then 1%Z else 0%Z)
  | JStr s => int_of_string s
  | _ => Raise TypeError
  end.

(** [config[k] if k in config], for the loop over the containers. *)
Definition lookup_if_present (config : json) (k : string) : res (option json) :=
  present ← contains config k;
  if (present : bool) then (v ← Json.subscript config k; Ret (Some v)) else Ret None.

(** What [_apply_deployment_optimization] and
    [_apply_statefulset_optimization] do to the object they read. *)
Definition optimized (config : json) (now : string) (o : Object) : res Object :=
  has_replicas ← contains config "replicas";
  new_replicas ←
    (if (has_replicas : bool)
     then (v ← Json.subscript config "replicas"; int_of v)
     else Ret (replicas o));
  has_cpu ← contains config "cpu_request";
  has_memory ← (if (has_cpu : bool) then Ret true else contains config "memory_request");
  new_containers ←
    (if (has_cpu || has_memory : bool) then
       match containers o with
       | [] => Ret []
       | _ =>
           cpu_request ← lookup_if_present config "cpu_request";
           memory_request ← lookup_if_present config "memory_request";
           cpu_limit ← lookup_if_present config "cpu_limit";
           memory_limit ← lookup_if_present config "memory_limit";
           let source (k : string) : option json :=
             if String.eqb k "cpu_request" then cpu_request
             else if String.eqb k "memory_request" then memory_request
             else if String.eqb k "cpu_limit" then cpu_limit
             else if String.eqb k "memory_limit" then memory_limit
             else None in
           Ret (map (write_resources source) (containers o))
       end
     else Ret (containers o));
  Ret (stamp "optimization.k8s.io/optimized-at" "optimization.k8s.io/optimized-by" now
         (mkObject new_replicas new_containers (annotations o) (labels o))).

Definition _apply_deployment_optimization
    (name namespace : string) (config : json) (now : string) (w : World.t)
  : bool * World.t :=
  match
    deployment ← World.read_namespaced_deployment name namespace w;
    body ← optimized config now deployment;
    World.patch_namespaced_deployment name namespace body w
  with
  | Ret w' => (true, w')
  | Raise _ => (false, w)
  end.

Definition _apply_statefulset_optimization
    (name namespace : string) (config : json) (now : string) (w : World.t)
  : bool * World.t :=
  match
    statefulset ← World.read_namespaced_stateful_set name namespace w;
    body ← optimized config now statefulset;
    World.patch_namespaced_stateful_set name namespace body w
  with
  | Ret w' => (true, w')
  | Raise _ => (false, w)
  end.

(** [d.get(k, default)] on a dynamically typed value. *)
Definition get_of (d : json) (k : string) (default : json) : res json :=
  match d with
  | JObj fields => Ret (Dict.get_default k default fields)
  | _ => Raise AttributeError
  end.

(** [f"{v:.2f}"] on a dynamically typed value. *)
Definition format_number_2 (v : json) : res string :=
  match v with
  | JNum q => Ret (format_fixed 2 q)
  | JBool b => Ret (if b then "1.00" else "0.00")
  | JStr _ => Raise ValueError
  | _ => Raise TypeError
  end.

Definition apply_optimization
    (workload_name workload_kind namespace : string) (recommendation : json)
    (dry_run : bool) (now : string) (w : World.t) : bool * World.t :=
  match _get_workload workload_name workload_kind namespace w with
  | None => (false, w)
  | Some workload =>
      let w :=
        if negb dry_run
        then snd (RollbackHandler.store_original_state workload_name workload_kind
                    namespace workload now w)
        else w in
      match get_of recommendation "recommended_config" (JObj []) with
      | Raise _ => (false, w)
      | Ret recommended_config =>
          match get_of recommendation "optimization_type" (JStr "") with
          | Raise _ => (false, w)
          | Ret _ =>
              if dry_run then
                match get_of recommendation "monthly_savings" (JNum 0)
                        ≫= format_number_2 with
                | Ret _ => (true, w)
                | Raise _ => (false, w)
                end
              else if String.eqb workload_kind "Deployment"
              then _apply_deployment_optimization workload_name namespace
                     recommended_config now w
              else if String.eqb workload_kind "StatefulSet"
              then _apply_statefulset_optimization workload_name namespace
                     recommended_config now w
              else (false, w)
          end
      end
  end.

End OptimizationHandler.

(* ================================================================== *)
(** ** operator/main.py: the periodic tick *)
(* ================================================================== *)

Module Operator.

Import OptimizationHandler.

(** An event posted on the declaration ([kopf.info], [kopf.warn]). *)
Record Event : Type := mkEvent {
  severity : string;
  reason : string;
  event_message : string
}.

(** What a tick leaves behind: the status patch, the events, the world. *)
Record Outcome : Type := mkOutcome {
  patch_status : Dict.t;
  events : list Event;
  world : World.t
}.

(** The [risk_levels] table. *)
Definition risk_levels : gmap string Z :=
  <["CRITICAL" := 4%Z]> (<["HIGH" := 3%Z]> (<["MEDIUM" := 2%Z]> (<["LOW" := 1%Z]> ∅))).

(** [risk_levels.get(key, default)]; a list or an object cannot be a key. *)
Definition risk_levels_get (key : json) (default : Z) : res Z :=
  match key with
  | JStr s => Ret (match risk_levels !! s with Some n => n | None => default end)
  | JArr _ | JObj _ => Raise TypeError
  | _ => Ret default
  end.

(** [str(v)] inside an f-string, for the values that occur in messages. *)
Definition text_of (v : json) : string :=
  match v with
  | JStr s => s
  | JNull => "None"
  | JBool b => if b then "True" else "False"
  | JNum q => format_fixed 2 q
  | JArr _ => "[...]"
  | JObj _ => "{...}"
  end.

(** A workload name, kind or namespace handed to the cluster API. *)
Definition api_name (v : json) : option string :=
  match v with
  | JStr s => Some s
  | _ => None
  end.

(** The text of an exception in the status message: its class. *)
Definition exn_text (e : exn) : string :=
  match e with
  | ValueError => "ValueError"
  | TypeError => "TypeError"
  | KeyError => "KeyError"
  | ZeroDivisionError => "ZeroDivisionError"
  | ValidationError => "ValidationError"
  | AttributeError => "AttributeError"
  | HTTPError => "HTTPError"
  | ApiException _ => "ApiException"
  end.

(** The [except] clause of the tick. *)
Definition failed (patch : Dict.t) (e : exn) (w : World.t) : Outcome :=
  mkOutcome
    (Dict.set "message" (JStr ("Error: " +:+ exn_text e))
       (Dict.set "phase" (JStr "Failed") patch))
    [] w.

(** Lines 212-221: the summary of the recommendation written to the
    status. *)
Definition current_recommendation (recommendation : json) : res Dict.t :=
  optimization_type ← get_of recommendation "optimization_type" JNull;
  current_cost ← get_of recommendation "current_cost" (JObj []);
  current_monthly ← get_of current_cost "monthly" (JNum 0);
  optimized_cost ← get_of recommendation "optimized_cost" (JObj []);
  optimized_monthly ← get_of optimized_cost "monthly" (JNum 0);
  monthly_savings ← get_of recommendation "monthly_savings" (JNum 0);
  confidence_score ← get_of recommendation "confidence_score" (JNum 0);
  risk_assessment ← get_of recommendation "risk_assessment" (JObj []);
  risk_level ← get_of risk_assessment "level" (JStr "UNKNOWN");
  changes ← get_of recommendation "recommended_config" (JObj []);
  Ret [ ("optimizationType", optimization_type);
        ("currentCost", current_monthly);
        ("optimizedCost", optimized_monthly);
        ("monthlySavings", monthly_savings);
        ("confidenceScore", confidence_score);
        ("riskLevel", risk_level);
        ("changes", changes) ].

(** [a >= b]: two numbers, or two strings in lexicographic order; the
    mixed cases raise.  (Two lists are compared item by item in Python;
    that comparison is outside this model and is reported as [TypeError].) *)
Definition ge (a b : json) : res bool :=
  match a, b with
  | JStr x, JStr y => Ret (String.leb y x)
  | _, _ => x ← Json.number a; y ← Json.number b; Ret (Qleb y x)
  end.

(** [a + b]: two numbers, two strings or two lists; the mixed cases
    raise. *)
Definition add (a b : json) : res json :=
  match a, b with
  | JStr x, JStr y => Ret (JStr (x +:+ y))
  | JArr x, JArr y => Ret (JArr (x ++ y)%list)
  | _, _ => x ← Json.number a; y ← Json.number b; Ret (JNum (x + y)%Q)
  end.

(** The call of [apply_optimization] from the tick; a name that is not a
    string makes the cluster client raise inside the handler, which turns
    it into [False]. *)
Definition call_apply (workload_name workload_kind workload_namespace : json)
    (recommendation : json) (now : string) (w : World.t) : bool * World.t :=
  match api_name workload_name, api_name workload_kind, api_name workload_namespace with
  | Some name, Some kind, Some ns =>
      apply_optimization name kind ns recommendation false now w
  | _, _, _ => (false, w)
  end.

(** Lines 200-205: nothing to do. *)
Definition no_opportunity (patch : Dict.t) (now : string) (w : World.t) : Outcome :=
  mkOutcome
    (Dict.set "lastAnalysis" (JStr now)
       (Dict.set "message" (JStr "No optimization opportunities found")
          (Dict.set "phase" (JStr "Ready") patch)))
    [] w.

(** Lines 232-271: the apply path. *)
Definition auto_apply_path
    (patch status : Dict.t) (workload_name workload_kind workload_namespace : json)
    (recommendation savings : json) (savings_text now : string) (w : World.t)
  : Outcome :=
  let '(success, w) :=
    call_apply workload_name workload_kind workload_namespace recommendation now w in
  if success then
    match add (Dict.get_default "totalSavings" (JNum 0) status) savings with
    | Raise e => failed patch e w
    | Ret new_savings =>
        let patch := Dict.set "phase" (JStr "Applied") patch in
        let patch := Dict.set "message" (JStr "Optimization applied successfully") patch in
        let patch := Dict.set "lastApplied" (JStr now) patch in
        match add (Dict.get_default "appliedOptimizations" (JNum 0) status) (JNum 1) with
        | Raise e => failed patch e w
        | Ret applied =>
            let patch := Dict.set "appliedOptimizations" applied patch in
            let patch := Dict.set "totalSavings" new_savings patch in
            mkOutcome patch
              [ mkEvent "info" "OptimizationApplied"
                  ("Applied optimization: $" +:+ savings_text +:+ "/month savings") ]
              w
        end
    end
  else
    mkOutcome
      (Dict.set "message" (JStr "Failed to apply optimization")
         (Dict.set "phase" (JStr "Failed") patch))
      [ mkEvent "warn" "OptimizationFailed" "Failed to apply optimization" ]
      w.

(** Lines 273-281: the recommendation does not pass the gate. *)
Definition not_applied (patch : Dict.t) (confidence risk_level : json) (w : World.t)
  : Outcome :=
  match format_number_2 confidence with
  | Raise e => failed patch e w
  | Ret confidence_text =>
      mkOutcome
        (Dict.set "message"
           (JStr ("Optimization found but not applied: confidence=" +:+ confidence_text
                  +:+ ", risk=" +:+ text_of risk_level))
           (Dict.set "phase" (JStr "Ready") patch))
        [] w
  end.

(** Lines 223-287: the gate, once the recommendation is recorded. *)
Definition gate
    (patch spec status : Dict.t) (workload_name workload_kind workload_namespace : json)
    (recommendation savings : json) (savings_text now : string) (w : World.t)
  : Outcome :=
  let dry_run := Dict.get_default "dryRun" (JBool true) spec in
  let auto_apply := Dict.get_default "autoApply" (JBool false) spec in
  let min_confidence := Dict.get_default "minConfidence" (JNum 0.7) spec in
  let max_risk_level := Dict.get_default "maxRiskLevel" (JStr "MEDIUM") spec in
  match
    risk_assessment ← get_of recommendation "risk_assessment" (JObj []);
    risk_level ← get_of risk_assessment "level" (JStr "HIGH");
    confidence ← get_of recommendation "confidence_score" (JNum 0);
    max_risk ← risk_levels_get max_risk_level 2;
    current_risk ← risk_levels_get risk_level 4;
    Ret (risk_level, confidence, max_risk, current_risk)
  with
  | Raise e => failed patch e w
  | Ret (risk_level, confidence, max_risk, current_risk) =>
      if Json.truthy auto_apply && negb (Json.truthy dry_run) then
        match ge confidence min_confidence with
        | Raise e => failed patch e w
        | Ret confident =>
            if confident && (current_risk <=? max_risk)%Z
            then auto_apply_path patch status workload_name workload_kind
                   workload_namespace recommendation savings savings_text now w
            else not_applied patch confidence risk_level w
        end
      else
        mkOutcome
          (Dict.set "message"
             (JStr (if Json.truthy dry_run
                    then "Dry-run mode: Would save $" +:+ savings_text +:+ "/month"
                    else "Auto-apply disabled"))
             (Dict.set "phase" (JStr "Ready") patch))
          [] w
  end.

(** [periodic_optimization_check]; [recommendation] is what
    [analyze_workload] returned for the target of the declaration. *)
Definition periodic_optimization_check
    (spec status : Dict.t) (namespace : string) (recommendation : option json)
    (now : string) (w : World.t) : Outcome :=
  let patch : Dict.t := [] in
  match
    target ← Ret (Dict.get_default "targetWorkload" (JObj []) spec);
    workload_name ← get_of target "name" JNull;
    workload_kind ← get_of target "kind" JNull;
    workload_namespace ← get_of target "namespace" (JStr namespace);
    Ret (workload_name, workload_kind, workload_namespace)
  with
  | Raise e => failed patch e w
  | Ret (workload_name, workload_kind, workload_namespace) =>
      match recommendation with
      | None => no_opportunity patch now w
      | Some recommendation =>
          if negb (Json.truthy recommendation) then no_opportunity patch now w
          else
            match
              savings ← get_of recommendation "monthly_savings" (JNum 0);
              savings_text ← format_number_2 savings;
              summary ← current_recommendation recommendation;
              Ret (savings, savings_text, summary)
            with
            | Raise e => failed patch e w
            | Ret (savings, savings_text, summary) =>
                let patch := Dict.set "currentRecommendation" (JObj summary) patch in
                let patch := Dict.set "lastAnalysis" (JStr now) patch in
                gate patch spec status workload_name workload_kind workload_namespace
                  recommendation savings savings_text now w
            end
      end
  end.

(** The phase a tick writes, if any. *)
Definition phase_of (o : Outcome) : option json := Dict.get "phase" (patch_status o).

End Operator.

(* ================================================================== *)
(** ** What the optimizer API sends to the operator *)
(* ================================================================== *)

(** The JSON rendering of the models of [models.py] in the response of
    [POST /optimize/{workload_id}]: every field under its name, an enum
    member as its string value.  ([id] and [created_at] are left out, as
    in [Recommendation.t].) *)
Module Wire.

Definition strings (l : list string) : json := JArr (map JStr l).

Definition breakdown_json (b : CostBreakdown.t) : json :=
  JObj [ ("compute", JNum (CostBreakdown.compute b));
         ("memory", JNum (CostBreakdown.memory b));
         ("storage", JNum (CostBreakdown.storage b));
         ("network", JNum (CostBreakdown.network b));
         ("total", JNum (CostBreakdown.total b)) ].

Definition cost_json (c : CostEstimate.t) : json :=
  JObj [ ("hourly", JNum (CostEstimate.hourly c));
         ("daily", JNum (CostEstimate.daily c));
         ("monthly", JNum (CostEstimate.monthly c));
         ("yearly", JNum (CostEstimate.yearly c));
         ("breakdown", breakdown_json (CostEstimate.breakdown c)) ].

Definition risk_json (r : RiskAssessment.t) : json :=
  JObj [ ("level", JStr (RiskLevel.value (RiskAssessment.level r)));
         ("score", JNum (RiskAssessment.score r));
         ("factors", strings (RiskAssessment.factors r));
         ("mitigation_steps", strings (RiskAssessment.mitigation_steps r)) ].

Definition rollback_json (p : RollbackPlan.t) : json :=
  JObj [ ("steps", strings (RollbackPlan.steps p));
         ("estimated_time_minutes",
          JNum (inject_Z (RollbackPlan.estimated_time_minutes p)));
         ("automation_available", JBool (RollbackPlan.automation_available p)) ].

Definition recommendation_json (r : Recommendation.t) : json :=
  JObj [ ("workload_id", JStr (Recommendation.workload_id r));
         ("workload_name", JStr (Recommendation.workload_name r));
         ("cluster_name", JStr (Recommendation.cluster_name r));
         ("namespace", JStr (Recommendation.namespace r));
         ("optimization_type",
          JStr (OptimizationType.value (Recommendation.optimization_type r)));
         ("title", JStr (Recommendation.title r));
         ("description", JStr (Recommendation.description r));
         ("current_config", JObj (Recommendation.current_config r));
         ("recommended_config", JObj (Recommendation.recommended_config r));
         ("current_cost", cost_json (Recommendation.current_cost r));
         ("optimized_cost", cost_json (Recommendation.optimized_cost r));
         ("monthly_savings", JNum (Recommendation.monthly_savings r));
         ("yearly_savings", JNum (Recommendation.yearly_savings r));
         ("savings_percentage", JNum (Recommendation.savings_percentage r));
         ("confidence_score", JNum (Recommendation.confidence_score r));
         ("risk_assessment", risk_json (Recommendation.risk_assessment r));
         ("rollback_plan", rollback_json (Recommendation.rollback_plan r));
         ("dependencies", strings (Recommendation.dependencies r));
         ("implementation_complexity",
          JStr (Recommendation.implementation_complexity r));
         ("estimated_implementation_time",
          JStr (Recommendation.estimated_implementation_time r));
         ("status", JStr (Recommendation.status r)) ].

End Wire.

From Stdlib Require Import Sorted Permutation.

(* ================================================================== *)
(** ** optimizer/ml_engine.py: parsing, instance classes, bin packing *)
(* ================================================================== *)

Module MLEngine2.

Local Open Scope Q_scope.

Definition _parse_cpu (cpu_string : string) : res Q :=
  if endswith cpu_string "m"
  then x ← float_of_string (drop_last 1 cpu_string); Ret (x / 1000)
  else float_of_string cpu_string.

(** The [multipliers] table of [MLEngine._parse_memory], in its iteration
    order. *)
Definition multipliers : list (string * Z) :=
  [ ("Ki", 1024); ("Mi", 1024 * 1024); ("Gi", 1024 * 1024 * 1024) ]%Z.

Definition _parse_memory (memory_string : string) : res Z :=
  CostCalculator._parse_memory_loop multipliers memory_string.

(** The three instance classes of a provider: compute, memory, balanced. *)
Definition instance_classes (provider : string)
  : (string * string) * (string * string) * (string * string) :=
  let p := CostCalculator.lower provider in
  if String.eqb p "aws" then
    (("c5.xlarge", "CPU-optimized instance recommended"),
     ("r5.large", "Memory-optimized instance recommended"),
     ("m5.large", "Balanced instance recommended"))
  else if String.eqb p "gcp" then
    (("c2-standard-4", "Compute-optimized instance recommended"),
     ("n2-highmem-2", "Memory-optimized instance recommended"),
     ("n2-standard-2", "Balanced instance recommended"))
  else
    (("Standard_F4s_v2", "Compute-optimized instance recommended"),
     ("Standard_E4s_v3", "Memory-optimized instance recommended"),
     ("Standard_D4s_v3", "Balanced instance recommended")).

(** [recommend_instance_type_change]: the three provider branches run the
    same two tests. *)
Definition recommend_instance_type_change
    (current_cpu current_memory : Q) (provider : string) : res (string * string) :=
  let '(compute, memory, balanced) := instance_classes provider in
  cpu_per_memory ← Py.div current_cpu current_memory;
  if Qltb 0.5 cpu_per_memory then Ret compute
  else
    memory_per_cpu ← Py.div current_memory current_cpu;
    if Qltb 4 memory_per_cpu then Ret memory else Ret balanced.

(** A node of [bin_packing]; the capacities are the values found in
    [node_capacity], whatever they are. *)
Record Node : Type := mkNode {
  cpu_used : Q;
  memory_used : Q;
  cpu_capacity : json;
  memory_capacity : json;
  workloads : list Dict.t
}.

(** The dictionary returned by [bin_packing]. *)
Record Packing : Type := mkPacking {
  required_nodes : Z;
  total_cpu_utilization : Q;
  total_memory_utilization : Q;
  nodes : list Node;
  savings_potential : Z
}.

(** [w.get(k, 0)] used as a number. *)
Definition request (k : string) (w : Dict.t) : res Q :=
  Json.number (Dict.get_default k (JNum 0) w).

(** A workload with its two requests read. *)
Record Sized : Type := mkSized {
  item : Dict.t;
  cpu_needed : Q;
  memory_needed : Q
}.

Definition sort_key (s : Sized) : Q := cpu_needed s + memory_needed s.

(** The requests of every workload: a value that is not a number makes the
    sort or the first addition of the loop raise [TypeError]. *)
Fixpoint sized (workloads : list Dict.t) : res (list Sized) :=
  match workloads with
  | [] => Ret []
  | w :: rest =>
      c ← request "cpu_request" w;
      m ← request "memory_request" w;
      tail ← sized rest;
      Ret (mkSized w c m :: tail)
  end.

(** Insertion into a list in decreasing order of the key, after the items
    that are not smaller. *)
Fixpoint insert_by_key (s : Sized) (l : list Sized) : list Sized :=
  match l with
  | [] => [s]
  | s' :: l' =>
      if Qltb (sort_key s') (sort_key s) then s :: s' :: l'
      else s' :: insert_by_key s l'
  end.

(** [sorted(workloads, key=..., reverse=True)]: a stable sort. *)
Definition sort_by_key (l : list Sized) : list Sized :=
  fold_left (fun acc s => insert_by_key s acc) l [].

(** The test of the loop; [and] does not evaluate its second operand when
    the first is false. *)
Definition fits (current : Node) (s : Sized) : res bool :=
  cpu_cap ← Json.number (cpu_capacity current);
  if Qleb (cpu_used current + cpu_needed s) (cpu_cap * 0.85)
  then memory_cap ← Json.number (memory_capacity current);
       Ret (Qleb (memory_used current + memory_needed s) (memory_cap * 0.85))
  else Ret false.

(** One turn of the loop: the closed nodes and the current node. *)
Definition place (cpu_cap memory_cap : json) (state : list Node * Node) (s : Sized)
  : res (list Node * Node) :=
  let '(closed, current) := state in
  ok ← fits current s;
  if (ok : bool)
  then Ret (closed,
            mkNode (cpu_used current + cpu_needed s)
              (memory_used current + memory_needed s)
              (cpu_capacity current) (memory_capacity current)
              (workloads current ++ [item s])%list)
  else Ret ((closed ++ [current])%list,
            mkNode (cpu_needed s) (memory_needed s) cpu_cap memory_cap [item s]).

Fixpoint place_all (cpu_cap memory_cap : json) (state : list Node * Node)
    (l : list Sized) : res (list Node * Node) :=
  match l with
  | [] => Ret state
  | s :: l' =>
      state' ← place cpu_cap memory_cap state s;
      place_all cpu_cap memory_cap state' l'
  end.

Definition pack (cpu_cap memory_cap : json) (l : list Sized) : res (list Node) :=
  '(closed, current) ← place_all cpu_cap memory_cap
                         ([], mkNode 0 0 cpu_cap memory_cap []) l;
  match workloads current with
  | [] => Ret closed
  | _ => Ret (closed ++ [current])%list
  end.

(** [sum(n[k] for n in nodes)] *)
Definition total (f : Node -> Q) (l : list Node) : Q :=
  fold_left (fun acc n => acc + f n) l 0.

Fixpoint total_of (f : Node -> json) (l : list Node) (acc : Q) : res Q :=
  match l with
  | [] => Ret acc
  | n :: l' => x ← Json.number (f n); total_of f l' (acc + x)
  end.

(** [total / capacity if nodes else 0] *)
Definition share (used : Node -> Q) (capacity : Node -> json) (l : list Node) : res Q :=
  match l with
  | [] => Ret 0
  | _ => c ← total_of capacity l 0; Py.div (total used l) c
  end.

Definition default_memory_capacity : Q := inject_Z (32 * 1024 * 1024 * 1024).

Definition bin_packing (workloads : list Dict.t) (node_capacity : Dict.t) : res Packing :=
  items ← sized workloads;
  let cpu_cap := Dict.get_default "cpu" (JNum 8) node_capacity in
  let memory_cap :=
    Dict.get_default "memory" (JNum default_memory_capacity) node_capacity in
  nodes ← pack cpu_cap memory_cap (sort_by_key items);
  cpu_share ← share cpu_used cpu_capacity nodes;
  memory_share ← share memory_used memory_capacity nodes;
  Ret (mkPacking (Z.of_nat (length nodes)) (cpu_share * 100) (memory_share * 100)
         nodes
         (Z.max 0 (Z.of_nat (length workloads) - Z.of_nat (length nodes)))).

End MLEngine2.

(* ================================================================== *)
(** ** optimizer/cost_calculator.py: provider comparison *)
(* ================================================================== *)

Module CostCalculator2.

Import CostCalculator.

Local Open Scope Q_scope.

(** [temp_workload = workload.model_copy(); temp_workload.provider = provider] *)
Definition with_provider (workload : Workload.t) (provider : string) : Workload.t :=
  Workload.mk (Workload.id workload) (Workload.cluster_id workload)
    (Workload.cluster_name workload) (Workload.namespace workload)
    (Workload.name workload) (Workload.kind workload) (Workload.replicas workload)
    (Workload.current_resources workload) provider.

(** The loop of [compare_providers] over the providers left to visit;
    [results] is the dictionary filled so far, in insertion order. *)
Fixpoint compare_loop (post : pricing_service) (workload : Workload.t)
    (instance_type : option string) (providers : list string)
    (results : list (string * CostEstimate.t))
  : res (list (string * CostEstimate.t)) :=
  match providers with
  | [] => Ret results
  | provider :: rest =>
      cost ← fetch_current_costs post (with_provider workload provider) instance_type;
      compare_loop post workload instance_type rest (results ++ [(provider, cost)])%list
  end.

Definition compare_providers (post : pricing_service) (workload : Workload.t)
    (instance_type : option string) : res (list (string * CostEstimate.t)) :=
  compare_loop post workload instance_type [ "aws"; "gcp"; "azure" ] [].

End CostCalculator2.

(* ================================================================== *)
(** ** optimizer-api/main.py: the endpoint [POST /optimize/{workload_id}] *)
(* ================================================================== *)

Module OptimizerApi.

Local Open Scope Q_scope.

(** [OptimizeWorkloadRequest] *)
Record OptimizeWorkloadRequest : Type := mkRequest {
  optimization_types : option (list OptimizationType.t);
  min_confidence : Q;
  max_risk_level : RiskLevel.t
}.

(** The defaults of the fields of the request model. *)
Definition default_types : option (list OptimizationType.t) := None.
Definition default_min_confidence : Q := 0.6.
Definition default_max_risk_level : RiskLevel.t := RiskLevel.MEDIUM.

(** The dictionary the endpoint returns. *)
Record OptimizeResponse : Type := mkResponse {
  workload : Workload.t;
  metrics : WorkloadMetrics.t;
  recommendations : list Recommendation.t;
  total_potential_savings : Q
}.

(** [r.risk_assessment.level.value <= request.max_risk_level.value]: the
    two values are strings and are compared as such. *)
Definition within_risk (request : OptimizeWorkloadRequest) (r : Recommendation.t) : bool :=
  String.leb (RiskLevel.value (RiskAssessment.level (Recommendation.risk_assessment r)))
    (RiskLevel.value (max_risk_level request)).

(** [r.optimization_type in request.optimization_types] *)
Definition of_type (types : list OptimizationType.t) (r : Recommendation.t) : bool :=
  existsb (fun t => bool_decide (Recommendation.optimization_type r = t)) types.

(** [sum(r.monthly_savings for r in recommendations)] *)
Definition sum_savings (l : list Recommendation.t) : Q :=
  fold_left (fun acc r => acc + Recommendation.monthly_savings r) l 0.

(** [optimize_workload], from the workload and the metrics read from the
    database.  A member of [RiskLevel] is a non-empty string, so
    [request.max_risk_level] is true whenever there is a request. *)
Definition optimize_workload (env : Recommender.collaborator)
    (w : Workload.t) (m : WorkloadMetrics.t) (request : option OptimizeWorkloadRequest)
  : res OptimizeResponse :=
  let min_conf :=
    match request with
    | Some q => min_confidence q
    | None => 0.6
    end in
  recommendations ← Recommender.generate_recommendations env w m min_conf;
  let recommendations :=
    match request with
    | Some q => List.filter (within_risk q) recommendations
    | None => recommendations
    end in
  let recommendations :=
    match request with
    | Some q =>
        match optimization_types q with
        | Some (t :: ts) => List.filter (of_type (t :: ts)) recommendations
        | _ => recommendations
        end
    | None => recommendations
    end in
  Ret (mkResponse w m recommendations (sum_savings recommendations)).

End OptimizerApi.

(* ================================================================== *)
(** ** operator/webhooks/admission_webhook.py *)
(* ================================================================== *)

Module AdmissionWebhook.

Import OptimizationHandler.

Local Open Scope Q_scope.

(** [x in l] for a list [l] of strings: only a string equals a string. *)
Definition among (x : json) (l : list string) : bool :=
  match x with
  | JStr s => existsb (String.eqb s) l
  | _ => false
  end.

(** [x == s] for a string [s]. *)
Definition is_str (x : json) (s : string) : bool := among x [s].

(** [x < n] and [x > n] for a number [n]; a value that is not a number
    makes the comparison raise. *)
Definition lt (x : json) (n : Q) : res bool := v ← Json.number x; Ret (Qltb v n).
Definition gt (x : json) (n : Q) : res bool := v ← Json.number x; Ret (Qltb n v).

Definition allowed_kinds : list string := [ "Deployment"; "StatefulSet"; "DaemonSet" ].
Definition allowed_types : list string :=
  [ "CPU"; "MEMORY"; "REPLICAS"; "ALL"; "SPOT_INSTANCES"; "SCHEDULED_SCALING" ].
Definition allowed_risk_levels : list string := [ "LOW"; "MEDIUM"; "HIGH"; "CRITICAL" ].

Definition validate_cost_optimization (obj : json) : res (bool * string) :=
  spec ← get_of obj "spec" (JObj []);
  target_workload ← get_of spec "targetWorkload" (JObj []);
  name ← get_of target_workload "name" JNull;
  if negb (Json.truthy name) then Ret (false, "targetWorkload.name is required") else
  kind ← get_of target_workload "kind" JNull;
  if negb (Json.truthy kind) then Ret (false, "targetWorkload.kind is required") else
  if negb (among kind allowed_kinds)
  then Ret (false,
            "targetWorkload.kind must be one of ['Deployment', 'StatefulSet', 'DaemonSet']")
  else
  optimization_type ← get_of spec "optimizationType" JNull;
  if negb (Json.truthy optimization_type)
  then Ret (false, "optimizationType is required") else
  if negb (among optimization_type allowed_types)
  then Ret (false,
            "optimizationType must be one of ['CPU', 'MEMORY', 'REPLICAS', 'ALL', "
            +:+ "'SPOT_INSTANCES', 'SCHEDULED_SCALING']")
  else
  max_change_percent ← get_of spec "maxChangePercent" (JNum 50);
  below ← lt max_change_percent 1;
  outside ← (if (below : bool) then Ret true else gt max_change_percent 100);
  if (outside : bool)
  then Ret (false, "maxChangePercent must be between 1 and 100") else
  min_confidence ← get_of spec "minConfidence" (JNum 0.7);
  below ← lt min_confidence 0;
  outside ← (if (below : bool) then Ret true else gt min_confidence 1);
  if (outside : bool)
  then Ret (false, "minConfidence must be between 0.0 and 1.0") else
  dry_run ← get_of spec "dryRun" (JBool true);
  auto_apply ← get_of spec "autoApply" (JBool false);
  if Json.truthy auto_apply && Json.truthy dry_run
  then Ret (false, "Cannot enable both autoApply and dryRun") else
  max_risk_level ← get_of spec "maxRiskLevel" (JStr "MEDIUM");
  if negb (among max_risk_level allowed_risk_levels)
  then Ret (false, "maxRiskLevel must be one of ['LOW', 'MEDIUM', 'HIGH', 'CRITICAL']")
  else
  if Json.truthy auto_apply && among max_risk_level [ "HIGH"; "CRITICAL" ]
  then Ret (false, "Cannot enable autoApply with maxRiskLevel HIGH or CRITICAL") else
  if is_str kind "StatefulSet" && is_str optimization_type "REPLICAS"
     && Json.truthy auto_apply
  then Ret (false,
            "Cannot auto-apply replica optimization to StatefulSet. "
            +:+ "Manual intervention required.")
  else
  if is_str kind "DaemonSet" && among optimization_type [ "REPLICAS"; "ALL" ]
  then Ret (false, "Cannot optimize replicas for DaemonSet") else
  unsure ←
    (if is_str optimization_type "SPOT_INSTANCES" && Json.truthy auto_apply
     then lt min_confidence 0.8
     else Ret false);
  if (unsure : bool)
  then Ret (false,
            "Spot instance optimization requires minConfidence >= 0.8 for auto-apply")
  else Ret (true, "Validation passed").

Definition system_namespaces : list string :=
  [ "kube-system"; "kube-public"; "kube-node-lease" ].
Definition protected_workloads : list string :=
  [ "kube-dns"; "coredns"; "kube-proxy"; "metrics-server"; "kubernetes-dashboard" ].

Definition prevent_dangerous_optimization (obj : json) : res (bool * string) :=
  spec ← get_of obj "spec" (JObj []);
  metadata ← get_of obj "metadata" (JObj []);
  namespace ← get_of metadata "namespace" (JStr "default");
  if among namespace system_namespaces
  then Ret (false,
            "Cannot optimize workloads in " +:+ Operator.text_of namespace +:+ " namespace")
  else
  target_workload ← get_of spec "targetWorkload" (JObj []);
  workload_name ← get_of target_workload "name" (JStr "");
  if among workload_name protected_workloads
  then Ret (false,
            "Cannot optimize protected workload: " +:+ Operator.text_of workload_name)
  else
  labels ← get_of metadata "labels" (JObj []);
  component ← get_of labels "app.kubernetes.io/component" JNull;
  if is_str component "controller"
  then Ret (false, "Cannot optimize Kubernetes controller components") else
  max_change_percent ← get_of spec "maxChangePercent" (JNum 50);
  large ← gt max_change_percent 80;
  auto_apply ← (if (large : bool) then get_of spec "autoApply" (JBool false)
                else Ret (JBool false));
  if large && Json.truthy auto_apply
  then Ret (false, "Cannot auto-apply optimizations with maxChangePercent > 80%")
  else Ret (true, "Safety checks passed").

(** The [status] of a rejection: a code with its message, or code 500
    with the text of the exception after ["Internal error: "]. *)
Inductive Status : Type :=
| Rejected (code : Z) (message : string)
| InternalError (e : exn).

(** The [response] of the AdmissionReview that the route returns, with
    the status of the HTTP reply. *)
Record Response : Type := mkResponse {
  http_status : Z;
  uid : json;
  allowed : bool;
  status : option Status
}.

(** The route [POST /validate], from the parsed body of the request.  An
    exception of the [except] clause itself leaves the route. *)
Definition validate (admission_review : json) : res Response :=
  try_except
    (req ← get_of admission_review "request" (JObj []);
     _ ← get_of req "uid" JNull;
     obj ← get_of req "object" (JObj []);
     verdict ← validate_cost_optimization obj;
     let '(valid, message) := verdict in
     if negb valid
     then uid ← get_of req "uid" JNull;
          Ret (mkResponse 200 uid false (Some (Rejected 400 message)))
     else
       verdict ← prevent_dangerous_optimization obj;
       let '(safe, message) := verdict in
       if negb safe
       then uid ← get_of req "uid" JNull;
            Ret (mkResponse 200 uid false (Some (Rejected 403 message)))
       else
         metadata ← get_of obj "metadata" (JObj []);
         _ ← get_of metadata "name" JNull;
         uid ← get_of req "uid" JNull;
         Ret (mkResponse 200 uid true None))
    (fun e =>
       req ← get_of admission_review "request" (JObj []);
       uid ← get_of req "uid" JNull;
       Ret (mkResponse 500 uid false (Some (InternalError e)))).

End AdmissionWebhook.

(* ================================================================== *)
(** ** operator/main.py: the deletion of a declaration *)
(* ================================================================== *)

Module Operator2.

Import OptimizationHandler Operator.

(** What the handler leaves behind: the events, the world, and by how
    much the counter [rollbacks_executed] went up. *)
Record Deletion : Type := mkDeletion {
  events : list Event;
  world : World.t;
  rollbacks_executed : Z
}.

(** The call of [execute_rollback] from the handler; as in [call_apply], a
    name that is not a string makes the handler return [False]. *)
Definition call_rollback (workload_name workload_kind workload_namespace : json)
    (now : string) (w : World.t) : bool * World.t :=
  match api_name workload_name, api_name workload_kind, api_name workload_namespace with
  | Some name, Some kind, Some ns => RollbackHandler.execute_rollback name kind ns now w
  | _, _, _ => (false, w)
  end.

(** [delete_optimization]: the result of the rollback is not looked at. *)
Definition delete_optimization (spec status : Dict.t) (name namespace : string)
    (now : string) (w : World.t) : Deletion :=
  match
    let phase := Dict.get_default "phase" JNull status in
    if AdmissionWebhook.is_str phase "Applied" then
      target ← Ret (Dict.get_default "targetWorkload" (JObj []) spec);
      workload_name ← get_of target "name" JNull;
      workload_kind ← get_of target "kind" JNull;
      workload_namespace ← get_of target "namespace" (JStr namespace);
      if Json.truthy (Dict.get_default "rollbackOnFailure" (JBool true) spec)
      then
        let '(_, w) :=
          call_rollback workload_name workload_kind workload_namespace now w in
        Ret (w, 1%Z)
      else Ret (w, 0%Z)
    else Ret (w, 0%Z)
  with
  | Ret (w, n) =>
      mkDeletion
        [ mkEvent "info" "OptimizationDeleted" ("CostOptimization " +:+ name +:+ " deleted") ]
        w n
  | Raise _ => mkDeletion [] w 0
  end.

End Operator2.

(* ================================================================== *)
(** ** operator/handlers/optimization_handler.py: the request and the
       choice of [analyze_workload] *)
(* ================================================================== *)

Module OptimizationHandler2.

Import OptimizationHandler.

(** [_get_optimization_types] *)
Definition _get_optimization_types (optimization_type : json) : list string :=
  if AdmissionWebhook.is_str optimization_type "ALL" then
    [ "right_size_cpu"; "right_size_memory"; "reduce_replicas"; "spot_instances";
      "scheduled_scaling" ]
  else if AdmissionWebhook.is_str optimization_type "CPU" then [ "right_size_cpu" ]
  else if AdmissionWebhook.is_str optimization_type "MEMORY" then [ "right_size_memory" ]
  else if AdmissionWebhook.is_str optimization_type "REPLICAS"
  then [ "reduce_replicas"; "increase_replicas" ]
  else if AdmissionWebhook.is_str optimization_type "SPOT_INSTANCES"
  then [ "spot_instances" ]
  else if AdmissionWebhook.is_str optimization_type "SCHEDULED_SCALING"
  then [ "scheduled_scaling" ]
  else [ "right_size_cpu"; "right_size_memory" ].

(** [OptimizationType(value)]: the member with that value. *)
Definition of_value (value : string) : option OptimizationType.t :=
  find (fun t => String.eqb (OptimizationType.value t) value)
    [ OptimizationType.RIGHT_SIZE_CPU; OptimizationType.RIGHT_SIZE_MEMORY;
      OptimizationType.REDUCE_REPLICAS; OptimizationType.INCREASE_REPLICAS;
      OptimizationType.SPOT_INSTANCES; OptimizationType.CHANGE_INSTANCE_TYPE;
      OptimizationType.CONSOLIDATE_NODES; OptimizationType.MOVE_TO_CHEAPER_REGION;
      OptimizationType.SCHEDULED_SCALING; OptimizationType.REMOVE_UNUSED ].

(** The body of the request of [analyze_workload] as the endpoint reads
    it: [min_confidence] is a [float] field, [optimization_types] a list of
    members given by value, [max_risk_level] is left at its default. *)
Definition optimize_request (min_confidence optimization_type : json)
  : res OptimizerApi.OptimizeWorkloadRequest :=
  confidence ← Json.float_field min_confidence;
  types ←
    match mapM of_value (_get_optimization_types optimization_type) with
    | Some types => Ret types
    | None => Raise ValidationError
    end;
  Ret (OptimizerApi.mkRequest (Some types) confidence OptimizerApi.default_max_risk_level).

(** [a > b] between two keys: two numbers, or two strings in
    lexicographic order; the mixed cases raise.  (Two lists are compared
    item by item in Python; that comparison is outside this model and is
    reported as [TypeError].) *)
Definition key_gt (a b : json) : res bool :=
  match a, b with
  | JStr x, JStr y => Ret (negb (String.leb x y))
  | _, _ => x ← Json.number a; y ← Json.number b; Ret (Qltb y x)
  end.

(** [lambda r: r.get('monthly_savings', 0)] *)
Definition savings_key (r : json) : res json := get_of r "monthly_savings" (JNum 0).

(** The loop of [max(items, key=...)] once a first item is held: a later
    item replaces the held one when its key is greater. *)
Fixpoint max_loop (best best_key : json) (items : list json) : res json :=
  match items with
  | [] => Ret best
  | item :: items' =>
      k ← savings_key item;
      greater ← key_gt k best_key;
      if (greater : bool) then max_loop item k items' else max_loop best best_key items'
  end.

(** Lines 53-68 of [analyze_workload]: from the body of the reply to the
    result.  A value that is no list has no items with a [get]. *)
Definition best_recommendation (data : json) : option json :=
  match
    recommendations ← get_of data "recommendations" (JArr []);
    if negb (Json.truthy recommendations) then Ret None
    else
      match recommendations with
      | JArr (first :: items) =>
          k ← savings_key first;
          best ← max_loop first k items;
          Ret (Some best)
      | JObj _ | JStr _ => Raise AttributeError
      | _ => Raise TypeError
      end
  with
  | Ret r => r
  | Raise _ => None
  end.

End OptimizationHandler2.

(* ================================================================== *)
(** * Vocabulary of the statements *)
(* ================================================================== *)

(** Names for quantities that the code computes inline, so that the
    statements below can refer to them. *)

Module Notions.

Import MLEngine.
Local Open Scope Q_scope.

(** [max_utilization] of [optimize_replicas] (line 77). *)
Definition max_utilization (m : WorkloadMetrics.t) : Q :=
  Py.max (WorkloadMetrics.cpu_utilization_pct m)
         (WorkloadMetrics.memory_utilization_pct m).

(** The StatefulSet guard of [optimize_replicas] (lines 89-90). *)
Definition statefulset_guard (w : Workload.t) (r : Z) : Z :=
  if String.eqb (Workload.kind w) "StatefulSet" && (r <? Workload.replicas w)%Z
  then Workload.replicas w else r.

(** [avg_variance] of [calculate_confidence] (line 111). *)
Definition avg_variance (m : WorkloadMetrics.t) : Q :=
  (_calculate_variance (WorkloadMetrics.cpu_usage m)
   + _calculate_variance (WorkloadMetrics.memory_usage m)) / 2.

(** The four increments of [calculate_confidence]. *)
Definition sample_bonus (n : Z) : Q :=
  if (1000 <? n)%Z then 0.2
  else if (500 <? n)%Z then 0.15
  else if (100 <? n)%Z then 0.1
  else 0.

Definition variance_bonus (v : Q) : Q :=
  if Qltb v 0.15 then 0.2 else if Qltb v 0.3 then 0.1 else 0.

Definition window_bonus (h : Z) : Q :=
  if (168 <=? h)%Z then 0.1 else if (72 <=? h)%Z then 0.05 else 0.

Definition extreme_bonus (kind : string) (u : Q) : Q :=
  if String.eqb kind "right_sizing"
  then if Qltb u 20 || Qltb 90 u then 0.05 else 0
  else 0.

Definition confidence_sum (m : WorkloadMetrics.t) (kind : string) : Q :=
  0.5 + sample_bonus (WorkloadMetrics.sample_count m)
  + variance_bonus (avg_variance m)
  + window_bonus (WorkloadMetrics.time_range_hours m)
  + extreme_bonus kind (WorkloadMetrics.cpu_utilization_pct m).

(** *** Pattern classes and sample inputs *)





Definition example_workload (kind : string) (replicas : Z) : Workload.t :=
  Workload.mk "wl-1" "cl-1" "prod" "default" "web" kind replicas
    (ResourceSpec.mk "500m" "512Mi" "1" "1Gi") "aws".

Definition flat_stats (avg p50 p95 : Q) : MetricStats.t :=
  MetricStats.mk avg p50 p95 p95 p95 0.

Definition example_metrics (cpu_pct mem_pct : Q) : WorkloadMetrics.t :=
  WorkloadMetrics.mk "wl-1" (flat_stats 1 1 1.1) (flat_stats 1 1 1.1)
    cpu_pct mem_pct 2000 168.


Definition sparse_metrics (cpu_pct mem_pct : Q) : WorkloadMetrics.t :=
  WorkloadMetrics.mk "wl-1" (flat_stats 1 1 1.1) (flat_stats 1 1 1.1)
    cpu_pct mem_pct 50 24.

(** *** Costs and risk *)

(** What a failed pricing call is: the [try] block of
    [fetch_current_costs] raises. *)
Definition pricing_fails (reply : Http.reply) (replicas : Q) : Prop :=
  exists e : exn, CostCalculator.priced reply replicas = Raise e.


(** What the recommendations of every family have in common. *)
Record emitted (cc : CostEstimate.t) (r : Recommendation.t) : Prop := {
  em_current : Recommendation.current_cost r = cc;
  em_nonneg : 0 <= Recommendation.monthly_savings r;
  em_conf : 0 <= Recommendation.confidence_score r <= 1;
  em_level :
    RiskAssessment.level (Recommendation.risk_assessment r) <> RiskLevel.CRITICAL;
  em_score : RiskAssessment.score (Recommendation.risk_assessment r) <= 0.85
}.

(** A pricing service that never answers. *)
Definition pricing_down : CostCalculator.pricing_service :=
  fun _ _ => Http.NoResponse.

(** A pricing service that answers every request with the same quote. *)
Definition pricing_quote (hourly monthly : Q) : CostCalculator.pricing_service :=
  fun _ _ =>
    Http.Response 200
      (Some (JObj [ ("hourly_cost", JNum hourly);
                    ("monthly_cost", JNum monthly);
                    ("breakdown",
                     JObj [ ("compute", JNum monthly); ("memory", JNum 0);
                            ("storage", JNum 0); ("network", JNum 0);
                            ("total", JNum monthly) ]) ])).

(** A spot price list with one entry. *)
Definition spot_prices_for (instance_type : string) (on_demand spot discount : Q)
  : CostCalculator.spot_service :=
  fun _ =>
    Http.Response 200
      (Some (JObj [ ("prices",
                     JArr [ JObj [ ("instance_type", JStr instance_type);
                                   ("on_demand_price", JNum on_demand);
                                   ("spot_price", JNum spot);
                                   ("discount_percentage", JNum discount) ] ]) ])).

Definition spot_down : CostCalculator.spot_service := fun _ => Http.NoResponse.

(** The pricing service quotes 14.60 a month per replica; the spot list
    prices the inferred instance type at 0.0104 on demand, 0.0031 spot. *)
Definition quoting_collaborator : Recommender.collaborator :=
  Recommender.mkCollaborator (pricing_quote 0.02 14.6) (pricing_quote 0.02 14.6)
    (pricing_quote 0.02 14.6) (spot_prices_for "t3.micro" 0.0104 0.0031 70).

Definition offline_collaborator : Recommender.collaborator :=
  Recommender.mkCollaborator pricing_down pricing_down pricing_down spot_down.

(** A workload whose memory request is spelled in tebibytes. *)
Definition tebibyte_workload : Workload.t :=
  Workload.mk "wl-2" "cl-1" "prod" "default" "cache" "Deployment" 2
    (ResourceSpec.mk "500m" "1Ti" "1" "2Ti") "aws".

(** An idle Deployment whose containers request nothing. *)
Definition idle_workload : Workload.t :=
  Workload.mk "wl-3" "cl-1" "prod" "default" "batch" "Deployment" 2
    (ResourceSpec.mk "0" "0" "0" "0") "aws".
Definition idle_metrics : WorkloadMetrics.t :=
  WorkloadMetrics.mk "wl-3" (flat_stats 0 0 0) (flat_stats 0 0 0) 0 0 2000 168.

(** *** Operator *)

(** The four resource fields of a container, [None] where unset. *)
Definition request_of (c : K8s.Container) (k : string) : option json :=
  r ← K8s.resources c; rq ← K8s.requests r; rq !! k.

Definition limit_of (c : K8s.Container) (k : string) : option json :=
  r ← K8s.resources c; lm ← K8s.limits r; lm !! k.

Definition resource_view (c : K8s.Container)
  : option json * option json * option json * option json :=
  (request_of c "cpu", request_of c "memory", limit_of c "cpu", limit_of c "memory").

(** A field after a rollback from the snapshot [s]: the snapshot value
    where the snapshot has the key, else what the container held. *)
Definition from_snapshot (s : gmap string json) (key : string) (held : option json)
  : option json :=
  match s !! key with
  | Some v => Some v
  | None => held
  end.

Definition restored_view (s : gmap string json) (c : K8s.Container)
  : option json * option json * option json * option json :=
  (from_snapshot s "cpu_request" (request_of c "cpu"),
   from_snapshot s "memory_request" (request_of c "memory"),
   from_snapshot s "cpu_limit" (limit_of c "cpu"),
   from_snapshot s "memory_limit" (limit_of c "memory")).

(** All four fields are set. *)
Definition fully_specified (c : K8s.Container) : Prop :=
  is_Some (request_of c "cpu") /\ is_Some (request_of c "memory")
  /\ is_Some (limit_of c "cpu") /\ is_Some (limit_of c "memory").

(** Every container is fully specified, with the values of the first. *)
Definition uniform (o : K8s.Object) : Prop :=
  forall c0 c : K8s.Container,
    head (K8s.containers o) = Some c0 ->
    In c (K8s.containers o) ->
    fully_specified c /\ resource_view c = resource_view c0.

Definition rolled_back_at : string := "optimization.k8s.io/rolled-back-at".
Definition rolled_back_by : string := "optimization.k8s.io/rolled-back-by".

(** A Deployment [web] with three replicas and one container that
    declares no resources. *)
Definition bare_deployment : K8s.Object :=
  K8s.mkObject 3 [ K8s.mkContainer "app" None ] None None.

Definition sized_deployment : K8s.Object :=
  K8s.mkObject 3
    [ K8s.mkContainer "app"
        (Some (K8s.mkRequirements
                 (Some (<["memory" := JStr "512Mi"]> (<["cpu" := JStr "500m"]> ∅)))
                 (Some (<["memory" := JStr "1Gi"]> (<["cpu" := JStr "1"]> ∅))))) ]
    None None.

Definition world_with (o : K8s.Object) : World.t :=
  World.mk (<[("default", "web") := o]> ∅) ∅ ∅ ∅ (Some ∅).

(** A declaration that asks for automatic application. *)
Definition auto_apply_spec (max_risk_level : string) : Dict.t :=
  [ ("targetWorkload",
     JObj [ ("name", JStr "web"); ("kind", JStr "Deployment");
            ("namespace", JStr "default") ]);
    ("optimizationType", JStr "REPLICAS");
    ("dryRun", JBool false);
    ("autoApply", JBool true);
    ("minConfidence", JNum 0.7);
    ("maxRiskLevel", JStr max_risk_level) ].

(** The replica recommendation for [example_workload "Deployment" 3] at 50%
    / 40% utilization with the pricing service down: 3 -> 2 replicas,
    confidence 1, risk low. *)
Definition low_risk_recommendation : option Recommendation.t :=
  match Recommender.generate_recommendations offline_collaborator
          (example_workload "Deployment" 3) (example_metrics 50 40)
          Recommender.default_min_confidence with
  | Ret (r :: _) => Some r
  | _ => None
  end.

(** The same payload with the level spelled as the key of [risk_levels]. *)
Definition with_level (level : string) (recommendation : json) : json :=
  match recommendation with
  | JObj d =>
      JObj (Dict.set "risk_assessment"
              (match Dict.get "risk_assessment" d with
               | Some (JObj ra) => JObj (Dict.set "level" (JStr level) ra)
               | _ => JObj [ ("level", JStr level) ]
               end) d)
  | j => j
  end.

(** A configuration that sets every field. *)
Definition shrink_config : json :=
  JObj [ ("replicas", JNum 2); ("cpu_request", JStr "250m");
         ("memory_request", JStr "256Mi"); ("cpu_limit", JStr "500m");
         ("memory_limit", JStr "512Mi") ].

(** The low-risk recommendation as the API sends it. *)
Definition low_risk_payload : json :=
  match low_risk_recommendation with
  | Some r => Wire.recommendation_json r
  | None => JNull
  end.

(** A recommendation that carries [shrink_config]. *)
Definition shrink_recommendation : json := JObj [ ("recommended_config", shrink_config) ].

(** *** Strings *)

(** The last character of a non-empty string. *)
Fixpoint last_char (s : string) : option ascii :=
  match s with
  | EmptyString => None
  | String c EmptyString => Some c
  | String _ s' => last_char s'
  end.

(** Strings of decimal digits. *)
Definition is_digit (c : ascii) : bool :=
  match digit_of c with Some _ => true | None => false end.

Fixpoint all_digits (s : string) : bool :=
  match s with
  | EmptyString => true
  | String c s' => is_digit c && all_digits s'
  end.

(** No character of [s] passes the test [p]. *)
Fixpoint avoids (p : ascii -> bool) (s : string) : bool :=
  match s with
  | EmptyString => true
  | String c s' => negb (p c) && avoids p s'
  end.

(** The unit [_format_memory] writes a byte count in. *)
Definition memory_unit (memory_bytes : Z) : Z :=
  if (memory_bytes <? 1024 * 1024)%Z then 1024
  else if (memory_bytes <? 1024 * 1024 * 1024)%Z then 1024 * 1024
  else 1024 * 1024 * 1024.

(** *** Bin packing *)

(** The request a workload dictionary carries under [k], 0 when it is
    missing. *)
Definition requested (k : string) (w : Dict.t) : Q :=
  match MLEngine2.request k w with
  | Ret q => q
  | Raise _ => 0%Q
  end.

Definition sum_requests (k : string) (ws : list Dict.t) : Q :=
  fold_right (fun w acc => (requested k w + acc)%Q) 0%Q ws.

(** The sums a node records are those of its workloads. *)
Definition node_sums (n : MLEngine2.Node) : Prop :=
  (MLEngine2.cpu_used n == sum_requests "cpu_request" (MLEngine2.workloads n))%Q
  /\ (MLEngine2.memory_used n
      == sum_requests "memory_request" (MLEngine2.workloads n))%Q.

(** A node holds at most one workload or stays within 85% of the two
    capacities. *)
Definition node_within (cpu_cap memory_cap : Q) (n : MLEngine2.Node) : Prop :=
  (length (MLEngine2.workloads n) <= 1)%nat
  \/ ((MLEngine2.cpu_used n <= cpu_cap * 0.85)%Q
      /\ (MLEngine2.memory_used n <= memory_cap * 0.85)%Q).

(** What the loop keeps true: [done] are the workloads placed so far. *)
Record packed (cpu_cap memory_cap : json) (done : list MLEngine2.Sized)
    (state : list MLEngine2.Node * MLEngine2.Node) : Prop := {
  packed_items :
    concat (map MLEngine2.workloads (fst state ++ [snd state])) = map MLEngine2.item done;
  packed_sums : Forall node_sums (fst state ++ [snd state]);
  packed_count : (length (fst state) <= length done)%nat;
  packed_caps :
    Forall (fun n => MLEngine2.cpu_capacity n = cpu_cap /\ MLEngine2.memory_capacity n = memory_cap)
      (fst state ++ [snd state]);
  packed_within :
    forall cc mc : Q,
      Json.number cpu_cap = Ret cc -> Json.number memory_cap = Ret mc ->
      Forall (node_within cc mc) (fst state ++ [snd state])
}.

(** A workload dictionary with two numeric requests. *)
Definition pod (name : string) (cpu memory : Q) : Dict.t :=
  [ ("name", JStr name); ("cpu_request", JNum cpu); ("memory_request", JNum memory) ].

(** *** More on costs *)

(** The configuration [_create_right_sizing_recommendation] prices. *)
Definition right_size_config (w : Workload.t) (m : WorkloadMetrics.t) : Dict.t :=
  let new_resources := fst (MLEngine.right_size_resources w m) in
  [ ("cpu_request", JStr (ResourceSpec.cpu_request new_resources));
    ("memory_request", JStr (ResourceSpec.memory_request new_resources));
    ("cpu_limit", JStr (ResourceSpec.cpu_limit new_resources));
    ("memory_limit", JStr (ResourceSpec.memory_limit new_resources));
    ("replicas", Recommender.jint (Workload.replicas w)) ].

(** A provider the cost model has no table for. *)
Definition unknown_provider (provider : string) : Prop :=
  CostCalculator.lower provider <> "aws"
  /\ CostCalculator.lower provider <> "gcp"
  /\ CostCalculator.lower provider <> "azure".

(** The instance type the cost model works with: the one given, or the
    one inferred from the requests of the workload. *)
Definition resolved_instance_type (w : Workload.t) (instance_type : option string)
  : res string :=
  let provider := CostCalculator.lower (Workload.provider w) in
  match instance_type with
  | Some s =>
      if String.eqb s "" then CostCalculator._infer_instance_type w provider else Ret s
  | None => CostCalculator._infer_instance_type w provider
  end.

(** The address of the spot price list of a workload's provider. *)
Definition spot_prices_url (w : Workload.t) : string :=
  CostCalculator._get_pricing_url (CostCalculator.lower (Workload.provider w))
  +:+ "/spot-prices".

(** A pricing service reached under one address only. *)
Definition through_aws (post : CostCalculator.pricing_service)
  : CostCalculator.pricing_service :=
  fun _ request => post (CostCalculator.aws_pricing_url +:+ "/pricing") request.

(** *** More on the recommender *)

(** The cpu of a change that takes capacity away runs above 80%. *)
Definition hot_cpu (t : OptimizationType.t) (m : option WorkloadMetrics.t) : bool :=
  (bool_decide (t = OptimizationType.REDUCE_REPLICAS)
   || bool_decide (t = OptimizationType.RIGHT_SIZE_CPU))
  && match m with
     | Some m => Qltb 80 (WorkloadMetrics.cpu_utilization_pct m)
     | None => false
     end.

(** The level [assess_risk] arrives at. *)
Definition risk_level_of (w : Workload.t) (t : OptimizationType.t)
    (m : option WorkloadMetrics.t) : RiskLevel.t :=
  let stateful := String.eqb (Workload.kind w) "StatefulSet" in
  if bool_decide (t = OptimizationType.SPOT_INSTANCES) then RiskLevel.MEDIUM
  else if stateful && hot_cpu t m then RiskLevel.HIGH
  else if stateful || hot_cpu t m then RiskLevel.MEDIUM
  else RiskLevel.LOW.

(** Decreasing order of [monthly_savings]. *)
Definition by_savings (a b : Recommendation.t) : Prop :=
  (Recommendation.monthly_savings b <= Recommendation.monthly_savings a)%Q.

(** Every call of the pricing service fails, whatever the replica count. *)
Definition pricing_unavailable (post : CostCalculator.pricing_service) : Prop :=
  forall (url : string) (request : PricingRequest.t) (n : Q),
    pricing_fails (post url request) n.

(** Metrics with a p95 20% above the median on both dimensions: the
    business-hours pattern. *)
Definition office_hours_metrics : WorkloadMetrics.t :=
  WorkloadMetrics.mk "wl-1" (flat_stats 1 1 1.2) (flat_stats 1 1 1.2) 50 40 2000 168.

(** *** The optimizer API *)

(** The request the operator sends: the confidence bound and the type
    names of the declaration; the risk bound is left at its default. *)
Definition operator_request (min_confidence : Q) (types : list OptimizationType.t)
  : OptimizerApi.OptimizeWorkloadRequest :=
  OptimizerApi.mkRequest (Some types) min_confidence OptimizerApi.default_max_risk_level.

(** A request that only sets the risk bound. *)
Definition risk_request (max_risk_level : RiskLevel.t)
  : OptimizerApi.OptimizeWorkloadRequest :=
  OptimizerApi.mkRequest OptimizerApi.default_types OptimizerApi.default_min_confidence
    max_risk_level.

(** What the string comparison of the endpoint lets through under a
    bound. *)
Definition passes_risk_filter (bound level : RiskLevel.t) : Prop :=
  match bound with
  | RiskLevel.LOW => level <> RiskLevel.MEDIUM
  | RiskLevel.MEDIUM => True
  | RiskLevel.HIGH => level = RiskLevel.HIGH \/ level = RiskLevel.CRITICAL
  | RiskLevel.CRITICAL => level = RiskLevel.CRITICAL
  end.

(** A StatefulSet whose cpu runs hot while its p95 usage is small. *)
Definition hot_stateful_workload : Workload.t :=
  Workload.mk "wl-4" "cl-1" "prod" "default" "queue" "StatefulSet" 3
    (ResourceSpec.mk "500m" "512Mi" "1" "1Gi") "aws".

Definition hot_small_metrics : WorkloadMetrics.t :=
  WorkloadMetrics.mk "wl-4" (flat_stats (1 # 10) (1 # 10) (1 # 10))
    (flat_stats 100000000 100000000 100000000) 85 40 2000 168.

(** *** The operator: audit annotations and workload maps *)

Definition optimized_at : string := "optimization.k8s.io/optimized-at".


(** The cache holds nothing under the key. *)
Definition not_cached (key : string) (w : World.t) : Prop :=
  match World.redis w with
  | Some kv => kv !! key = None
  | None => True
  end.

(** A world with a StatefulSet [web] and no cache. *)
Definition stateful_world (o : K8s.Object) : World.t :=
  World.mk ∅ (<[("default", "web") := o]> ∅) ∅ ∅ None.

(** *** Admission *)

(** An AdmissionReview for a declaration with the given spec, in the
    namespace [default]. *)
Definition review_of (spec : Dict.t) : json :=
  JObj [ ("request",
          JObj [ ("uid", JStr "uid-1");
                 ("object",
                  JObj [ ("metadata",
                          JObj [ ("name", JStr "opt-web");
                                 ("namespace", JStr "default") ]);
                         ("spec", JObj spec) ]) ]) ].

(** The declaration a review is about. *)
Definition declared_spec (admission_review : json) : res json :=
  req ← OptimizationHandler.get_of admission_review "request" (JObj []);
  obj ← OptimizationHandler.get_of req "object" (JObj []);
  OptimizationHandler.get_of obj "spec" (JObj []).

End Notions.

Import Notions.

(* ================================================================== *)
(** * Theorems *)
(* ================================================================== *)

(** ** Facts about the Python primitives *)

Section PyFacts.

Local Open Scope Q_scope.

Lemma Qltb_true (a b : Q) : Qltb a b = true <-> a < b.
Proof.
  unfold Qltb. rewrite negb_true_iff. split.
  - intros H. apply Qnot_le_lt. intros Hle.
    apply Qle_bool_iff in Hle. congruence.
  - intros H. destruct (Qle_bool b a) eqn:E; [|reflexivity].
    apply Qle_bool_iff in E. exfalso. apply (Qlt_not_le _ _ H E).
Qed.

Lemma Qltb_false (a b : Q) : Qltb a b = false <-> b <= a.
Proof.
  unfold Qltb. rewrite negb_false_iff. apply Qle_bool_iff.
Qed.

Lemma Qeqb_true (a b : Q) : Qeqb a b = true <-> a == b.
Proof. apply Qeq_bool_iff. Qed.

Lemma Qeqb_false (a b : Q) : Qeqb a b = false <-> ~ a == b.
Proof.
  unfold Qeqb. split.
  - intros H E. apply Qeq_bool_iff in E. congruence.
  - intros H. destruct (Qeq_bool a b) eqn:E; [|reflexivity].
    apply Qeq_bool_iff in E. contradiction.
Qed.

Lemma Qleb_true (a b : Q) : Qleb a b = true <-> a <= b.
Proof. apply Qle_bool_iff. Qed.

Lemma Qleb_false (a b : Q) : Qleb a b = false <-> b < a.
Proof.
  unfold Qleb. split.
  - intros H. apply Qnot_le_lt. intros Hle.
    apply Qle_bool_iff in Hle. congruence.
  - intros H. destruct (Qle_bool a b) eqn:E; [|reflexivity].
    apply Qle_bool_iff in E. exfalso. apply (Qlt_not_le _ _ H E).
Qed.

Lemma inject_Z_half_lt (a b : Z) : inject_Z a < inject_Z b + (1 # 2) -> (a <= b)%Z.
Proof. unfold Qlt, Qplus, inject_Z. simpl. lia. Qed.

Lemma inject_Z_lt_inv (a b : Z) : inject_Z a < inject_Z b -> (a < b)%Z.
Proof. rewrite <- Zlt_Qlt. auto. Qed.

Lemma inject_Z_le_inv (a b : Z) : inject_Z a <= inject_Z b -> (a <= b)%Z.
Proof. rewrite <- Zle_Qle. auto. Qed.

(** [round] returns the integer whose open half-unit neighbourhood holds
    the argument. *)
Lemma round_near (x : Q) (z : Z) :
  inject_Z z - (1 # 2) < x -> x < inject_Z z + (1 # 2) -> round x = z.
Proof.
  intros Hlo Hhi. unfold round.
  pose proof (Qfloor_le x) as Hf.
  pose proof (Qlt_floor x) as Hc.
  rewrite inject_Z_plus in Hc. change (inject_Z 1) with 1 in Hc.
  assert (Hz1 : (Qfloor x <= z)%Z) by (apply inject_Z_half_lt; lra).
  assert (Hz2 : (z <= Qfloor x + 1)%Z).
  { apply inject_Z_half_lt. rewrite inject_Z_plus.
    change (inject_Z 1) with 1. lra. }
  assert (Hcase : Qfloor x = z \/ Qfloor x = (z - 1)%Z) by lia.
  destruct Hcase as [E | E].
  - rewrite E in *.
    destruct (Qltb (x - inject_Z z) (1 # 2)) eqn:B; [reflexivity|].
    apply Qltb_false in B. lra.
  - assert (Ez : inject_Z z == inject_Z (Qfloor x) + 1).
    { rewrite E. unfold Qeq, Qplus, inject_Z. simpl. lia. }
    destruct (Qltb (x - inject_Z (Qfloor x)) (1 # 2)) eqn:B.
    + apply Qltb_true in B. lra.
    + destruct (Qltb (1 # 2) (x - inject_Z (Qfloor x))) eqn:B'.
      * lia.
      * apply Qltb_false in B'. lra.
Qed.

(** [round] stays within half a unit of its argument. *)
Lemma round_bounds (x : Q) :
  x - (1 # 2) <= inject_Z (round x) /\ inject_Z (round x) <= x + (1 # 2).
Proof.
  unfold round.
  pose proof (Qfloor_le x) as Hf.
  pose proof (Qlt_floor x) as Hc.
  rewrite inject_Z_plus in Hc. change (inject_Z 1) with 1 in Hc.
  destruct (Qltb (x - inject_Z (Qfloor x)) (1 # 2)) eqn:B.
  - apply Qltb_true in B. lra.
  - apply Qltb_false in B.
    destruct (Qltb (1 # 2) (x - inject_Z (Qfloor x))) eqn:B'.
    + rewrite inject_Z_plus. change (inject_Z 1) with 1. lra.
    + apply Qltb_false in B'.
      destruct (Z.even (Qfloor x)).
      * lra.
      * rewrite inject_Z_plus. change (inject_Z 1) with 1. lra.
Qed.

Lemma ceil_ge (x : Q) : x <= inject_Z (ceil x).
Proof. apply Qle_ceiling. Qed.

Lemma max_ge_l (a b : Q) : a <= Py.max a b.
Proof.
  unfold Py.max. destruct (Qltb a b) eqn:E.
  - apply Qltb_true in E. lra.
  - lra.
Qed.

Lemma max_ge_r (a b : Q) : b <= Py.max a b.
Proof.
  unfold Py.max. destruct (Qltb a b) eqn:E.
  - lra.
  - apply Qltb_false in E. lra.
Qed.

Lemma max_cases (a b : Q) : Py.max a b = a \/ Py.max a b = b.
Proof. unfold Py.max. destruct (Qltb a b); auto. Qed.

Lemma min_le_l (a b : Q) : Py.min a b <= a.
Proof.
  unfold Py.min. destruct (Qltb b a) eqn:E.
  - apply Qltb_true in E. lra.
  - lra.
Qed.

Lemma min_mono_r (a b c : Q) : b <= c -> Py.min a b <= Py.min a c.
Proof.
  intros H. unfold Py.min.
  destruct (Qltb b a) eqn:E1; destruct (Qltb c a) eqn:E2;
    try apply Qltb_true in E1; try apply Qltb_true in E2;
    try apply Qltb_false in E1; try apply Qltb_false in E2; lra.
Qed.

Lemma min_glb (a b c : Q) : c <= a -> c <= b -> c <= Py.min a b.
Proof. intros Ha Hb. unfold Py.min. destruct (Qltb b a); assumption. Qed.

Lemma div_ok (a b : Q) : ~ b == 0 -> Py.div a b = Ret (a / b).
Proof.
  intros H. unfold Py.div.
  destruct (Qeqb b 0) eqn:E; [|reflexivity].
  apply Qeqb_true in E. contradiction.
Qed.

Lemma div_zero (a b : Q) : b == 0 -> Py.div a b = Raise ZeroDivisionError.
Proof.
  intros H. unfold Py.div.
  apply Qeqb_true in H. rewrite H. reflexivity.
Qed.

End PyFacts.

(** Turns the boolean tests on rationals found in the context into
    propositions. *)
Ltac qprops :=
  repeat match goal with
    | H : Qltb _ _ = true |- _ => apply Qltb_true in H
    | H : Qltb _ _ = false |- _ => apply Qltb_false in H
    | H : Qleb _ _ = true |- _ => apply Qleb_true in H
    | H : Qleb _ _ = false |- _ => apply Qleb_false in H
    | H : Qeqb _ _ = true |- _ => apply Qeqb_true in H
    | H : Qeqb _ _ = false |- _ => apply Qeqb_false in H
    end.

Ltac case_if :=
  match goal with
  | |- context [if ?b then _ else _] => destruct b
  end.

(** ** StatsEngine: confidence *)

Section Confidence.
Local Open Scope Q_scope.
Import MLEngine.

Lemma calculate_confidence_sum (m : WorkloadMetrics.t) (kind : string) :
  exists b, calculate_confidence m kind = Py.min 1 b /\ b == confidence_sum m kind.
Proof.
  unfold calculate_confidence, confidence_sum, sample_bonus, variance_bonus,
    window_bonus, extreme_bonus, avg_variance.
  eexists. split; [reflexivity|].
  repeat case_if; ring.
Qed.

Lemma sample_bonus_mono (n n' : Z) : (n <= n')%Z -> sample_bonus n <= sample_bonus n'.
Proof.
  intros H. unfold sample_bonus.
  repeat match goal with
    | |- context [(?a <? ?b)%Z] => destruct (Z.ltb_spec a b)
    end; try lia; lra.
Qed.

Lemma window_bonus_mono (h h' : Z) : (h <= h')%Z -> window_bonus h <= window_bonus h'.
Proof.
  intros H. unfold window_bonus.
  repeat match goal with
    | |- context [(?a <=? ?b)%Z] => destruct (Z.leb_spec a b)
    end; try lia; lra.
Qed.

Lemma variance_bonus_comp (v v' : Q) : v == v' -> variance_bonus v = variance_bonus v'.
Proof.
  intros H. unfold variance_bonus.
  destruct (Qltb v 0.15) eqn:A; destruct (Qltb v' 0.15) eqn:A';
    destruct (Qltb v 0.3) eqn:B; destruct (Qltb v' 0.3) eqn:B';
    qprops; try reflexivity; lra.
Qed.

Lemma extreme_bonus_comp (kind : string) (u u' : Q) :
  u == u' -> extreme_bonus kind u = extreme_bonus kind u'.
Proof.
  intros H. unfold extreme_bonus.
  destruct (String.eqb kind _); [|reflexivity].
  destruct (Qltb u 20) eqn:A; destruct (Qltb u' 20) eqn:A';
    destruct (Qltb 90 u) eqn:B; destruct (Qltb 90 u') eqn:B';
    qprops; try reflexivity; lra.
Qed.

Lemma confidence_sum_ge_half m kind : 0.5 <= confidence_sum m kind.
Proof.
  unfold confidence_sum, sample_bonus, variance_bonus, window_bonus, extreme_bonus.
  repeat case_if; lra.
Qed.

(** C7. For every metrics record and optimization kind the confidence lies
    between 0 and 1; between two records with the same average variance and
    the same cpu utilization it does not decrease when the sample count and
    the observation window do not decrease. *)
Theorem calculate_confidence_bounds_monotone :
  forall (m : WorkloadMetrics.t) (kind : string),
    (0 <= calculate_confidence m kind /\ calculate_confidence m kind <= 1)
    /\ forall m' : WorkloadMetrics.t,
        avg_variance m' == avg_variance m ->
        WorkloadMetrics.cpu_utilization_pct m' == WorkloadMetrics.cpu_utilization_pct m ->
        (WorkloadMetrics.sample_count m <= WorkloadMetrics.sample_count m')%Z ->
        (WorkloadMetrics.time_range_hours m <= WorkloadMetrics.time_range_hours m')%Z ->
        calculate_confidence m kind <= calculate_confidence m' kind.
Proof.
  intros m kind.
  destruct (calculate_confidence_sum m kind) as (b & Eb & Hb).
  pose proof (confidence_sum_ge_half m kind) as Hge.
  split.
  - rewrite Eb. split.
    + apply min_glb; lra.
    + apply min_le_l.
  - intros m' Hv Hu Hn Hh.
    destruct (calculate_confidence_sum m' kind) as (b' & Eb' & Hb').
    rewrite Eb, Eb'. apply min_mono_r.
    rewrite Hb, Hb'. unfold confidence_sum.
    rewrite (variance_bonus_comp _ _ Hv), (extreme_bonus_comp kind _ _ Hu).
    pose proof (sample_bonus_mono _ _ Hn).
    pose proof (window_bonus_mono _ _ Hh).
    lra.
Qed.
End Confidence.

(** ** StatsEngine: replica optimization *)

Section Replicas.
Local Open Scope Q_scope.
Import MLEngine.

Lemma guard_ret (w : Workload.t) (r : Z) :
  (if String.eqb (Workload.kind w) "StatefulSet" && (r <? Workload.replicas w)%Z
   then Ret (Workload.replicas w) else Ret r) = Ret (statefulset_guard w r).
Proof. unfold statefulset_guard. destruct (_ && _); reflexivity. Qed.

Lemma proposed_very_low w m t :
  max_utilization m < 15 ->
  proposed_replicas w m t
  = Ret (statefulset_guard w (Z.max 1 (ceil (inject_Z (Workload.replicas w) * 0.5)))).
Proof.
  intros H. unfold proposed_replicas. fold (max_utilization m).
  rewrite (proj2 (Qltb_true _ 30)) by lra.
  rewrite (proj2 (Qltb_true _ 15)) by lra.
  simpl. apply guard_ret.
Qed.

Lemma proposed_low w m t :
  15 <= max_utilization m -> max_utilization m < 30 ->
  proposed_replicas w m t
  = Ret (statefulset_guard w (Z.max 1 (Workload.replicas w - 1))).
Proof.
  intros H1 H2. unfold proposed_replicas. fold (max_utilization m).
  rewrite (proj2 (Qltb_true _ 30)) by lra.
  rewrite (proj2 (Qltb_false _ 15)) by lra.
  simpl. apply guard_ret.
Qed.

Lemma proposed_high w m t :
  85 < max_utilization m -> ~ t == 0 ->
  proposed_replicas w m t
  = Ret (statefulset_guard w
           (ceil (inject_Z (Workload.replicas w) * (max_utilization m / t)))).
Proof.
  intros H1 Ht. unfold proposed_replicas. fold (max_utilization m).
  rewrite (proj2 (Qltb_false _ 30)) by lra.
  rewrite (proj2 (Qltb_true 85 _)) by lra.
  rewrite (div_ok _ _ Ht). simpl. apply guard_ret.
Qed.

Lemma proposed_mid w m t :
  30 <= max_utilization m -> max_utilization m <= 85 -> ~ t == 0 ->
  proposed_replicas w m t
  = Ret (statefulset_guard w
           (Z.max 1 (round (inject_Z (Workload.replicas w) * (max_utilization m / t))))).
Proof.
  intros H1 H2 Ht. unfold proposed_replicas. fold (max_utilization m).
  rewrite (proj2 (Qltb_false _ 30)) by lra.
  rewrite (proj2 (Qltb_false 85 _)) by lra.
  rewrite (div_ok _ _ Ht). simpl. apply guard_ret.
Qed.

(** Lines 92-97: the 15% rule applied to the proposal. *)
Lemma optimize_replicas_rule w m t r :
  Workload.replicas w <> 0%Z ->
  proposed_replicas w m t = Ret r ->
  optimize_replicas w m t
  = Ret (if Qltb (inject_Z (Z.abs (r - Workload.replicas w))
                  / inject_Z (Workload.replicas w)) 0.15
         then Workload.replicas w else r,
         calculate_confidence m "replica_optimization").
Proof.
  intros Hc Hp. unfold optimize_replicas. rewrite Hp. simpl.
  rewrite div_ok.
  - simpl. destruct (Qltb _ _); reflexivity.
  - intros E. apply Hc. unfold Qeq, inject_Z in E. simpl in E. lia.
Qed.

Lemma guard_ge_one w r :
  (1 <= Workload.replicas w)%Z -> (1 <= r)%Z -> (1 <= statefulset_guard w r)%Z.
Proof. intros. unfold statefulset_guard. destruct (_ && _); assumption. Qed.

Lemma proposed_ge_one w m t :
  (1 <= Workload.replicas w)%Z -> 0 < t ->
  exists r, proposed_replicas w m t = Ret r /\ (1 <= r)%Z.
Proof.
  intros Hc Ht.
  assert (Hne : ~ t == 0) by lra.
  destruct (Qlt_le_dec (max_utilization m) 30) as [L30 | G30].
  - destruct (Qlt_le_dec (max_utilization m) 15) as [L15 | G15].
    + eexists. split; [apply proposed_very_low; assumption|].
      apply guard_ge_one; [assumption | lia].
    + eexists. split; [apply proposed_low; assumption|].
      apply guard_ge_one; [assumption | lia].
  - destruct (Qlt_le_dec 85 (max_utilization m)) as [G85 | L85].
    + eexists. split; [apply proposed_high; assumption|].
      apply guard_ge_one; [assumption|].
      set (x := inject_Z (Workload.replicas w) * (max_utilization m / t)).
      assert (Hx : 0 < x).
      { unfold x. apply Qmult_lt_0_compat.
        - change 0 with (inject_Z 0). rewrite <- Zlt_Qlt. lia.
        - apply Qlt_shift_div_l; [assumption | lra]. }
      pose proof (ceil_ge x) as Hce.
      assert (inject_Z 0 < inject_Z (ceil x)) by (change (inject_Z 0) with 0; lra).
      apply inject_Z_lt_inv in H. lia.
    + eexists. split; [apply proposed_mid; assumption|].
      apply guard_ge_one; [assumption | lia].
Qed.

(** C9. For every workload with at least one replica, every metrics record
    and every positive target utilization, [optimize_replicas] returns (it
    does not raise) and the replica count it returns is at least 1; with
    0 replicas the 15% rule divides by zero. *)
Theorem optimize_replicas_total_positive :
  forall (w : Workload.t) (m : WorkloadMetrics.t) (t : Q),
    0 < t ->
    ((1 <= Workload.replicas w)%Z ->
     exists r : Z,
       optimize_replicas w m t = Ret (r, calculate_confidence m "replica_optimization")
       /\ (1 <= r)%Z)
    /\ (Workload.replicas w = 0%Z ->
        optimize_replicas w m t = Raise ZeroDivisionError).
Proof.
  intros w m t Ht. split.
  - intros Hc.
    destruct (proposed_ge_one w m t Hc Ht) as (r & Hp & Hr).
    rewrite (optimize_replicas_rule w m t r) by (assumption || lia).
    destruct (Qltb _ _); eexists; (split; [reflexivity | assumption]).
  - intros Hz.
    unfold optimize_replicas.
    destruct (proposed_replicas w m t) as [r|e] eqn:Hp.
    + simpl. rewrite Hz. rewrite div_zero by reflexivity. reflexivity.
    + exfalso. revert Hp. unfold proposed_replicas.
      assert (Hne : ~ t == 0) by lra.
      rewrite !(div_ok _ _ Hne). simpl.
      repeat case_if; simpl; repeat case_if; intros; discriminate.
Qed.
End Replicas.

(** ** StatsEngine: pattern classification *)

Section Patterns.
Local Open Scope Q_scope.
Import MLEngine.




End Patterns.

(** ** StatsEngine: the 15% rule *)

Section AntiThrash.
Local Open Scope Q_scope.
Import MLEngine.


Lemma max_utilization_eq (m : WorkloadMetrics.t) (a b : Q) :
  WorkloadMetrics.cpu_utilization_pct m == a ->
  WorkloadMetrics.memory_utilization_pct m == b ->
  b <= a -> max_utilization m == a.
Proof.
  intros Ha Hb Hab. unfold max_utilization.
  destruct (max_cases (WorkloadMetrics.cpu_utilization_pct m)
              (WorkloadMetrics.memory_utilization_pct m)) as [E | E];
    rewrite E; [assumption|].
  pose proof (max_ge_l (WorkloadMetrics.cpu_utilization_pct m)
                (WorkloadMetrics.memory_utilization_pct m)) as H.
  rewrite E in H. lra.
Qed.

Lemma Qdiv_lt_iff (a b k : Q) : 0 < b -> (a / b < k <-> a < k * b).
Proof.
  intros Hb. split; intros H.
  - assert (E : a == (a / b) * b) by (field; lra).
    rewrite E. apply Qmult_lt_r; assumption.
  - apply Qlt_shift_div_r; assumption.
Qed.

(** The 15% test on integers. *)
Lemma change_small (r c : Z) :
  (0 < c)%Z ->
  Qltb (inject_Z (Z.abs (r - c)) / inject_Z c) 0.15 = true
  <-> (100 * Z.abs (r - c) < 15 * c)%Z.
Proof.
  intros Hc. rewrite Qltb_true.
  assert (Hq : 0 < inject_Z c) by (change 0 with (inject_Z 0); rewrite <- Zlt_Qlt; lia).
  rewrite (Qdiv_lt_iff _ _ _ Hq).
  unfold Qlt, Qmult, inject_Z. simpl. lia.
Qed.

Lemma change_large (r c : Z) :
  (0 < c)%Z ->
  Qltb (inject_Z (Z.abs (r - c)) / inject_Z c) 0.15 = false
  <-> (15 * c <= 100 * Z.abs (r - c))%Z.
Proof.
  intros Hc. pose proof (change_small r c Hc) as H.
  destruct (Qltb _ _).
  - split; [discriminate|]. intros L. destruct H as [H _].
    specialize (H eq_refl). lia.
  - split; [|reflexivity]. intros _.
    destruct (Z_lt_le_dec (100 * Z.abs (r - c)) (15 * c)) as [L | L]; [|assumption].
    apply H in L. discriminate.
Qed.

(** C5. With 8 replicas at 75% / 70% utilization the proposal before the
    15% rule is 9, the change of 1 in 8 is below 15%, and
    [optimize_replicas] returns 8 with the confidence of
    [calculate_confidence]. *)
Theorem optimize_replicas_8_at_75_70 :
  forall (w : Workload.t) (m : WorkloadMetrics.t),
    Workload.replicas w = 8%Z ->
    WorkloadMetrics.cpu_utilization_pct m == 75 ->
    WorkloadMetrics.memory_utilization_pct m == 70 ->
    proposed_replicas w m default_target_utilization = Ret 9%Z
    /\ optimize_replicas w m default_target_utilization
       = Ret (8%Z, calculate_confidence m "replica_optimization").
Proof.
  intros w m Hc Hcpu Hmem.
  pose proof (max_utilization_eq m 75 70 Hcpu Hmem ltac:(lra)) as Hu.
  assert (Hp : proposed_replicas w m default_target_utilization = Ret 9%Z).
  { rewrite proposed_mid; unfold default_target_utilization; try lra.
    rewrite Hc. rewrite (round_near _ 9).
    - unfold statefulset_guard. rewrite Hc. simpl.
      rewrite andb_false_r. reflexivity.
    - rewrite Hu. reflexivity.
    - rewrite Hu. reflexivity. }
  split; [assumption|].
  rewrite (optimize_replicas_rule w m _ 9) by (assumption || lia).
  rewrite Hc. reflexivity.
Qed.

Lemma optimize_replicas_8_at_75_70_witness :
  optimize_replicas (example_workload "Deployment" 8) (example_metrics 75 70)
    default_target_utilization
  = Ret (8%Z, calculate_confidence (example_metrics 75 70) "replica_optimization").
Proof.
  apply (optimize_replicas_8_at_75_70
           (example_workload "Deployment" 8) (example_metrics 75 70));
    reflexivity.
Defined.

Lemma optimize_replicas_8_at_75_70_not_9 :
  exists c : Q,
    optimize_replicas (example_workload "Deployment" 8) (example_metrics 75 70)
      default_target_utilization = Ret (8%Z, c)
    /\ (8 <> 9)%Z.
Proof. eexists. split; [vm_compute; reflexivity | lia]. Qed.




End AntiThrash.

(** ** Instances of the StatsEngine theorems *)

Lemma calculate_confidence_bounds_monotone_witness :
  (MLEngine.calculate_confidence (sparse_metrics 10 10) "right_sizing"
   <= MLEngine.calculate_confidence (example_metrics 10 10) "right_sizing")%Q.
Proof.
  apply (proj2 (calculate_confidence_bounds_monotone
                  (sparse_metrics 10 10) "right_sizing") (example_metrics 10 10)).
  - reflexivity.
  - reflexivity.
  - simpl. lia.
  - simpl. lia.
Defined.

Lemma optimize_replicas_total_positive_witness :
  exists r : Z,
    MLEngine.optimize_replicas (example_workload "Deployment" 3) (example_metrics 95 40)
      MLEngine.default_target_utilization
    = Ret (r, MLEngine.calculate_confidence (example_metrics 95 40) "replica_optimization")
    /\ (1 <= r)%Z.
Proof.
  apply (proj1 (optimize_replicas_total_positive
                  (example_workload "Deployment" 3) (example_metrics 95 40)
                  MLEngine.default_target_utilization ltac:(reflexivity))).
  simpl. lia.
Defined.

(** ** The error monad *)

Section Monad.

Lemma bind_ret_inv {A B : Type} (m : res A) (f : A -> res B) (b : B) :
  m ≫= f = Ret b -> exists a : A, m = Ret a /\ f a = Ret b.
Proof. destruct m as [a | e]; simpl; intros H; [eauto | discriminate]. Qed.

End Monad.

(** Splits an equation [m ≫= f = Ret b] of the context into its steps. *)
Ltac bind_inv H :=
  let a := fresh "a" in
  let Ha := fresh "Ha" in
  apply bind_ret_inv in H; destruct H as (a & Ha & H).

(** ** CostModel *)

Section Costs.
Local Open Scope Q_scope.
Import CostCalculator.

Lemma andb5 (a b c d e : bool) :
  a && b && c && d && e = true -> a = true /\ b = true /\ c = true /\ d = true /\ e = true.
Proof. destruct a, b, c, d, e; simpl; intros; try discriminate; auto. Qed.

Lemma CostBreakdown_make_valid (c m s n t : Q) (b : CostBreakdown.t) :
  CostBreakdown.make c m s n t = Ret b ->
  b = CostBreakdown.mk c m s n t /\ CostBreakdown.valid b.
Proof.
  unfold CostBreakdown.make. destruct (_ && _) eqn:E; [|discriminate].
  intros H. injection H as <-. split; [reflexivity|].
  apply andb5 in E. destruct E as (? & ? & ? & ? & ?). qprops.
  unfold CostBreakdown.valid. simpl. auto.
Qed.

Lemma CostEstimate_make_valid (h d m y : Q) (b : CostBreakdown.t) (c : CostEstimate.t) :
  CostBreakdown.valid b ->
  CostEstimate.make h d m y b = Ret c ->
  c = CostEstimate.mk h d m y b /\ CostEstimate.valid c.
Proof.
  intros Hb. unfold CostEstimate.make. destruct (_ && _) eqn:E; [|discriminate].
  intros H. injection H as <-. split; [reflexivity|].
  apply andb_true_iff in E. destruct E as [E E4].
  apply andb_true_iff in E. destruct E as [E E3].
  apply andb_true_iff in E. destruct E as [E1 E2]. qprops.
  unfold CostEstimate.valid. simpl. auto.
Qed.

Lemma priced_valid (reply : Http.reply) (replicas : Q) (c : CostEstimate.t) :
  priced reply replicas = Ret c -> CostEstimate.valid c.
Proof.
  unfold priced, CostBreakdown.validate. intros H.
  repeat (bind_inv H).
  repeat match goal with
  | Hv : _ ≫= _ = Ret _ |- _ => bind_inv Hv
  end.
  match goal with
  | Hb : CostBreakdown.make _ _ _ _ _ = Ret _ |- _ =>
      apply CostBreakdown_make_valid in Hb; destruct Hb as [_ Hb]
  end.
  eapply CostEstimate_make_valid in H; [|eassumption]. apply H.
Qed.

Lemma linear_estimate_ok (cpu mem r : Q) :
  0 <= cpu -> 0 <= mem -> 0 <= r ->
  exists c : CostEstimate.t,
    linear_estimate cpu mem r = Ret c
    /\ CostEstimate.valid c
    /\ CostEstimate.hourly c == (cpu * 0.04 + mem * 0.005) * r
    /\ CostEstimate.monthly c == CostEstimate.hourly c * 730
    /\ CostEstimate.daily c == CostEstimate.monthly c / 30
    /\ CostEstimate.yearly c == CostEstimate.monthly c * 12
    /\ CostBreakdown.compute (CostEstimate.breakdown c) == (70 # 100) * CostEstimate.monthly c
    /\ CostBreakdown.memory (CostEstimate.breakdown c) == (20 # 100) * CostEstimate.monthly c
    /\ CostBreakdown.storage (CostEstimate.breakdown c) == (5 # 100) * CostEstimate.monthly c
    /\ CostBreakdown.network (CostEstimate.breakdown c) == (5 # 100) * CostEstimate.monthly c
    /\ CostBreakdown.total (CostEstimate.breakdown c) == CostEstimate.monthly c.
Proof.
  intros Hc Hm Hr. unfold linear_estimate.
  set (h := (cpu * 0.04 + mem * 0.005) * r).
  assert (Hh : 0 <= h).
  { unfold h. apply Qmult_le_0_compat; [|assumption].
    assert (0 <= cpu * 0.04) by (apply Qmult_le_0_compat; lra).
    assert (0 <= mem * 0.005) by (apply Qmult_le_0_compat; lra).
    lra. }
  unfold CostBreakdown.make.
  rewrite !(proj2 (Qleb_true 0 _)) by lra. simpl.
  unfold CostEstimate.make.
  rewrite (proj2 (Qleb_true 0 h)) by lra.
  rewrite (proj2 (Qleb_true 0 (h * 730 / 30))) by (apply Qle_shift_div_l; lra).
  rewrite (proj2 (Qleb_true 0 (h * 730))) by lra.
  rewrite (proj2 (Qleb_true 0 (h * 730 * 12))) by lra.
  simpl. eexists. split; [reflexivity|].
  unfold CostEstimate.valid, CostBreakdown.valid. simpl.
  assert (0 <= h * 730 / 30) by (apply Qle_shift_div_l; lra).
  repeat split; try lra; try reflexivity; try ring.
Qed.


Lemma infer_instance_type_ok (w : Workload.t) (provider : string) (cpu : Q) (mem : Z) :
  _parse_cpu (ResourceSpec.cpu_request (Workload.current_resources w)) = Ret cpu ->
  _parse_memory (ResourceSpec.memory_request (Workload.current_resources w)) = Ret mem ->
  _infer_instance_type w provider
  = Ret (instance_table provider cpu (inject_Z mem / bytes_per_gb)).
Proof. intros Hc Hm. unfold _infer_instance_type. rewrite Hc, Hm. reflexivity. Qed.

Lemma bytes_per_gb_pos : 0 < bytes_per_gb.
Proof. reflexivity. Qed.

(** C3. When the two request strings parse to non-negative amounts and the
    replica count is not negative, [fetch_current_costs] returns a valid
    estimate whatever the pricing service answers; when the call fails the
    estimate is the linear one: hourly (cpu * 0.04 + GB * 0.005) * replicas,
    monthly hourly * 730, split 70/20/5/5. *)
Theorem fetch_current_costs_fallback :
  forall (post : pricing_service) (w : Workload.t) (instance_type : option string)
         (cpu : Q) (mem : Z),
    _parse_cpu (ResourceSpec.cpu_request (Workload.current_resources w)) = Ret cpu ->
    _parse_memory (ResourceSpec.memory_request (Workload.current_resources w)) = Ret mem ->
    0 <= cpu -> (0 <= mem)%Z -> (0 <= Workload.replicas w)%Z ->
    (exists c : CostEstimate.t,
        fetch_current_costs post w instance_type = Ret c
        /\ CostEstimate.valid c
        /\ ((forall url request,
                pricing_fails (post url request) (inject_Z (Workload.replicas w))) ->
            CostEstimate.hourly c
            == (cpu * 0.04 + inject_Z mem / bytes_per_gb * 0.005)
               * inject_Z (Workload.replicas w)
            /\ CostEstimate.monthly c == CostEstimate.hourly c * 730
            /\ CostEstimate.daily c == CostEstimate.monthly c / 30
            /\ CostEstimate.yearly c == CostEstimate.monthly c * 12
            /\ CostBreakdown.compute (CostEstimate.breakdown c)
               == (70 # 100) * CostEstimate.monthly c
            /\ CostBreakdown.memory (CostEstimate.breakdown c)
               == (20 # 100) * CostEstimate.monthly c
            /\ CostBreakdown.storage (CostEstimate.breakdown c)
               == (5 # 100) * CostEstimate.monthly c
            /\ CostBreakdown.network (CostEstimate.breakdown c)
               == (5 # 100) * CostEstimate.monthly c
            /\ CostBreakdown.total (CostEstimate.breakdown c) == CostEstimate.monthly c))
    /\ (forall n : Q, pricing_fails Http.NoResponse n)
    /\ (forall (status : Z) (body : option json) (n : Q),
           (status < 200 \/ 300 <= status)%Z ->
           pricing_fails (Http.Response status body) n)
    /\ (forall (status : Z) (n : Q), pricing_fails (Http.Response status None) n)
    /\ (forall (status : Z) (payload : json) (n : Q) (e : exn),
           Json.subscript payload "breakdown" = Raise e ->
           pricing_fails (Http.Response status (Some payload)) n).
Proof.
  intros post w it cpu mem Hcpu Hmem Hc Hm Hr.
  assert (Hgb : 0 <= inject_Z mem / bytes_per_gb).
  { apply Qle_shift_div_l; [apply bytes_per_gb_pos|].
    rewrite Qmult_0_l. change 0 with (inject_Z 0). rewrite <- Zle_Qle. assumption. }
  assert (Hrq : 0 <= inject_Z (Workload.replicas w)).
  { change 0 with (inject_Z 0). rewrite <- Zle_Qle. assumption. }
  destruct (linear_estimate_ok cpu (inject_Z mem / bytes_per_gb)
              (inject_Z (Workload.replicas w)) Hc Hgb Hrq)
    as (fb & Hfb & Hval & Hform).
  assert (Hfall : _fallback_cost_estimate w = Ret fb).
  { unfold _fallback_cost_estimate. rewrite Hcpu, Hmem. exact Hfb. }
  repeat split.
  - unfold fetch_current_costs.
    assert (Hit : exists s,
               match it with
               | Some s =>
                   if String.eqb s ""
                   then _infer_instance_type w (lower (Workload.provider w))
                   else Ret s
               | None => _infer_instance_type w (lower (Workload.provider w))
               end = Ret s).
    { rewrite (infer_instance_type_ok w _ cpu mem Hcpu Hmem).
      destruct it as [s|]; [destruct (String.eqb s "")|]; eauto. }
    destruct Hit as (s & ->). rewrite Hcpu, Hmem. simpl.
    match goal with
    | |- context [try_except ?body _] => destruct body as [c | e] eqn:Hp
    end; simpl.
    + exists c. split; [reflexivity|]. split; [eapply priced_valid; eassumption|].
      intros Hfail.
      match type of Hp with
      | priced (post ?u ?r) _ = _ => destruct (Hfail u r) as (e & He)
      end.
      rewrite He in Hp. discriminate.
    + exists fb. split; [assumption|]. split; [assumption|]. intros _. exact Hform.
  - intros n. exists HTTPError. reflexivity.
  - intros status body n Hs. exists HTTPError. unfold priced. simpl.
    destruct ((200 <=? status)%Z && (status <? 300)%Z) eqn:E; [|reflexivity].
    apply andb_true_iff in E. lia.
  - intros status n. unfold pricing_fails, priced. simpl.
    destruct (_ && _); eauto.
  - intros status payload n e H. unfold pricing_fails, priced. simpl.
    destruct (_ && _); simpl; [|eauto].
    rewrite H. simpl. eauto.
Qed.

End Costs.

(** ** Recommender *)

Section Risk.
Local Open Scope Q_scope.
Import Recommender OptimizationType RiskLevel.

Lemma assess_risk_total (w : Workload.t) (t : OptimizationType.t)
    (m : option WorkloadMetrics.t) :
  exists ra : RiskAssessment.t,
    assess_risk w t m = Ret ra
    /\ RiskAssessment.level ra <> CRITICAL
    /\ 0.3 <= RiskAssessment.score ra <= 0.85
    /\ (t = SPOT_INSTANCES -> RiskAssessment.level ra = MEDIUM).
Proof.
  unfold assess_risk.
  destruct (String.eqb (Workload.kind w) "StatefulSet");
    destruct (Workload.replicas w =? 1)%Z;
    destruct t; destruct m as [m|];
    try destruct (Qltb 80 (WorkloadMetrics.cpu_utilization_pct m));
    (eexists; split; [vm_compute; reflexivity|]);
    (split; [discriminate|]);
    (split; [split; vm_compute; discriminate|]);
    intros E; try discriminate E; reflexivity.
Qed.

Lemma Recommendation_make_inv (r0 r : Recommendation.t) :
  Recommendation.make r0 = Ret r ->
  r = r0 /\ 0 <= Recommendation.monthly_savings r0
  /\ 0 <= Recommendation.confidence_score r0 <= 1.
Proof.
  unfold Recommendation.make. destruct (_ && _) eqn:E; [|discriminate].
  intros H. injection H as <-. split; [reflexivity|].
  repeat (apply andb_true_iff in E; destruct E as [E ?]). qprops. auto.
Qed.

Lemma RiskAssessment_make_inv l s f ms (ra : RiskAssessment.t) :
  RiskAssessment.make l s f ms = Ret ra -> ra = RiskAssessment.mk l s f ms.
Proof.
  unfold RiskAssessment.make. destruct (_ && _); [|discriminate].
  intros H. injection H as <-. reflexivity.
Qed.

Lemma right_sizing_emitted env w m cc r :
  _create_right_sizing_recommendation env w m cc = Ret (Some r) ->
  emitted cc r
  /\ Recommendation.optimization_type r = RIGHT_SIZE_CPU
  /\ Recommendation.monthly_savings r
     = CostEstimate.monthly cc - CostEstimate.monthly (Recommendation.optimized_cost r)
  /\ 0 < Recommendation.monthly_savings r.
Proof.
  unfold _create_right_sizing_recommendation.
  destruct (MLEngine.right_size_resources w m) as [nr conf].
  destruct (ResourceSpec.eqb _ _); [discriminate|].
  intros H. bind_inv H.
  destruct (Qleb _ 0) eqn:Es; [discriminate|].
  bind_inv H. bind_inv H. injection H as <-.
  apply Recommendation_make_inv in Ha1. destruct Ha1 as (-> & Hs & Hc).
  destruct (assess_risk_total w RIGHT_SIZE_CPU (Some m)) as (ra & Hra & Hl & Hsc & _).
  rewrite Hra in Ha0. injection Ha0 as <-.
  simpl in *. qprops.
  repeat split; simpl; try assumption; try reflexivity; try lra; apply Hc.
Qed.


Lemma replica_emitted env w m cc r :
  _create_replica_optimization_recommendation env w m cc = Ret (Some r) ->
  emitted cc r
  /\ (Recommendation.optimization_type r = REDUCE_REPLICAS
      \/ Recommendation.optimization_type r = INCREASE_REPLICAS)
  /\ Recommendation.monthly_savings r
     = CostEstimate.monthly cc - CostEstimate.monthly (Recommendation.optimized_cost r)
  /\ 0 < Recommendation.monthly_savings r.
Proof.
  unfold _create_replica_optimization_recommendation.
  intros H. bind_inv H. destruct a as [rr conf].
  destruct (rr =? Workload.replicas w)%Z; [discriminate|].
  bind_inv H.
  destruct (Qleb _ 0) eqn:Es; [discriminate|].
  bind_inv H. bind_inv H. injection H as <-.
  apply Recommendation_make_inv in Ha2. destruct Ha2 as (-> & Hs & Hc).
  match type of Ha1 with
  | assess_risk w ?t _ = _ =>
      destruct (assess_risk_total w t (Some m)) as (ra & Hra & Hl & Hsc & _)
  end.
  rewrite Hra in Ha1. injection Ha1 as <-.
  simpl in *. qprops.
  repeat split; simpl; try assumption; try reflexivity; try lra; try apply Hc.
  destruct (rr <? Workload.replicas w)%Z; auto.
Qed.

Lemma spot_summary_savings get w it s :
  CostCalculator.spot_vs_ondemand get w it = Ret s ->
  CostCalculator.monthly_savings s
  == CostCalculator.on_demand_monthly s - CostCalculator.spot_monthly s.
Proof.
  unfold CostCalculator.spot_vs_ondemand. intros H. bind_inv H.
  destruct (CostCalculator.spot_lookup _ _ _) as [[s'|]|e] eqn:El;
    injection H as <-; try reflexivity.
  unfold CostCalculator.spot_lookup in El.
  repeat (bind_inv El).
  destruct a2 as [|p ps]; [discriminate|].
  repeat (bind_inv El).
  injection El as <-. simpl. reflexivity.
Qed.

Lemma spot_emitted env w m cc r :
  _create_spot_instance_recommendation env w m cc = Ret (Some r) ->
  emitted cc r
  /\ Recommendation.optimization_type r = SPOT_INSTANCES
  /\ RiskAssessment.level (Recommendation.risk_assessment r) = MEDIUM
  /\ (exists s : CostCalculator.SpotSummary,
         CostCalculator.spot_vs_ondemand (get_spot_prices env) w None = Ret s
         /\ Recommendation.monthly_savings r = CostCalculator.monthly_savings s
         /\ CostEstimate.monthly (Recommendation.optimized_cost r)
            = CostCalculator.spot_monthly s)
  /\ 0 < Recommendation.monthly_savings r.
Proof.
  unfold _create_spot_instance_recommendation.
  destruct (MLEngine.recommend_spot_instances w m) as [[suit conf] reason].
  destruct suit; simpl; [|discriminate].
  intros H. bind_inv H. rename a into s.
  destruct (Qleb _ 0) eqn:Es; [discriminate|].
  repeat (bind_inv H). injection H as <-.
  match goal with
  | Hm : Recommendation.make _ = Ret _ |- _ =>
      apply Recommendation_make_inv in Hm; destruct Hm as (-> & Hs & Hc)
  end.
  simpl in *. qprops.
  repeat split; simpl; try assumption; try reflexivity; try lra; try apply Hc;
    try discriminate.
  exists s. auto.
Qed.

Lemma scheduled_emitted w m cc r :
  _create_scheduled_scaling_recommendation w m cc = Ret (Some r) ->
  emitted cc r
  /\ Recommendation.optimization_type r = SCHEDULED_SCALING
  /\ CostEstimate.monthly (Recommendation.optimized_cost r)
     = CostEstimate.monthly cc - Recommendation.monthly_savings r
  /\ 0 < Recommendation.monthly_savings r.
Proof.
  unfold _create_scheduled_scaling_recommendation.
  destruct (negb _); [discriminate|].
  destruct (Qleb _ 0) eqn:Es; [discriminate|].
  intros H. bind_inv H. bind_inv H. injection H as <-.
  apply Recommendation_make_inv in Ha0. destruct Ha0 as (-> & Hs & Hc).
  destruct (assess_risk_total w SCHEDULED_SCALING (Some m)) as (ra & Hra & Hl & Hsc & _).
  rewrite Hra in Ha. injection Ha as <-.
  simpl in *. qprops.
  repeat split; simpl; try assumption; try reflexivity; try lra; apply Hc.
Qed.

Lemma unused_emitted w m cc r :
  _create_unused_resource_recommendation w m cc = Ret (Some r) ->
  emitted cc r
  /\ Recommendation.optimization_type r = REMOVE_UNUSED
  /\ RiskAssessment.level (Recommendation.risk_assessment r) = LOW
  /\ Recommendation.monthly_savings r = CostEstimate.monthly cc
  /\ CostEstimate.monthly (Recommendation.optimized_cost r) = 0.
Proof.
  unfold _create_unused_resource_recommendation. simpl.
  intros H. repeat (bind_inv H). injection H as <-.
  match goal with
  | Hm : Recommendation.make _ = Ret _ |- _ =>
      apply Recommendation_make_inv in Hm; destruct Hm as (-> & Hs & Hc)
  end.
  simpl in *.
  repeat split; simpl; try assumption; try reflexivity; try apply Hc;
    try discriminate; lra.
Qed.

Lemma insert_by_savings_In (r x : Recommendation.t) (l : list Recommendation.t) :
  In x (insert_by_savings r l) <-> x = r \/ In x l.
Proof.
  induction l as [|y l IH]; simpl.
  - intuition.
  - destruct (Qltb _ _); simpl; [intuition|].
    rewrite IH. intuition.
Qed.

Lemma sort_by_savings_In (x : Recommendation.t) (l : list Recommendation.t) :
  In x (sort_by_savings l) <-> In x l.
Proof.
  unfold sort_by_savings.
  assert (G : forall acc, In x (fold_left (fun acc r => insert_by_savings r acc) l acc)
                          <-> In x acc \/ In x l).
  { induction l as [|y l IH]; intros acc; simpl.
    - intuition.
    - rewrite IH, insert_by_savings_In. intuition. }
  rewrite G. simpl. intuition.
Qed.

Lemma append_if_confident_In (x : Recommendation.t) l rec c :
  In x (append_if_confident l rec c) ->
  In x l \/ (rec = Some x /\ c <= Recommendation.confidence_score x).
Proof.
  unfold append_if_confident. destruct rec as [r|]; [|auto].
  destruct (Qleb c _) eqn:E; [|auto].
  rewrite in_app_iff. simpl. intros [H | [H | []]]; [auto|].
  subst. qprops. auto.
Qed.

(** Every item of the returned list was built by one of the five families
    from the current cost of the workload. *)
Lemma generate_recommendations_inv env w m c recs r :
  generate_recommendations env w m c = Ret recs ->
  In r recs ->
  exists cc : CostEstimate.t,
    CostCalculator.fetch_current_costs (post_current env) w None = Ret cc
    /\ c <= Recommendation.confidence_score r
    /\ (_create_unused_resource_recommendation w m cc = Ret (Some r)
        \/ _create_right_sizing_recommendation env w m cc = Ret (Some r)
        \/ _create_replica_optimization_recommendation env w m cc = Ret (Some r)
        \/ _create_spot_instance_recommendation env w m cc = Ret (Some r)
        \/ _create_scheduled_scaling_recommendation w m cc = Ret (Some r)).
Proof.
  unfold generate_recommendations. intros H Hin.
  bind_inv H. rename a into cc. exists cc. split; [assumption|].
  bind_inv H. rename a into l0.
  bind_inv H. bind_inv H. bind_inv H. bind_inv H.
  injection H as <-.
  apply (proj1 (sort_by_savings_In _ _)) in Hin.
  assert (H0 : In r l0 ->
               c <= Recommendation.confidence_score r
               /\ _create_unused_resource_recommendation w m cc = Ret (Some r)).
  { destruct (MLEngine.detect_unused_resources m 5).
    - bind_inv Ha0. injection Ha0 as <-. intros Hi.
      apply append_if_confident_In in Hi. destruct Hi as [[] | [-> Hc]]. auto.
    - injection Ha0 as <-. intros []. }
  repeat match goal with
    | Hi : In r (append_if_confident _ _ _) |- _ =>
        apply append_if_confident_In in Hi; destruct Hi as [Hi | [-> Hc]]
    end.
  - destruct (H0 Hin) as [Hc Hu]. auto.
  - auto.
  - auto 6.
  - auto 7.
  - auto 8.
Qed.

End Risk.

(** ** Recommender: savings and risk of the emitted recommendations *)

Section RecommenderClaims.
Local Open Scope Q_scope.
Import Recommender OptimizationType RiskLevel.

(** C1. Every recommendation returned by [generate_recommendations] has
    non-negative savings; outside the spot family the savings are the
    difference of the two monthly costs; in the spot family savings and
    optimized cost come from the spot price lookup; outside the
    unused-resource family the savings are positive. *)
Theorem generate_recommendations_savings :
  forall (env : collaborator) (w : Workload.t) (m : WorkloadMetrics.t) (c : Q)
         (recs : list Recommendation.t) (r : Recommendation.t),
    generate_recommendations env w m c = Ret recs ->
    In r recs ->
    0 <= Recommendation.monthly_savings r
    /\ (Recommendation.optimization_type r <> SPOT_INSTANCES ->
        Recommendation.monthly_savings r
        == CostEstimate.monthly (Recommendation.current_cost r)
           - CostEstimate.monthly (Recommendation.optimized_cost r))
    /\ (Recommendation.optimization_type r = SPOT_INSTANCES ->
        exists s : CostCalculator.SpotSummary,
          CostCalculator.spot_vs_ondemand (get_spot_prices env) w None = Ret s
          /\ Recommendation.monthly_savings r
             == CostCalculator.on_demand_monthly s - CostCalculator.spot_monthly s
          /\ CostEstimate.monthly (Recommendation.optimized_cost r)
             == CostCalculator.spot_monthly s)
    /\ (Recommendation.optimization_type r <> REMOVE_UNUSED ->
        0 < Recommendation.monthly_savings r).
Proof.
  intros env w m c recs r Hg Hin.
  destruct (generate_recommendations_inv env w m c recs r Hg Hin)
    as (cc & Hcc & Hconf & [H | [H | [H | [H | H]]]]).
  - apply unused_emitted in H. destruct H as ([Ec Hn _ _ _] & Ht & _ & Hs & Ho).
    split; [assumption|]. rewrite Ht, Ec, Hs, Ho.
    repeat split; intros; try congruence; try ring.
  - apply right_sizing_emitted in H. destruct H as ([Ec Hn _ _ _] & Ht & Hs & Hp).
    split; [assumption|]. rewrite Ht, Ec.
    repeat split; intros; try congruence; try assumption;
      rewrite Hs; reflexivity.
  - apply replica_emitted in H. destruct H as ([Ec Hn _ _ _] & Ht & Hs & Hp).
    split; [assumption|]. rewrite Ec.
    repeat split; intros; try assumption;
      try (rewrite Hs; reflexivity); destruct Ht; congruence.
  - apply spot_emitted in H.
    destruct H as ([Ec Hn _ _ _] & Ht & _ & (s & Hsp & Hs & Ho) & Hp).
    split; [assumption|]. rewrite Ht.
    repeat split; intros; try congruence; try assumption;
      exists s; (split; [assumption|]); rewrite Hs, Ho;
      (split; [|reflexivity]); eapply spot_summary_savings; eassumption.
  - apply scheduled_emitted in H. destruct H as ([Ec Hn _ _ _] & Ht & Ho & Hp).
    split; [assumption|]. rewrite Ht, Ec, Ho.
    repeat split; intros; try congruence; try assumption; try ring.
Qed.



Lemma generate_recommendations_savings_witness :
  exists (recs : list Recommendation.t) (r : Recommendation.t),
    generate_recommendations quoting_collaborator (example_workload "Deployment" 3)
      (example_metrics 50 40) default_min_confidence = Ret recs
    /\ In r recs
    /\ 0 < Recommendation.monthly_savings r.
Proof.
  eexists. eexists. split; [vm_compute; reflexivity|].
  split; [left; reflexivity|].
  eapply (generate_recommendations_savings quoting_collaborator
            (example_workload "Deployment" 3) (example_metrics 50 40)
            default_min_confidence).
  - vm_compute. reflexivity.
  - left. reflexivity.
  - simpl. discriminate.
Defined.

(** With both services answering, the spot recommendation carries the
    savings of the spot price list, not the difference of its two costs. *)
Lemma spot_savings_not_cost_difference :
  exists (recs : list Recommendation.t) (r : Recommendation.t),
    generate_recommendations quoting_collaborator (example_workload "Deployment" 3)
      (example_metrics 50 40) default_min_confidence = Ret recs
    /\ In r recs
    /\ ~ Recommendation.monthly_savings r
         == CostEstimate.monthly (Recommendation.current_cost r)
            - CostEstimate.monthly (Recommendation.optimized_cost r).
Proof.
  eexists. eexists. split; [vm_compute; reflexivity|].
  split; [left; reflexivity|].
  vm_compute. discriminate.
Qed.

(** The unused-resource family has no savings test: an idle workload that
    costs nothing is recommended for removal with savings 0. *)
Lemma unused_zero_savings_emitted :
  exists (recs : list Recommendation.t) (r : Recommendation.t),
    generate_recommendations offline_collaborator idle_workload idle_metrics
      default_min_confidence = Ret recs
    /\ In r recs
    /\ Recommendation.optimization_type r = REMOVE_UNUSED
    /\ Recommendation.monthly_savings r == 0.
Proof.
  eexists. eexists. split; [vm_compute; reflexivity|].
  split; [left; reflexivity|].
  split; [reflexivity | vm_compute; reflexivity].
Qed.


End RecommenderClaims.

Section CostClaims.
Local Open Scope Q_scope.
Import CostCalculator.

Lemma fetch_current_costs_fallback_witness :
  exists c : CostEstimate.t,
    fetch_current_costs pricing_down (example_workload "Deployment" 3) None = Ret c
    /\ CostEstimate.valid c
    /\ CostEstimate.monthly c == CostEstimate.hourly c * 730.
Proof.
  destruct (proj1 (fetch_current_costs_fallback pricing_down
                     (example_workload "Deployment" 3) None (500 / 1000)
                     (512 * 1024 * 1024)%Z
                     ltac:(vm_compute; reflexivity) ltac:(vm_compute; reflexivity)
                     ltac:(vm_compute; discriminate) ltac:(lia) ltac:(simpl; lia)))
    as (c & Hc & Hv & Hf).
  exists c. split; [assumption|]. split; [assumption|].
  apply Hf. intros url request. exists HTTPError. reflexivity.
Defined.

(** A memory request in tebibytes is not in the table of [_parse_memory]:
    the call raises before the collaborator is asked. *)
Lemma fetch_current_costs_raises :
  fetch_current_costs pricing_down tebibyte_workload None = Raise ValueError.
Proof. vm_compute. reflexivity. Qed.

End CostClaims.

(** ** SnapshotStore: rollback *)

Section Rollback.
Import K8s Handlers RollbackHandler.

Lemma set_if_lookup (k k' : string) (v : option json) (d : gmap string json) :
  set_if k v d !! k' = if decide (k = k') then from_option Some (d !! k') v else d !! k'.
Proof.
  unfold set_if. destruct v as [x|]; simpl.
  - rewrite lookup_insert. reflexivity.
  - case_decide; reflexivity.
Qed.

(** The loop body overwrites exactly the fields its source holds. *)
Lemma write_resources_view (source : string -> option json) (c : Container) :
  resource_view (write_resources source c)
  = (from_option Some (request_of c "cpu") (source "cpu_request"),
     from_option Some (request_of c "memory") (source "memory_request"),
     from_option Some (limit_of c "cpu") (source "cpu_limit"),
     from_option Some (limit_of c "memory") (source "memory_limit")).
Proof.
  unfold resource_view, request_of, limit_of, write_resources. simpl.
  rewrite !set_if_lookup.
  destruct (resources c) as [[rq lm]|]; simpl;
    [destruct rq as [rq|], lm as [lm|]|]; simpl;
    repeat case_decide; try congruence; try reflexivity;
    rewrite ?lookup_empty;
    destruct (source "cpu_request"), (source "memory_request"),
      (source "cpu_limit"), (source "memory_limit"); reflexivity.
Qed.

Lemma from_snapshot_from_option (s : gmap string json) (key : string) (held : option json) :
  from_option Some held (s !! key) = from_snapshot s key held.
Proof. unfold from_snapshot. destruct (s !! key); reflexivity. Qed.

Lemma rolled_back_views (st : RollbackState.t) (now : string) (o : Object) :
  map resource_view (containers (rolled_back st now o))
  = map (restored_view (RollbackState.resources st)) (containers o).
Proof.
  unfold rolled_back, stamp. simpl. rewrite map_map.
  apply map_ext. intros c. rewrite write_resources_view.
  rewrite !from_snapshot_from_option. reflexivity.
Qed.

Lemma rolled_back_replicas (st : RollbackState.t) (now : string) (o : Object) :
  replicas (rolled_back st now o) = RollbackState.replicas st.
Proof. reflexivity. Qed.

Lemma rolled_back_annotations (st : RollbackState.t) (now : string) (o : Object) :
  exists a : gmap string string,
    annotations (rolled_back st now o) = Some a
    /\ a !! rolled_back_at = Some now
    /\ a !! rolled_back_by = Some "cost-optimizer-operator".
Proof.
  unfold rolled_back, stamp. simpl. eexists. split; [reflexivity|].
  split.
  - rewrite lookup_insert_ne by (unfold rolled_back_at; discriminate).
    apply lookup_insert_eq.
  - apply lookup_insert_eq.
Qed.

(** After [store_original_state] the state is found again, in the cache
    or, without a cache, in the ConfigMap. *)
Lemma store_then_get (name kind ns : string) (o : Object) (now : string) (w : World.t) :
  exists st : RollbackState.t,
    _get_original_state name kind ns (snd (store_original_state name kind ns o now w))
    = Some st
    /\ RollbackState.replicas st = replicas o
    /\ RollbackState.resources st = _extract_resources o.
Proof.
  unfold store_original_state, _store_in_configmap, _get_original_state. simpl.
  eexists. split.
  - destruct (World.redis w) as [kv|]; simpl; rewrite lookup_insert_eq; reflexivity.
  - split; reflexivity.
Qed.

Lemma execute_rollback_ok (name kind ns now : string) (w : World.t)
    (st : RollbackState.t) (o : Object) :
  kind = "Deployment" \/ kind = "StatefulSet" ->
  _get_original_state name kind ns w = Some st ->
  _get_workload name kind ns w = Some o ->
  exists w' : World.t,
    execute_rollback name kind ns now w = (true, w')
    /\ _get_workload name kind ns w' = Some (rolled_back st now o).
Proof.
  intros Hk Hst Ho. unfold execute_rollback. rewrite Hst.
  destruct Hk as [-> | ->]; simpl in *.
  - unfold _rollback_deployment, World.read_namespaced_deployment,
      World.patch_namespaced_deployment.
    unfold _get_workload in Ho. simpl in Ho. rewrite Ho. simpl.
    eexists. split; [reflexivity|].
    unfold _get_workload. simpl. apply lookup_insert_eq.
  - unfold _rollback_statefulset, World.read_namespaced_stateful_set,
      World.patch_namespaced_stateful_set.
    unfold _get_workload in Ho. simpl in Ho. rewrite Ho. simpl.
    eexists. split; [reflexivity|].
    unfold _get_workload. simpl. apply lookup_insert_eq.
Qed.

Lemma lookup_nonempty (d : gmap string json) (k : string) (v : json) :
  d !! k = Some v -> nonempty d = true.
Proof.
  intros H. unfold nonempty. apply negb_true_iff, Nat.eqb_neq.
  intros E. apply map_size_empty_iff in E. subst d.
  rewrite lookup_empty in H. discriminate.
Qed.

(** The snapshot holds the four fields of a fully specified first
    container. *)
Lemma extract_fully_specified (o : Object) (c0 c : Container) :
  head (containers o) = Some c0 ->
  fully_specified c0 ->
  restored_view (_extract_resources o) c = resource_view c0.
Proof.
  intros Hh (Hrc & Hrm & Hlc & Hlm).
  unfold _extract_resources. destruct (containers o) as [|c0' cs]; [discriminate|].
  simpl in Hh. injection Hh as ->.
  unfold resource_view, restored_view, from_snapshot.
  unfold request_of, limit_of in *.
  destruct (resources c0) as [[rq lm]|]; simpl in *; [|destruct Hrc; discriminate].
  destruct rq as [rq|]; simpl in *; [|destruct Hrc; discriminate].
  destruct lm as [lm|]; simpl in *; [|destruct Hlc; discriminate].
  destruct Hrc as [a Ha], Hrm as [b Hb], Hlc as [x Hx], Hlm as [y Hy].
  rewrite (lookup_nonempty rq "cpu" a Ha), (lookup_nonempty lm "cpu" x Hx).
  rewrite Ha, Hb, Hx, Hy. simpl.
  rewrite !lookup_insert. repeat case_decide; try congruence; reflexivity.
Qed.

Lemma uniform_views (o : Object) (c0 : Container) :
  head (containers o) = Some c0 ->
  uniform o ->
  map resource_view (containers o)
  = repeat (resource_view c0) (length (containers o)).
Proof.
  intros Hh Hu. rewrite <- map_const. apply map_ext_in.
  intros c Hc. apply (Hu c0 c Hh Hc).
Qed.

(** C8. After [store_original_state] on a Deployment or StatefulSet and
    any mutation that leaves the stored state and the object in place,
    [execute_rollback] succeeds: the replica count is the stored one, every
    container has the stored fields of the first container and keeps its
    other fields, and the two rollback annotations are set; a workload whose
    containers all carried the four fields of the first one has them all
    back. *)
Theorem rollback_restores_snapshot :
  forall (name kind ns now now' : string) (w0 w2 : World.t) (o o' : Object),
    kind = "Deployment" \/ kind = "StatefulSet" ->
    _get_original_state name kind ns w2
    = _get_original_state name kind ns
        (snd (store_original_state name kind ns o now w0)) ->
    _get_workload name kind ns w2 = Some o' ->
    exists (w3 : World.t) (o3 : Object),
      execute_rollback name kind ns now' w2 = (true, w3)
      /\ _get_workload name kind ns w3 = Some o3
      /\ replicas o3 = replicas o
      /\ map resource_view (containers o3)
         = map (restored_view (_extract_resources o)) (containers o')
      /\ (exists a : gmap string string,
             annotations o3 = Some a
             /\ a !! rolled_back_at = Some now'
             /\ a !! rolled_back_by = Some "cost-optimizer-operator")
      /\ (uniform o ->
          length (containers o') = length (containers o) ->
          map resource_view (containers o3) = map resource_view (containers o)).
Proof.
  intros name kind ns now now' w0 w2 o o' Hk Hsnap Ho'.
  destruct (store_then_get name kind ns o now w0) as (st & Hst & Hr & Hres).
  rewrite Hst in Hsnap.
  destruct (execute_rollback_ok name kind ns now' w2 st o' Hk Hsnap Ho')
    as (w3 & Hex & Hget).
  exists w3, (rolled_back st now' o'). split; [assumption|]. split; [assumption|].
  split; [rewrite rolled_back_replicas; assumption|].
  assert (Hviews : map resource_view (containers (rolled_back st now' o'))
                   = map (restored_view (_extract_resources o)) (containers o')).
  { rewrite rolled_back_views, Hres. reflexivity. }
  split; [assumption|]. split; [apply rolled_back_annotations|].
  intros Hu Hlen. rewrite Hviews.
  destruct (head (containers o)) as [c0|] eqn:Hh.
  - rewrite (uniform_views o c0 Hh Hu), <- Hlen, <- map_const.
    apply map_ext. intros c. apply extract_fully_specified; [assumption|].
    apply (Hu c0 c0 Hh). destruct (containers o); [discriminate|].
    simpl in Hh. injection Hh as ->. left. reflexivity.
  - destruct (containers o); [|discriminate]. simpl in Hlen.
    destruct (containers o'); [reflexivity | discriminate].
Qed.

Lemma sized_deployment_uniform : uniform sized_deployment.
Proof.
  intros c0 c Hh Hin. simpl in Hh. injection Hh as <-.
  destruct Hin as [<- | []].
  split; [|reflexivity].
  repeat split; eexists; vm_compute; reflexivity.
Qed.

Lemma rollback_restores_snapshot_witness :
  exists (w3 : World.t) (o3 : Object),
    execute_rollback "web" "Deployment" "default" "t2"
      (snd (OptimizationHandler.apply_optimization "web" "Deployment" "default"
              shrink_recommendation false "t1" (world_with sized_deployment)))
    = (true, w3)
    /\ _get_workload "web" "Deployment" "default" w3 = Some o3
    /\ replicas o3 = 3%Z
    /\ map resource_view (containers o3) = map resource_view (containers sized_deployment).
Proof.
  destruct (rollback_restores_snapshot "web" "Deployment" "default" "t1" "t2"
              (world_with sized_deployment)
              (snd (OptimizationHandler.apply_optimization "web" "Deployment" "default"
                      shrink_recommendation false "t1" (world_with sized_deployment)))
              sized_deployment
              (default sized_deployment
                 (_get_workload "web" "Deployment" "default"
                    (snd (OptimizationHandler.apply_optimization "web" "Deployment"
                            "default" shrink_recommendation false "t1"
                            (world_with sized_deployment)))))
              ltac:(left; reflexivity)
              ltac:(vm_compute; reflexivity)
              ltac:(vm_compute; reflexivity))
    as (w3 & o3 & H1 & H2 & H3 & _ & _ & H6).
  exists w3, o3. split; [assumption|]. split; [assumption|]. split; [assumption|].
  apply H6; [apply sized_deployment_uniform | reflexivity].
Defined.

(** A container that declared no resources keeps, after the rollback, the
    requests and limits that the optimization wrote. *)
Lemma rollback_keeps_fields_outside_snapshot :
  let w0 := world_with bare_deployment in
  let w1 := snd (OptimizationHandler.apply_optimization "web" "Deployment" "default"
                   shrink_recommendation false "t1" w0) in
  let r := execute_rollback "web" "Deployment" "default" "t2" w1 in
  fst r = true
  /\ (map resource_view ∘ containers) <$> _get_workload "web" "Deployment" "default" w0
     = Some [ (None, None, None, None) ]
  /\ (map resource_view ∘ containers) <$> _get_workload "web" "Deployment" "default" (snd r)
     = Some [ (Some (JStr "250m"), Some (JStr "256Mi"),
               Some (JStr "500m"), Some (JStr "512Mi")) ].
Proof. repeat split; vm_compute; reflexivity. Qed.

End Rollback.

(** ** RolloutController: the gate of the periodic tick *)

Section Tick.
Import Operator OptimizationHandler.

(** Every member of [RiskLevel] is serialised in lower case, and the keys
    of [risk_levels] are in upper case: the lookup falls to its default. *)
Lemma serialised_level_lookup (l : RiskLevel.t) :
  risk_levels !! RiskLevel.value l = None.
Proof. destruct l; vm_compute; reflexivity. Qed.

Lemma risk_levels_get_bound (key : json) (n : Z) :
  key <> JStr "CRITICAL" ->
  risk_levels_get key 2 = Ret n -> (n <= 3)%Z.
Proof.
  intros Hk Hg.
  destruct key as [| b | q | s | l | d]; simpl in Hg;
    try (injection Hg as <-; lia); try discriminate.
  revert Hg. unfold risk_levels. rewrite !lookup_insert.
  repeat case_decide; subst; try congruence;
    rewrite ?lookup_empty; intros Hget; injection Hget as <-; lia.
Qed.

Lemma not_applied_world patch c r w : world (not_applied patch c r w) = w.
Proof. unfold not_applied. destruct (format_number_2 c); reflexivity. Qed.

Lemma Dict_get_set_ne (k k' : string) (v : json) (d : Dict.t) :
  k <> k' -> Dict.get k (Dict.set k' v d) = Dict.get k d.
Proof.
  intros Hk. induction d as [|[k0 v0] d IH]; cbn [Dict.get Dict.set].
  - destruct (String.eqb_spec k k'); [congruence | reflexivity].
  - destruct (String.eqb_spec k' k0); cbn [Dict.get].
    + subst k0. destruct (String.eqb_spec k k'); [congruence | reflexivity].
    + destruct (String.eqb k k0); [reflexivity | assumption].
Qed.

Lemma Dict_get_set_eq (k : string) (v : json) (d : Dict.t) :
  Dict.get k (Dict.set k v d) = Some v.
Proof.
  induction d as [|[k0 v0] d IH]; cbn [Dict.get Dict.set].
  - rewrite String.eqb_refl. reflexivity.
  - destruct (String.eqb_spec k k0); cbn [Dict.get].
    + rewrite String.eqb_refl. reflexivity.
    + destruct (String.eqb_spec k k0); [congruence | assumption].
Qed.

Lemma phase_set_over (k : string) (v : json) (patch : Dict.t) :
  k <> "phase" -> Dict.get "phase" (Dict.set k v patch) = Dict.get "phase" patch.
Proof. intros Hk. apply Dict_get_set_ne. congruence. Qed.

Lemma phase_set (v : json) (patch : Dict.t) :
  Dict.get "phase" (Dict.set "phase" v patch) = Some v.
Proof. apply Dict_get_set_eq. Qed.

Lemma failed_phase patch e w : phase_of (failed patch e w) = Some (JStr "Failed").
Proof.
  unfold phase_of, failed. simpl.
  rewrite phase_set_over by discriminate. apply phase_set.
Qed.

Lemma not_applied_phase patch c r w :
  phase_of (not_applied patch c r w) = Some (JStr "Ready")
  \/ phase_of (not_applied patch c r w) = Some (JStr "Failed").
Proof.
  unfold not_applied. destruct (format_number_2 c).
  - left. unfold phase_of. simpl.
    rewrite phase_set_over by discriminate. apply phase_set.
  - right. apply failed_phase.
Qed.

Lemma auto_apply_path_phase patch status wn wk wns recommendation savings text now w :
  let o := auto_apply_path patch status wn wk wns recommendation savings text now w in
  phase_of o = Some (JStr "Applied") \/ phase_of o = Some (JStr "Failed").
Proof.
  intros o. subst o. unfold auto_apply_path.
  destruct (call_apply wn wk wns recommendation now w) as [success w'].
  destruct success.
  - destruct (add _ savings) as [new_savings | e]; [|right; apply failed_phase].
    destruct (add _ (JNum 1)) as [applied | e]; [|right; apply failed_phase].
    left. unfold phase_of. cbn [patch_status].
    rewrite !phase_set_over by discriminate. apply phase_set.
  - right. unfold phase_of. cbn [patch_status].
    rewrite phase_set_over by discriminate. apply phase_set.
Qed.

(** With both levels spelled as keys of [risk_levels], a recommendation
    within the bounds of the declaration takes the apply path. *)
Lemma gate_takes_apply_path :
  forall (patch spec status : Dict.t) (wn wk wns recommendation ra savings : json)
         (text now level max_level : string) (n n' : Z) (c mc : Q) (w : World.t),
    Dict.get_default "autoApply" (JBool false) spec = JBool true ->
    Dict.get_default "dryRun" (JBool true) spec = JBool false ->
    Dict.get_default "minConfidence" (JNum 0.7) spec = JNum mc ->
    Dict.get_default "maxRiskLevel" (JStr "MEDIUM") spec = JStr max_level ->
    get_of recommendation "risk_assessment" (JObj []) = Ret ra ->
    get_of ra "level" (JStr "HIGH") = Ret (JStr level) ->
    get_of recommendation "confidence_score" (JNum 0) = Ret (JNum c) ->
    risk_levels !! level = Some n ->
    risk_levels !! max_level = Some n' ->
    (n <= n')%Z ->
    (mc <= c)%Q ->
    gate patch spec status wn wk wns recommendation savings text now w
    = auto_apply_path patch status wn wk wns recommendation savings text now w.
Proof.
  intros patch spec status wn wk wns recommendation ra savings text now level
    max_level n n' c mc w Ha Hd Hm Hmax Hra Hl Hc Hn Hn' Hle Hconf.
  unfold gate. rewrite Ha, Hd, Hm, Hmax, Hra. cbn [mbind res_bind].
  rewrite Hl. cbn [mbind res_bind]. rewrite Hc. cbn [mbind res_bind].
  unfold risk_levels_get. rewrite Hn, Hn'. cbn [mbind res_bind mret res_ret].
  cbn [Json.truthy negb andb].
  unfold ge. cbn [Json.number mbind res_bind].
  rewrite (proj2 (Qleb_true mc c) Hconf).
  rewrite (proj2 (Z.leb_le n n') Hle). reflexivity.
Qed.

(** A recommendation of the Recommender, as the API sends it, never
    passes the gate of a declaration whose bound is not CRITICAL: its level
    is looked up as 4. *)
Lemma serialised_recommendation_never_applied :
  forall (spec status : Dict.t) (ns now : string) (r : Recommendation.t) (w : World.t),
    Dict.get_default "maxRiskLevel" (JStr "MEDIUM") spec <> JStr "CRITICAL" ->
    let o := periodic_optimization_check spec status ns
               (Some (Wire.recommendation_json r)) now w in
    world o = w
    /\ (phase_of o = Some (JStr "Ready") \/ phase_of o = Some (JStr "Failed")).
Proof.
  intros spec status ns now r w Hmax o. subst o.
  unfold periodic_optimization_check.
  match goal with
  | |- context [match ?b with Ret _ => _ | Raise _ => _ end] =>
      destruct b as [[[wn wk] wns] | e]
  end; [|split; [reflexivity | right; apply failed_phase]].
  change (Json.truthy (Wire.recommendation_json r)) with true. cbv iota. simpl negb.
  cbv iota.
  change (get_of (Wire.recommendation_json r) "monthly_savings" (JNum 0))
    with (Ret (A:=json) (JNum (Recommendation.monthly_savings r))).
  change (current_recommendation (Wire.recommendation_json r))
    with (Ret (A:=Dict.t)
            [ ("optimizationType",
               JStr (OptimizationType.value (Recommendation.optimization_type r)));
              ("currentCost",
               JNum (CostEstimate.monthly (Recommendation.current_cost r)));
              ("optimizedCost",
               JNum (CostEstimate.monthly (Recommendation.optimized_cost r)));
              ("monthlySavings", JNum (Recommendation.monthly_savings r));
              ("confidenceScore", JNum (Recommendation.confidence_score r));
              ("riskLevel",
               JStr (RiskLevel.value
                       (RiskAssessment.level (Recommendation.risk_assessment r))));
              ("changes", JObj (Recommendation.recommended_config r)) ]).
  simpl mbind. unfold gate.
  change (get_of (Wire.recommendation_json r) "risk_assessment" (JObj []))
    with (Ret (A:=json) (Wire.risk_json (Recommendation.risk_assessment r))).
  change (get_of (Wire.recommendation_json r) "confidence_score" (JNum 0))
    with (Ret (A:=json) (JNum (Recommendation.confidence_score r))).
  simpl mbind.
  change (get_of (Wire.risk_json (Recommendation.risk_assessment r)) "level" (JStr "HIGH"))
    with (Ret (A:=json)
            (JStr (RiskLevel.value
                     (RiskAssessment.level (Recommendation.risk_assessment r))))).
  simpl mbind.
  destruct (risk_levels_get (Dict.get_default "maxRiskLevel" (JStr "MEDIUM") spec) 2)
    as [n | e] eqn:En; [|split; [reflexivity | right; apply failed_phase]].
  apply risk_levels_get_bound in En; [|assumption].
  simpl mbind. rewrite serialised_level_lookup. cbv beta iota.
  destruct (Json.truthy _ && negb _).
  - destruct (ge _ _) as [confident | e];
      [|split; [reflexivity | right; apply failed_phase]].
    replace (4 <=? n)%Z with false by (symmetry; apply Z.leb_gt; lia).
    rewrite andb_false_r.
    split; [apply not_applied_world | apply not_applied_phase].
  - split; [reflexivity|]. left. reflexivity.
Qed.

(** C2. A tick of a declaration with autoApply, no dryRun, minConfidence
    0.7 and maxRiskLevel MEDIUM that receives the low-risk recommendation of
    the optimizer API (confidence 1, level [low] as serialised) leaves the
    phase Ready with the not-applied message and does not touch the
    cluster. *)
Theorem periodic_check_leaves_low_risk_ready :
  let o := periodic_optimization_check (auto_apply_spec "MEDIUM") [] "default"
             (Some low_risk_payload) "2024-01-01T00:00:00"
             (world_with sized_deployment) in
  get_of low_risk_payload "confidence_score" JNull = Ret (JNum 1)
  /\ (get_of low_risk_payload "risk_assessment" JNull ≫= fun ra => get_of ra "level" JNull)
     = Ret (JStr (RiskLevel.value RiskLevel.LOW))
  /\ phase_of o = Some (JStr "Ready")
  /\ Dict.get "message" (patch_status o)
     = Some (JStr "Optimization found but not applied: confidence=1.00, risk=low")
  /\ world o = world_with sized_deployment.
Proof. repeat split; vm_compute; reflexivity. Qed.

(** The same payload with the level in upper case takes the apply path. *)
Lemma periodic_check_applies_upper_case_level :
  let o := periodic_optimization_check (auto_apply_spec "MEDIUM") [] "default"
             (Some (with_level "LOW" low_risk_payload)) "2024-01-01T00:00:00"
             (world_with sized_deployment) in
  phase_of o = Some (JStr "Applied")
  /\ Dict.get "appliedOptimizations" (patch_status o) = Some (JNum 1)
  /\ K8s.replicas <$> Handlers._get_workload "web" "Deployment" "default" (world o)
     = Some 2%Z
  /\ is_Some (RollbackHandler._get_original_state "web" "Deployment" "default" (world o)).
Proof. repeat split; try (vm_compute; reflexivity). eexists. vm_compute. reflexivity. Qed.

(** The payload as sent, level in lower case, is applied when the
    declaration allows CRITICAL and held back when it allows HIGH: the
    default of the lookup is the rank of CRITICAL. *)
Lemma periodic_check_applies_under_critical_bound :
  let o := periodic_optimization_check (auto_apply_spec "CRITICAL") [] "default"
             (Some low_risk_payload) "2024-01-01T00:00:00"
             (world_with sized_deployment) in
  let o' := periodic_optimization_check (auto_apply_spec "HIGH") [] "default"
              (Some low_risk_payload) "2024-01-01T00:00:00"
              (world_with sized_deployment) in
  phase_of o = Some (JStr "Applied")
  /\ K8s.replicas <$> Handlers._get_workload "web" "Deployment" "default" (world o)
     = Some 2%Z
  /\ phase_of o' = Some (JStr "Ready")
  /\ world o' = world_with sized_deployment.
Proof. repeat split; vm_compute; reflexivity. Qed.

End Tick.

(** ** Strings: suffixes and decimal numerals *)

Section StringFacts.

Lemma substring_all (s : string) : substring 0 (String.length s) s = s.
Proof. induction s as [|c s IH]; simpl; [reflexivity | rewrite IH; reflexivity]. Qed.

Lemma substring_app_l (a b : string) :
  substring 0 (String.length a) (a +:+ b) = a.
Proof.
  induction a as [|c a IH]; simpl.
  - destruct b; reflexivity.
  - rewrite IH. reflexivity.
Qed.

Lemma substring_app_r (a b : string) :
  substring (String.length a) (String.length b) (a +:+ b) = b.
Proof.
  induction a as [|c a IH]; simpl; [apply substring_all | exact IH].
Qed.

Lemma string_length_app (a b : string) :
  String.length (a +:+ b) = (String.length a + String.length b)%nat.
Proof. induction a as [|c a IH]; simpl; [reflexivity | rewrite IH; reflexivity]. Qed.

Lemma substring_split (m : nat) (s : string) :
  (m <= String.length s)%nat ->
  s = substring 0 m s +:+ substring m (String.length s - m) s.
Proof.
  revert m. induction s as [|c s IH]; intros [|m] Hm; simpl in *.
  - reflexivity.
  - lia.
  - rewrite substring_all. reflexivity.
  - change (String c s = String c (substring 0 m s +:+ substring m (String.length s - m) s)).
    f_equal. apply IH. lia.
Qed.

(** [s.endswith(suffix)] holds exactly when [s] is some text followed by
    [suffix], and [s[:-len(suffix)]] is then that text. *)
Lemma endswith_app (a suffix : string) : endswith (a +:+ suffix) suffix = true.
Proof.
  unfold endswith. rewrite string_length_app.
  replace (String.length a + String.length suffix - String.length suffix)%nat
    with (String.length a) by lia.
  rewrite substring_app_r, String.eqb_refl.
  rewrite andb_true_r. apply Nat.leb_le. lia.
Qed.

Lemma endswith_inv (s suffix : string) :
  endswith s suffix = true -> exists a : string, s = a +:+ suffix.
Proof.
  unfold endswith. intros H. apply andb_true_iff in H. destruct H as [Hl He].
  apply Nat.leb_le in Hl. apply String.eqb_eq in He.
  remember (String.length suffix) as k eqn:Ek.
  exists (substring 0 (String.length s - k) s).
  rewrite <- He.
  pose proof (substring_split (String.length s - k) s ltac:(lia)) as Hs.
  replace (String.length s - (String.length s - k))%nat with k in Hs by lia.
  exact Hs.
Qed.

Lemma drop_last_app (a suffix : string) :
  drop_last (String.length suffix) (a +:+ suffix) = a.
Proof.
  unfold drop_last. rewrite string_length_app.
  replace (String.length a + String.length suffix - String.length suffix)%nat
    with (String.length a) by lia.
  apply substring_app_l.
Qed.

Lemma last_char_app (a : string) (c : ascii) :
  last_char (a +:+ String c EmptyString) = Some c.
Proof.
  induction a as [|c' a IH]; simpl; [reflexivity|].
  rewrite IH. destruct (a +:+ String c ""); [discriminate | reflexivity].
Qed.

Lemma last_char_app2 (a b : string) :
  b <> EmptyString -> last_char (a +:+ b) = last_char b.
Proof.
  intros Hb. induction a as [|c a IH]; simpl; [reflexivity|].
  rewrite IH. destruct (a +:+ b) eqn:E; [|reflexivity].
  destruct a; [exfalso; exact (Hb E) | discriminate].
Qed.

Lemma app_assoc' (a b c : string) : (a +:+ b) +:+ c = a +:+ (b +:+ c).
Proof.
  induction a as [|x a IH]; [reflexivity|].
  change (String x ((a +:+ b) +:+ c) = String x (a +:+ (b +:+ c))).
  f_equal. exact IH.
Qed.

Lemma endswith_last (s suffix : string) (c : ascii) :
  endswith s suffix = true ->
  last_char suffix = Some c -> last_char s = Some c.
Proof.
  intros H Hc. apply endswith_inv in H. destruct H as (a & ->).
  rewrite last_char_app2; [assumption|]. intros ->. discriminate.
Qed.

Lemma digits_acc_all s acc n : digits_acc s acc = Some n -> all_digits s = true.
Proof.
  revert acc. induction s as [|c s IH]; intros acc H; simpl in *; [reflexivity|].
  unfold is_digit. destruct (digit_of c); [|discriminate]. simpl. eauto.
Qed.

Lemma all_digits_last s c : all_digits s = true -> last_char s = Some c -> is_digit c = true.
Proof.
  induction s as [|c' s IH]; simpl; [discriminate|].
  intros H. apply andb_true_iff in H. destruct H as [Hc Hs].
  destruct s; [intros [= <-]; assumption | auto].
Qed.

Lemma all_digits_app a b : all_digits (a +:+ b) = all_digits a && all_digits b.
Proof.
  induction a as [|c a IH]; simpl; [reflexivity|]. rewrite IH, andb_assoc. reflexivity.
Qed.

Lemma pretty_N_char_digit (x : N) :
  (x < 10)%N -> digit_of (pretty_N_char x) = Some x.
Proof.
  intros H.
  assert (x = 0 \/ x = 1 \/ x = 2 \/ x = 3 \/ x = 4 \/ x = 5 \/ x = 6 \/ x = 7
          \/ x = 8 \/ x = 9)%N as Hx by lia.
  repeat (destruct Hx as [-> | Hx]; [reflexivity|]). subst. reflexivity.
Qed.

Lemma digits_acc_pretty_go (x : N) :
  forall s : string, digits_acc (pretty_N_go x s) 0 = digits_acc s x.
Proof.
  induction (N.lt_wf_0 x) as [x _ IH]. intros s.
  destruct (N.eq_dec x 0%N) as [-> | Hx].
  - rewrite pretty_N_go_0. reflexivity.
  - rewrite pretty_N_go_step by lia.
    rewrite IH by (apply N.div_lt; lia).
    cbn [digits_acc]. rewrite pretty_N_char_digit by (apply N.mod_lt; lia).
    f_equal. pose proof (N.div_mod x 10 ltac:(lia)). lia.
Qed.

Lemma digits_pretty_N (n : N) : digits (pretty n) = Some n.
Proof.
  unfold pretty, pretty_N. destruct (decide (n = 0%N)) as [-> | Hn]; [reflexivity|].
  pose proof (digits_acc_pretty_go n "") as H. cbn [digits_acc] in H.
  unfold digits. destruct (pretty_N_go n "") eqn:E; [|exact H].
  cbn [digits_acc] in H. congruence.
Qed.

Lemma str_of_int_nonneg (k : Z) : (0 <= k)%Z -> str_of_int k = pretty (Z.to_N k).
Proof. intros Hk. destruct k as [|p|p]; [reflexivity | reflexivity | lia]. Qed.

Lemma digits_all (s : string) (n : N) : digits s = Some n -> all_digits s = true /\ s <> "".
Proof.
  unfold digits. destruct s as [|c s]; [discriminate|]. intros H.
  split; [eapply digits_acc_all; eassumption | discriminate].
Qed.

Lemma digits_str_of_int (k : Z) :
  (0 <= k)%Z -> digits (str_of_int k) = Some (Z.to_N k).
Proof. intros Hk. rewrite str_of_int_nonneg by assumption. apply digits_pretty_N. Qed.

(** A character test that no digit passes finds nothing in a numeral. *)
Lemma split_at_none (p : ascii -> bool) (s : string) :
  (forall c : ascii, is_digit c = true -> p c = false) ->
  all_digits s = true -> split_at p s = (s, None).
Proof.
  intros Hp. induction s as [|c s IH]; simpl; [reflexivity|].
  intros H. apply andb_true_iff in H. destruct H as [Hc Hs].
  rewrite (Hp c Hc), (IH Hs). reflexivity.
Qed.

Lemma split_at_app (p : ascii -> bool) (a b : string) (x : ascii) :
  (forall c : ascii, is_digit c = true -> p c = false) ->
  all_digits a = true -> p x = true ->
  split_at p (a +:+ String x b) = (a, Some b).
Proof.
  intros Hp Ha Hx. induction a as [|c a IH].
  - change (split_at p (String x b) = (EmptyString, Some b)).
    cbn [split_at]. rewrite Hx. reflexivity.
  - simpl in Ha. apply andb_true_iff in Ha. destruct Ha as [Hc Ha].
    change (split_at p (String c (a +:+ String x b)) = (String c a, Some b)).
    cbn [split_at]. rewrite (Hp c Hc), (IH Ha). reflexivity.
Qed.

Lemma digit_not_dot (c : ascii) : is_digit c = true -> is_dot c = false.
Proof.
  unfold is_digit, digit_of, is_dot. intros H.
  destruct (Ascii.eqb_spec c "."); [subst; discriminate | reflexivity].
Qed.

Lemma digit_not_exp (c : ascii) : is_digit c = true -> is_exp c = false.
Proof.
  unfold is_digit, digit_of, is_exp. intros H.
  destruct (Ascii.eqb_spec c "e"); [subst; discriminate|].
  destruct (Ascii.eqb_spec c "E"); [subst; discriminate | reflexivity].
Qed.

Lemma split_sign_digits (s : string) :
  all_digits s = true -> split_sign s = (false, s).
Proof.
  destruct s as [|c s]; [reflexivity|]. simpl. intros H.
  apply andb_true_iff in H. destruct H as [Hc _].
  unfold split_sign.
  destruct (Ascii.eqb_spec c "-"); [subst; discriminate|].
  destruct (Ascii.eqb_spec c "+"); [subst; discriminate|].
  destruct c as [[] [] [] [] [] [] [] []]; try reflexivity; congruence.
Qed.

(** [float()] reads a numeral back. *)
Lemma float_of_string_digits (s : string) (n : N) :
  digits s = Some n -> float_of_string s = Ret (inject_Z (Z.of_N n)).
Proof.
  intros H. destruct (digits_all s n H) as [Ha Hne].
  unfold float_of_string. rewrite (split_sign_digits s Ha).
  rewrite (split_at_none is_exp s digit_not_exp Ha).
  unfold mantissa. rewrite (split_at_none is_dot s digit_not_dot Ha), H.
  reflexivity.
Qed.

Lemma float_of_string_str_of_int (k : Z) :
  (0 <= k)%Z -> float_of_string (str_of_int k) = Ret (inject_Z k).
Proof.
  intros Hk. rewrite (float_of_string_digits _ _ (digits_str_of_int k Hk)).
  rewrite Z2N.id by assumption. reflexivity.
Qed.

Lemma int_of_float_inject (x : Q) (z : Z) : x == inject_Z z -> int_of_float x = z.
Proof.
  intros H. unfold int_of_float.
  destruct (Qleb 0 x).
  - rewrite H. apply Qfloor_Z.
  - rewrite H. apply Qceiling_Z.
Qed.

End StringFacts.

(** ** Resource strings: what the engine writes, the cost model reads *)

Section ResourceStrings.
Local Open Scope Q_scope.
Import MLEngine.

Lemma app_inj_suffix (a b x y : string) :
  String.length x = String.length y -> a +:+ x = b +:+ y -> x = y.
Proof.
  intros Hl He.
  assert (Hab : String.length a = String.length b).
  { apply (f_equal String.length) in He. rewrite !string_length_app in He. lia. }
  rewrite <- (substring_app_r a x), <- (substring_app_r b y).
  rewrite He, Hab, Hl. reflexivity.
Qed.

Lemma endswith_other (a x y : string) :
  String.length x = String.length y -> x <> y -> endswith (a +:+ x) y = false.
Proof.
  intros Hl Hne. destruct (endswith (a +:+ x) y) eqn:E; [|reflexivity].
  apply endswith_inv in E. destruct E as (b & E).
  apply app_inj_suffix in E; [contradiction | assumption].
Qed.

Lemma last_char_some (s : string) : s <> "" -> exists c, last_char s = Some c.
Proof.
  induction s as [|c s IH]; [congruence|]. intros _.
  destruct s as [|c' s]; [exists c; reflexivity|].
  destruct IH as (d & Hd); [discriminate|]. exists d. exact Hd.
Qed.

Lemma endswith_not_last (s : string) (c d : ascii) :
  last_char s = Some d -> c <> d -> endswith s (String c "") = false.
Proof.
  intros Hd Hne. destruct (endswith s (String c "")) eqn:E; [|reflexivity].
  rewrite (endswith_last s (String c "") c E eq_refl) in Hd. congruence.
Qed.

Lemma numeral_last_digit (s : string) :
  all_digits s = true -> s <> "" ->
  exists d, last_char s = Some d /\ is_digit d = true.
Proof.
  intros Ha Hne. destruct (last_char_some s Hne) as (d & Hd).
  exists d. split; [assumption | eapply all_digits_last; eassumption].
Qed.

(** A string [int()] accepts ends with a digit, so with no letter. *)
Lemma int_of_string_no_suffix (s : string) (v : Z) (c : ascii) :
  int_of_string s = Ret v -> is_digit c = false ->
  endswith s (String c "") = false.
Proof.
  unfold int_of_string. intros H Hc.
  destruct (split_sign s) as [neg body] eqn:Es.
  destruct (digits body) as [n|] eqn:Ed; [|discriminate].
  destruct (digits_all body n Ed) as [Ha Hne].
  destruct (numeral_last_digit body Ha Hne) as (d & Hd & Hdig).
  assert (Hl : last_char s = Some d).
  { unfold split_sign in Es.
    destruct s as [|x s']; [injection Es as _ <-; congruence|].
    assert (Hb : body = s' \/ body = String x s').
    { destruct x as [[] [] [] [] [] [] [] []]; injection Es as _ <-; auto. }
    destruct Hb as [-> | ->]; [|assumption].
    simpl. destruct s'; [congruence | assumption]. }
  apply (endswith_not_last s c d Hl). intros ->. congruence.
Qed.

(** X1. Whenever the engine's [_parse_memory] reads a string, the cost
    model's [_parse_memory] reads the same number of bytes from it. *)
Theorem parse_memory_engine_agrees :
  forall (s : string) (v : Z),
    MLEngine2._parse_memory s = Ret v ->
    CostCalculator._parse_memory s = Ret v.
Proof.
  intros s v. unfold MLEngine2._parse_memory, CostCalculator._parse_memory.
  cbn [CostCalculator._parse_memory_loop MLEngine2.multipliers
       CostCalculator.multipliers].
  destruct (endswith s "Ki"); [auto|].
  destruct (endswith s "Mi"); [auto|].
  destruct (endswith s "Gi"); [auto|].
  intros H.
  rewrite (int_of_string_no_suffix s v "K" H eq_refl).
  rewrite (int_of_string_no_suffix s v "M" H eq_refl).
  rewrite (int_of_string_no_suffix s v "G" H eq_refl).
  exact H.
Qed.

Lemma parse_memory_engine_agrees_witness :
  CostCalculator._parse_memory "512Mi" = Ret (512 * 1024 * 1024)%Z.
Proof. apply parse_memory_engine_agrees. vm_compute. reflexivity. Defined.

(** The cost model reads the decimal suffixes, the engine does not. *)
Lemma parse_memory_decimal_suffix :
  CostCalculator._parse_memory "1G" = Ret 1000000000%Z
  /\ MLEngine2._parse_memory "1G" = Raise ValueError.
Proof. split; vm_compute; reflexivity. Qed.

Lemma parse_suffixed (k m : Z) (suffix : string) (table : list (string * Z)) :
  (0 <= k)%Z ->
  CostCalculator._parse_memory_loop ((suffix, m) :: table) (str_of_int k +:+ suffix)
  = Ret (k * m)%Z.
Proof.
  intros Hk. cbn [CostCalculator._parse_memory_loop].
  rewrite endswith_app, drop_last_app, (float_of_string_str_of_int k Hk).
  cbn [mbind Py.res_bind]. f_equal. apply int_of_float_inject.
  rewrite inject_Z_mult. reflexivity.
Qed.

Lemma parse_skips (s x y : string) (m : Z) (table : list (string * Z)) :
  String.length x = String.length y -> x <> y ->
  CostCalculator._parse_memory_loop ((y, m) :: table) (s +:+ x)
  = CostCalculator._parse_memory_loop table (s +:+ x).
Proof.
  intros Hl Hne. cbn [CostCalculator._parse_memory_loop].
  rewrite (endswith_other s x y Hl Hne). reflexivity.
Qed.

Lemma format_memory_parse_eq (n : Z) :
  (0 <= n)%Z ->
  CostCalculator._parse_memory (_format_memory n)
  = Ret (n / memory_unit n * memory_unit n)%Z
  /\ MLEngine2._parse_memory (_format_memory n)
     = Ret (n / memory_unit n * memory_unit n)%Z.
Proof.
  intros Hn.
  unfold CostCalculator._parse_memory, MLEngine2._parse_memory,
    CostCalculator.multipliers, MLEngine2.multipliers, _format_memory, memory_unit in *.
  destruct (n <? 1024 * 1024)%Z.
  - rewrite !parse_suffixed by (apply Z.div_pos; lia). auto.
  - destruct (n <? 1024 * 1024 * 1024)%Z.
    + rewrite !(parse_skips _ "Mi" "Ki") by (reflexivity || discriminate).
      rewrite !parse_suffixed by (apply Z.div_pos; lia). auto.
    + rewrite !(parse_skips _ "Gi" "Ki") by (reflexivity || discriminate).
      rewrite !(parse_skips _ "Gi" "Mi") by (reflexivity || discriminate).
      rewrite !parse_suffixed by (apply Z.div_pos; lia). auto.
Qed.

Lemma memory_unit_pos (n : Z) : (0 < memory_unit n)%Z.
Proof. unfold memory_unit. repeat case_if; lia. Qed.

(** X2. A byte count written by [_format_memory] is read back by both
    parsers as the count rounded down to the unit it was written in: less
    than one unit is lost. *)
Theorem format_memory_parse :
  forall n : Z,
    (0 <= n)%Z ->
    let v := (n / memory_unit n * memory_unit n)%Z in
    CostCalculator._parse_memory (_format_memory n) = Ret v
    /\ MLEngine2._parse_memory (_format_memory n) = Ret v
    /\ (v <= n < v + memory_unit n)%Z.
Proof.
  intros n Hn v. subst v.
  destruct (format_memory_parse_eq n Hn) as [H1 H2].
  split; [assumption|]. split; [assumption|].
  pose proof (memory_unit_pos n) as Hu.
  pose proof (Z.div_mod n (memory_unit n) ltac:(lia)).
  pose proof (Z.mod_pos_bound n (memory_unit n) Hu). lia.
Qed.

Lemma format_memory_parse_witness :
  CostCalculator._parse_memory (_format_memory 1610612736)
  = Ret (1610612736 / memory_unit 1610612736 * memory_unit 1610612736)%Z.
Proof. apply (format_memory_parse 1610612736). lia. Defined.

End ResourceStrings.

Section CpuStrings.
Local Open Scope Q_scope.
Import MLEngine.

Lemma avoids_digits (p : ascii -> bool) (s : string) :
  (forall c : ascii, is_digit c = true -> p c = false) ->
  all_digits s = true -> avoids p s = true.
Proof.
  intros Hp. induction s as [|c s IH]; simpl; [reflexivity|].
  intros H. apply andb_true_iff in H. destruct H as [Hc Hs].
  rewrite (Hp c Hc), (IH Hs). reflexivity.
Qed.

Lemma avoids_app (p : ascii -> bool) (a b : string) :
  avoids p (a +:+ b) = avoids p a && avoids p b.
Proof.
  induction a as [|c a IH]; [reflexivity|].
  change (avoids p (String c (a +:+ b)) = avoids p (String c a) && avoids p b).
  cbn [avoids]. rewrite IH, andb_assoc. reflexivity.
Qed.

Lemma split_at_avoids (p : ascii -> bool) (s : string) :
  avoids p s = true -> split_at p s = (s, None).
Proof.
  induction s as [|c s IH]; simpl; [reflexivity|].
  intros H. apply andb_true_iff in H. destruct H as [Hc Hs].
  apply negb_true_iff in Hc. rewrite Hc, (IH Hs). reflexivity.
Qed.

Lemma split_sign_numeral (a b : string) :
  all_digits a = true -> a <> "" -> split_sign (a +:+ b) = (false, a +:+ b).
Proof.
  intros Ha Hne. destruct a as [|c a]; [congruence|].
  simpl in Ha. apply andb_true_iff in Ha. destruct Ha as [Hc _].
  change (split_sign (String c (a +:+ b)) = (false, String c (a +:+ b))).
  unfold split_sign.
  destruct (Ascii.eqb_spec c "-"); [subst; discriminate|].
  destruct (Ascii.eqb_spec c "+"); [subst; discriminate|].
  destruct c as [[] [] [] [] [] [] [] []]; try reflexivity; congruence.
Qed.

(** [float()] on an integer part, a point and a fraction. *)
Lemma float_of_string_point (ip fp : string) (i f : N) :
  digits ip = Some i -> digits fp = Some f ->
  float_of_string (ip +:+ String "." fp)
  = Ret (inject_Z (Z.of_N i)
         + inject_Z (Z.of_N f) / inject_Z (10 ^ Z.of_nat (String.length fp))).
Proof.
  intros Hi Hf.
  destruct (digits_all ip i Hi) as [Hai Hni].
  destruct (digits_all fp f Hf) as [Haf Hnf].
  unfold float_of_string. rewrite (split_sign_numeral ip _ Hai Hni).
  rewrite split_at_avoids.
  2:{ rewrite avoids_app, (avoids_digits is_exp ip digit_not_exp Hai).
      cbn [avoids andb]. rewrite (avoids_digits is_exp fp digit_not_exp Haf).
      reflexivity. }
  unfold mantissa.
  rewrite (split_at_app is_dot ip fp "." digit_not_dot Hai eq_refl).
  rewrite Hi, Hf.
  destruct ip as [|ci ip']; [congruence|]. destruct fp as [|cf fp']; [congruence|].
  reflexivity.
Qed.

Lemma one_digit (m : Z) : (0 <= m < 10)%Z -> String.length (str_of_int m) = 1%nat.
Proof.
  intros H.
  assert (m = 0 \/ m = 1 \/ m = 2 \/ m = 3 \/ m = 4 \/ m = 5 \/ m = 6 \/ m = 7
          \/ m = 8 \/ m = 9)%Z as Hm by lia.
  repeat (destruct Hm as [-> | Hm]; [reflexivity|]). subst. reflexivity.
Qed.

(** The shape of [f"{x:.1f}"] for a non-negative [x]. *)
Lemma format_fixed_1 (x : Q) :
  0 <= x ->
  let r := round (x * 10) in
  (0 <= r)%Z
  /\ format_fixed 1 x = str_of_int (r / 10) +:+ String "." (str_of_int (r mod 10)).
Proof.
  intros Hx r.
  assert (Hr : (0 <= r)%Z).
  { pose proof (round_bounds (x * 10)) as [Hlo _]. fold r in Hlo.
    apply inject_Z_half_lt. change (inject_Z 0) with 0.
    destruct (Z_lt_le_dec r 0) as [Hn | Hp].
    - exfalso. assert (inject_Z r <= -1).
      { change (-1) with (inject_Z (-1)). rewrite <- Zle_Qle. lia. }
      lra.
    - assert (0 <= inject_Z r) by (change 0 with (inject_Z 0); rewrite <- Zle_Qle; lia).
      lra. }
  split; [assumption|].
  unfold format_fixed.
  change (inject_Z (10 ^ Z.of_nat 1)) with 10. fold r.
  rewrite (Z.abs_eq r Hr).
  rewrite (proj2 (Qltb_false x 0) Hx).
  change (10 ^ Z.of_nat 1)%Z with 10%Z.
  change (pretty (r / 10)%Z) with (str_of_int (r / 10)).
  change (pretty (r mod 10)%Z) with (str_of_int (r mod 10)).
  rewrite (one_digit (r mod 10)) by (apply Z.mod_pos_bound; lia).
  reflexivity.
Qed.

(** What [_parse_cpu] reads from a string of [_format_cpu]. *)
Lemma format_cpu_parse_eq (c : Q) :
  0 <= c ->
  exists v : Q,
    CostCalculator._parse_cpu (_format_cpu c) = Ret v
    /\ v == (if Qltb c 1 then inject_Z (Qfloor (c * 1000)) / 1000
             else inject_Z (round (c * 10)) / 10).
Proof.
  intros Hc. unfold _format_cpu. destruct (Qltb c 1) eqn:E.
  - apply Qltb_true in E.
    assert (Hf : int_of_float (c * 1000) = Qfloor (c * 1000)).
    { unfold int_of_float. rewrite (proj2 (Qleb_true 0 (c * 1000))) by lra. reflexivity. }
    assert (Hk : (0 <= Qfloor (c * 1000))%Z).
    { change 0%Z with (Qfloor 0). apply Qfloor_resp_le. lra. }
    rewrite Hf.
    exists (inject_Z (Qfloor (c * 1000)) / 1000).
    unfold CostCalculator._parse_cpu.
    rewrite endswith_app, (drop_last_app _ "m"), (float_of_string_str_of_int _ Hk).
    split; reflexivity.
  - apply Qltb_false in E.
    destruct (format_fixed_1 c Hc) as [Hr Hs]. rewrite Hs.
    set (r := round (c * 10)) in *.
    assert (Hq : (0 <= r / 10)%Z) by (apply Z.div_pos; lia).
    assert (Hm : (0 <= r mod 10 < 10)%Z) by (apply Z.mod_pos_bound; lia).
    pose proof (digits_str_of_int (r / 10) Hq) as Hdi.
    pose proof (digits_str_of_int (r mod 10) ltac:(lia)) as Hdf.
    eexists. unfold CostCalculator._parse_cpu.
    destruct (digits_all _ _ Hdf) as [Haf Hnf].
    destruct (numeral_last_digit _ Haf Hnf) as (d & Hd & Hdig).
    rewrite (endswith_not_last _ "m" d).
    2:{ rewrite last_char_app2 by discriminate.
        simpl. destruct (str_of_int (r mod 10)); [congruence | exact Hd]. }
    2:{ intros <-. discriminate. }
    rewrite (float_of_string_point _ _ _ _ Hdi Hdf).
    split; [reflexivity|].
    rewrite (one_digit (r mod 10) Hm), !Z2N.id by lia.
    change (inject_Z (10 ^ Z.of_nat 1)) with 10.
    rewrite (Z.div_mod r 10) at 3 by lia.
    rewrite inject_Z_plus, inject_Z_mult. change (inject_Z 10) with 10. field.
Qed.

Lemma format_cpu_parse_nonneg (c : Q) :
  0 <= c ->
  exists v : Q, CostCalculator._parse_cpu (_format_cpu c) = Ret v /\ 0 <= v.
Proof.
  intros Hc. destruct (format_cpu_parse_eq c Hc) as (v & Hp & Hv).
  exists v. split; [assumption|]. rewrite Hv. destruct (Qltb c 1).
  - apply Qle_shift_div_l; [lra|]. rewrite Qmult_0_l.
    change 0 with (inject_Z 0). rewrite <- Zle_Qle.
    change 0%Z with (Qfloor 0). apply Qfloor_resp_le. lra.
  - destruct (format_fixed_1 c Hc) as [Hr _].
    apply Qle_shift_div_l; [lra|]. rewrite Qmult_0_l.
    change 0 with (inject_Z 0). rewrite <- Zle_Qle. assumption.
Qed.

(** X3. A core count written by [_format_cpu] is read back by
    [_parse_cpu]: below one core it loses less than a millicore, from one
    core on it is rounded to a tenth of a core. *)
Theorem format_cpu_parse :
  forall c : Q,
    0 <= c ->
    exists v : Q,
      CostCalculator._parse_cpu (_format_cpu c) = Ret v
      /\ MLEngine2._parse_cpu (_format_cpu c) = Ret v
      /\ (c < 1 -> v <= c /\ c < v + (1 # 1000))
      /\ (1 <= c -> c - (1 # 20) <= v /\ v <= c + (1 # 20)).
Proof.
  intros c Hc.
  change MLEngine2._parse_cpu with CostCalculator._parse_cpu.
  destruct (format_cpu_parse_eq c Hc) as (v & Hp & Hv).
  exists v. split; [assumption|]. split; [assumption|].
  destruct (Qltb c 1) eqn:E.
  - apply Qltb_true in E. split; [|intros; lra]. intros _.
    pose proof (Qfloor_le (c * 1000)) as Hlo.
    pose proof (Qlt_floor (c * 1000)) as Hfl.
    rewrite inject_Z_plus in Hfl. change (inject_Z 1) with 1 in Hfl.
    assert (Hk : v * 1000 == inject_Z (Qfloor (c * 1000))) by (rewrite Hv; field).
    lra.
  - apply Qltb_false in E. split; [intros; lra|]. intros _.
    pose proof (round_bounds (c * 10)) as [Hlo Hhi].
    assert (Hk : v * 10 == inject_Z (round (c * 10))) by (rewrite Hv; field).
    lra.
Qed.

Lemma format_cpu_parse_witness :
  exists v : Q, CostCalculator._parse_cpu (_format_cpu (23 # 100)) = Ret v.
Proof.
  destruct (format_cpu_parse (23 # 100)) as (v & H & _);
    [vm_compute; discriminate|].
  exists v. exact H.
Defined.

End CpuStrings.

(** ** StatsEngine: patterns, spot suitability, instance classes *)

Section EngineFacts.
Local Open Scope Q_scope.
Import MLEngine.

(** X4. [detect_patterns] sets exactly one of the burst, steady and
    business-hours flags and never the weekend flag, so
    [detect_scheduled_scaling_opportunity] never proposes the weekend
    strategy: it is suitable exactly on the business-hours pattern, with
    confidence 0.75 and a scale-down factor of 0.5. *)
Theorem scheduled_scaling_never_weekend :
  forall m : WorkloadMetrics.t,
    let p := detect_patterns m in
    let so := detect_scheduled_scaling_opportunity m in
    has_weekend_pattern p = false
    /\ ((has_burst_pattern p, has_steady_pattern p, has_business_hours_pattern p)
        = (true, false, false)
        \/ (has_burst_pattern p, has_steady_pattern p, has_business_hours_pattern p)
           = (false, true, false)
        \/ (has_burst_pattern p, has_steady_pattern p, has_business_hours_pattern p)
           = (false, false, true))
    /\ suitable so = has_business_hours_pattern p
    /\ strategy so <> "weekend_reduction"
    /\ (so = mkScaling true "business_hours" (Some "9am-5pm weekdays") None
               (Some 0.5) None 0.75
        \/ so = mkScaling false "none" None None None None 0).
Proof.
  intros m p so. subst p so.
  unfold detect_scheduled_scaling_opportunity, detect_patterns.
  destruct (Qltb 0.4 _ || Qltb 0.3 _);
    [|destruct (Qltb _ 0.15 && Qltb _ 0.15)];
    destruct (Qltb _ 30 && Qltb _ 30); cbn;
    (split; [reflexivity|]); (split; [auto 4|]); (split; [reflexivity|]);
    (split; [discriminate|]); auto.
Qed.

(** X5. [recommend_spot_instances] refuses StatefulSets, DaemonSets and
    single-replica workloads with confidence 0, and accepts every other
    workload with a confidence between 0.35 and 0.7 and a reason. *)
Theorem recommend_spot_instances_suitability :
  forall (w : Workload.t) (m : WorkloadMetrics.t),
    let refused :=
      String.eqb (Workload.kind w) "StatefulSet"
      || String.eqb (Workload.kind w) "DaemonSet"
      || (Workload.replicas w =? 1)%Z in
    exists (confidence : Q) (reason : string),
      recommend_spot_instances w m = (negb refused, confidence, reason)
      /\ reason <> ""
      /\ (refused = true -> confidence = 0)
      /\ (refused = false -> 0.35 <= confidence /\ confidence <= 0.7).
Proof.
  intros w m refused. subst refused. unfold recommend_spot_instances.
  destruct (String.eqb (Workload.kind w) "StatefulSet"
            || String.eqb (Workload.kind w) "DaemonSet") eqn:Ek; cbn [orb negb].
  - eexists. eexists. split; [reflexivity|].
    repeat split; try discriminate.
  - destruct (has_burst_pattern (detect_patterns m));
      destruct (Qltb 80 (WorkloadMetrics.cpu_utilization_pct m)
                || Qltb 80 (WorkloadMetrics.memory_utilization_pct m));
      destruct (Workload.replicas w =? 1)%Z; cbn;
      (eexists; eexists; split; [reflexivity|]);
      repeat split; try discriminate; try (intros _; lra).
Qed.

(** X6. [recommend_instance_type_change] divides the two amounts both
    ways: it raises [ZeroDivisionError] when either is zero; for positive
    amounts it answers the compute class when memory is below twice the
    cpu, the memory class when memory is above four times the cpu, and the
    balanced class between. *)
Theorem recommend_instance_type_change_classes :
  forall (cpu memory : Q) (provider : string),
    let '(compute_class, memory_class, balanced_class) :=
      MLEngine2.instance_classes provider in
    (cpu == 0 \/ memory == 0 ->
     MLEngine2.recommend_instance_type_change cpu memory provider
     = Raise ZeroDivisionError)
    /\ (0 < cpu -> 0 < memory ->
        MLEngine2.recommend_instance_type_change cpu memory provider
        = Ret (if Qltb memory (2 * cpu) then compute_class
               else if Qltb (4 * cpu) memory then memory_class
               else balanced_class)).
Proof.
  intros cpu memory provider.
  unfold MLEngine2.recommend_instance_type_change.
  destruct (MLEngine2.instance_classes provider) as [[cc mc] bc].
  split.
  - intros Hz. unfold Py.div.
    destruct (Qeqb memory 0) eqn:Em; [reflexivity|].
    apply Qeqb_false in Em. destruct Hz as [Hc | Hm]; [|contradiction].
    cbn [mbind Py.res_bind].
    assert (Hq : cpu / memory == 0) by (rewrite Hc; field; assumption).
    rewrite (proj2 (Qltb_false _ _)) by (rewrite Hq; lra).
    rewrite (proj2 (Qeqb_true cpu 0) Hc). reflexivity.
  - intros Hc Hm. unfold Py.div.
    rewrite (proj2 (Qeqb_false memory 0)) by lra.
    rewrite (proj2 (Qeqb_false cpu 0)) by lra.
    cbn [mbind Py.res_bind].
    assert (H1 : Qltb 0.5 (cpu / memory) = Qltb memory (2 * cpu)).
    { destruct (Qltb memory (2 * cpu)) eqn:E.
      - apply Qltb_true in E. apply Qltb_true. apply Qlt_shift_div_l; lra.
      - apply Qltb_false in E. apply Qltb_false. apply Qle_shift_div_r; lra. }
    assert (H2 : Qltb 4 (memory / cpu) = Qltb (4 * cpu) memory).
    { destruct (Qltb (4 * cpu) memory) eqn:E.
      - apply Qltb_true in E. apply Qltb_true. apply Qlt_shift_div_l; lra.
      - apply Qltb_false in E. apply Qltb_false. apply Qle_shift_div_r; lra. }
    rewrite H1, H2. repeat case_if; reflexivity.
Qed.

Lemma recommend_instance_type_change_classes_witness :
  MLEngine2.recommend_instance_type_change 2 16 "AWS"
  = Ret ("r5.large", "Memory-optimized instance recommended").
Proof.
  apply (proj2 (recommend_instance_type_change_classes 2 16 "AWS")); reflexivity.
Defined.

End EngineFacts.

(** ** StatsEngine: bin packing *)

Section BinPacking.
Local Open Scope Q_scope.
Import MLEngine2.

Lemma sized_inv (ws : list Dict.t) (items : list Sized) :
  sized ws = Ret items ->
  map item items = ws
  /\ Forall (fun s => requested "cpu_request" (item s) = cpu_needed s
                      /\ requested "memory_request" (item s) = memory_needed s) items.
Proof.
  revert items. induction ws as [|w ws IH]; intros items H; cbn [sized] in H.
  - injection H as <-. split; constructor.
  - bind_inv H. bind_inv H. bind_inv H. injection H as <-.
    destruct (IH _ Ha1) as [Hm Hf]. split; [cbn; rewrite Hm; reflexivity|].
    constructor; [|assumption]. cbn. unfold requested. rewrite Ha, Ha0. auto.
Qed.

Lemma insert_by_key_perm (s : Sized) (l : list Sized) :
  Permutation (insert_by_key s l) (s :: l).
Proof.
  induction l as [|s' l IH]; cbn; [reflexivity|].
  destruct (Qltb (sort_key s') (sort_key s)); [reflexivity|].
  rewrite IH. apply perm_swap.
Qed.

Lemma sort_by_key_perm (l : list Sized) : Permutation (sort_by_key l) l.
Proof.
  unfold sort_by_key.
  assert (H : forall acc, Permutation (fold_left (fun acc s => insert_by_key s acc) l acc)
                            (l ++ acc)).
  { induction l as [|s l IH]; intros acc; cbn; [reflexivity|].
    rewrite IH, insert_by_key_perm. symmetry. apply Permutation_middle. }
  rewrite H, app_nil_r. reflexivity.
Qed.

Lemma sum_requests_snoc (k : string) (ws : list Dict.t) (w : Dict.t) :
  sum_requests k (ws ++ [w]) == sum_requests k ws + requested k w.
Proof.
  induction ws as [|x ws IH]; cbn.
  - ring.
  - fold (sum_requests k (ws ++ [w])). fold (sum_requests k ws). rewrite IH. ring.
Qed.

Lemma packed_start (cpu_cap memory_cap : json) :
  packed cpu_cap memory_cap [] ([], mkNode 0 0 cpu_cap memory_cap []).
Proof.
  split; cbn [fst snd app].
  - reflexivity.
  - constructor; [|constructor]. split; reflexivity.
  - cbn. lia.
  - constructor; [|constructor]. split; reflexivity.
  - intros. constructor; [|constructor]. left. cbn. lia.
Qed.

Lemma fits_true (current : Node) (s : Sized) (cc mc : Q) :
  fits current s = Ret true ->
  Json.number (cpu_capacity current) = Ret cc ->
  Json.number (memory_capacity current) = Ret mc ->
  cpu_used current + cpu_needed s <= cc * 0.85
  /\ memory_used current + memory_needed s <= mc * 0.85.
Proof.
  unfold fits. intros H Hc Hm. rewrite Hc in H. cbn [mbind Py.res_bind] in H.
  destruct (Qleb _ (cc * 0.85)) eqn:E1; [|discriminate].
  rewrite Hm in H. cbn [mbind Py.res_bind] in H. injection H as E2.
  apply Qleb_true in E1. apply Qleb_true in E2. auto.
Qed.

Lemma place_packed (cpu_cap memory_cap : json) (done : list Sized)
    (state state' : list Node * Node) (s : Sized) :
  packed cpu_cap memory_cap done state ->
  requested "cpu_request" (item s) = cpu_needed s ->
  requested "memory_request" (item s) = memory_needed s ->
  place cpu_cap memory_cap state s = Ret state' ->
  packed cpu_cap memory_cap (done ++ [s]) state'.
Proof.
  intros [Hi Hs Hc Hk Hw] Hrc Hrm H.
  destruct state as [closed current]. cbn [fst snd] in *.
  unfold place in H. destruct (fits current s) as [ok|] eqn:Ef; [|discriminate].
  cbn [mbind Py.res_bind] in H.
  apply Forall_app in Hs. destruct Hs as [Hs1 Hs2]. inversion_clear Hs2 as [|? ? Hcur _].
  apply Forall_app in Hk. destruct Hk as [Hk1 Hk2]. inversion_clear Hk2 as [|? ? Hkc _].
  destruct ok; injection H as <-; split; cbn [fst snd].
  - rewrite map_app, concat_app in *. cbn in *. rewrite !app_nil_r in *.
    rewrite map_app, app_assoc, Hi. reflexivity.
  - apply Forall_app. split; [assumption|]. constructor; [|constructor].
    destruct Hcur as [H1 H2].
    split; cbn [cpu_used memory_used workloads]; rewrite sum_requests_snoc.
    + rewrite H1, Hrc. reflexivity.
    + rewrite H2, Hrm. reflexivity.
  - rewrite length_app. cbn. lia.
  - apply Forall_app. split; [assumption|]. constructor; [|constructor]. exact Hkc.
  - intros cc mc Hcc Hmc. specialize (Hw cc mc Hcc Hmc).
    apply Forall_app in Hw. destruct Hw as [Hw1 _].
    apply Forall_app. split; [assumption|]. constructor; [|constructor].
    right. cbn. destruct Hkc as [Ec Em].
    apply (fits_true current s cc mc Ef); congruence.
  - rewrite !map_app, !concat_app in *. cbn in *. rewrite !app_nil_r in *.
    rewrite Hi. reflexivity.
  - apply Forall_app. split.
    + apply Forall_app. split; [assumption|]. constructor; [assumption|constructor].
    + constructor; [|constructor].
      split; cbn [cpu_used memory_used workloads sum_requests fold_right];
        [rewrite Hrc | rewrite Hrm]; ring.
  - rewrite !length_app. cbn. lia.
  - apply Forall_app. split.
    + apply Forall_app. split; [assumption|]. constructor; [assumption|constructor].
    + constructor; [|constructor]. cbn. auto.
  - intros cc mc Hcc Hmc. specialize (Hw cc mc Hcc Hmc).
    apply Forall_app. split; [assumption|]. constructor; [|constructor].
    left. cbn. lia.
Qed.

Lemma place_all_packed (cpu_cap memory_cap : json) (l : list Sized) :
  forall (done : list Sized) (state state' : list Node * Node),
    packed cpu_cap memory_cap done state ->
    Forall (fun s => requested "cpu_request" (item s) = cpu_needed s
                     /\ requested "memory_request" (item s) = memory_needed s) l ->
    place_all cpu_cap memory_cap state l = Ret state' ->
    packed cpu_cap memory_cap (done ++ l) state'.
Proof.
  induction l as [|s l IH]; intros done state state' Hp Hf H; cbn [place_all] in H.
  - injection H as <-. rewrite app_nil_r. assumption.
  - bind_inv H. inversion_clear Hf as [|? ? [Hc Hm] Hf'].
    replace (done ++ s :: l)%list with ((done ++ [s]) ++ l)%list
      by (rewrite <- app_assoc; reflexivity).
    eapply IH; [|eassumption|eassumption].
    eapply place_packed; eassumption.
Qed.

Lemma pack_packed (cpu_cap memory_cap : json) (l : list Sized) (ns : list Node) :
  Forall (fun s => requested "cpu_request" (item s) = cpu_needed s
                   /\ requested "memory_request" (item s) = memory_needed s) l ->
  pack cpu_cap memory_cap l = Ret ns ->
  concat (map workloads ns) = map item l
  /\ Forall node_sums ns
  /\ (length ns <= length l + 1)%nat
  /\ (l = [] -> ns = [])
  /\ Forall (fun n => cpu_capacity n = cpu_cap /\ memory_capacity n = memory_cap) ns
  /\ forall cc mc : Q,
       Json.number cpu_cap = Ret cc -> Json.number memory_cap = Ret mc ->
       Forall (node_within cc mc) ns.
Proof.
  intros Hf H. unfold pack in H. bind_inv H. destruct a as [closed current].
  pose proof (place_all_packed cpu_cap memory_cap l [] _ _
                (packed_start cpu_cap memory_cap) Hf Ha) as [Hi Hs Hc Hk Hw].
  cbn [fst snd app] in *.
  assert (He : l = [] -> closed = [] /\ workloads current = []).
  { intros ->. cbn in Ha. injection Ha as <- <-. auto. }
  apply Forall_app in Hs. destruct Hs as [Hs1 Hs2].
  apply Forall_app in Hk. destruct Hk as [Hk1 Hk2].
  destruct (workloads current) as [|w ws] eqn:Ew; injection H as <-.
  - rewrite map_app, concat_app in Hi. cbn in Hi. rewrite Ew in Hi.
    cbn in Hi. rewrite !app_nil_r in Hi.
    repeat split; try assumption; try lia.
    + intros E. apply He in E. tauto.
    + intros cc mc Hcc Hmc. specialize (Hw cc mc Hcc Hmc).
      apply Forall_app in Hw. tauto.
  - repeat split; try assumption.
    + apply Forall_app. auto.
    + rewrite length_app. cbn. lia.
    + intros E. apply He in E. destruct E as [_ E]. discriminate.
    + apply Forall_app. auto.
Qed.

(** X7. When [bin_packing] returns, the workloads of its nodes are the
    given workloads, each exactly once; the sums a node records are those
    of its workloads; a node holds at most one workload or stays within
    85% of both capacities; and there is at most one node more than there
    are workloads (none for no workload). *)
Theorem bin_packing_partition :
  forall (ws : list Dict.t) (node_capacity : Dict.t) (p : Packing),
    bin_packing ws node_capacity = Ret p ->
    Permutation (concat (map workloads (nodes p))) ws
    /\ Forall node_sums (nodes p)
    /\ required_nodes p = Z.of_nat (length (nodes p))
    /\ (length (nodes p) <= length ws + 1)%nat
    /\ (ws = [] -> nodes p = [])
    /\ savings_potential p
       = Z.max 0 (Z.of_nat (length ws) - Z.of_nat (length (nodes p)))
    /\ forall cc mc : Q,
         Json.number (Dict.get_default "cpu" (JNum 8) node_capacity) = Ret cc ->
         Json.number (Dict.get_default "memory" (JNum default_memory_capacity)
                        node_capacity) = Ret mc ->
         Forall (node_within cc mc) (nodes p).
Proof.
  intros ws cap p H. unfold bin_packing in H.
  bind_inv H. rename a into items. bind_inv H. rename a into ns.
  bind_inv H. bind_inv H. injection H as <-. cbn [nodes required_nodes savings_potential].
  destruct (sized_inv ws items Ha) as [Hm Hf].
  assert (Hf' : Forall (fun s => requested "cpu_request" (item s) = cpu_needed s
                   /\ requested "memory_request" (item s) = memory_needed s)
                  (sort_by_key items)).
  { rewrite (sort_by_key_perm items). assumption. }
  destruct (pack_packed _ _ _ _ Hf' Ha0) as (Hi & Hs & Hl & He & _ & Hw).
  assert (Hlen : length (sort_by_key items) = length ws).
  { rewrite (Permutation_length (sort_by_key_perm items)), <- Hm, length_map.
    reflexivity. }
  repeat split; try assumption.
  - rewrite Hi, <- Hm. apply Permutation_map. apply sort_by_key_perm.
  - lia.
  - intros ->. apply He. cbn in Ha. injection Ha as <-. reflexivity.
Qed.

Lemma bin_packing_partition_witness :
  exists p : Packing,
    bin_packing [ pod "a" 2 1; pod "b" 5 1; pod "c" 1 1 ] [ ("memory", JNum 64) ] = Ret p
    /\ Permutation (concat (map workloads (nodes p)))
         [ pod "a" 2 1; pod "b" 5 1; pod "c" 1 1 ].
Proof.
  eexists. split; [vm_compute; reflexivity|].
  match goal with
  | |- Permutation (concat (map workloads (nodes ?p))) ?ws =>
      exact (proj1 (bin_packing_partition ws [ ("memory", JNum 64) ] p
                      ltac:(vm_compute; reflexivity)))
  end.
Defined.

(** One workload above 85% of a node leaves an empty first node behind:
    two nodes are required for it and no saving is reported. *)
Lemma bin_packing_oversized :
  exists p : Packing,
    bin_packing [ pod "big" 7 1 ] [ ("memory", JNum 64) ] = Ret p
    /\ required_nodes p = 2%Z
    /\ map workloads (nodes p) = [ []; [ pod "big" 7 1 ] ]
    /\ savings_potential p = 0%Z.
Proof. eexists. split; [vm_compute; reflexivity|]. repeat split. Qed.

End BinPacking.

(** ** CostModel: optimized costs, provider comparison, spot prices *)

Section CostFacts.
Local Open Scope Q_scope.
Import CostCalculator.

Lemma nonneg_gb (mem : Z) : (0 <= mem)%Z -> 0 <= inject_Z mem / bytes_per_gb.
Proof.
  intros Hm. apply Qle_shift_div_l; [apply bytes_per_gb_pos|].
  rewrite Qmult_0_l. change 0 with (inject_Z 0). rewrite <- Zle_Qle. assumption.
Qed.

(** The two outcomes of [fetch_current_costs] once the requests parse. *)
Lemma fetch_current_costs_cases (post : pricing_service) (w : Workload.t)
    (it : option string) (cpu : Q) (mem : Z) :
  _parse_cpu (ResourceSpec.cpu_request (Workload.current_resources w)) = Ret cpu ->
  _parse_memory (ResourceSpec.memory_request (Workload.current_resources w)) = Ret mem ->
  0 <= cpu -> (0 <= mem)%Z -> (0 <= Workload.replicas w)%Z ->
  exists (c fb : CostEstimate.t) (s : string),
    fetch_current_costs post w it = Ret c
    /\ CostEstimate.valid c
    /\ linear_estimate cpu (inject_Z mem / bytes_per_gb)
         (inject_Z (Workload.replicas w)) = Ret fb
    /\ let reply := post (_get_pricing_url (lower (Workload.provider w)) +:+ "/pricing")
                      (request_data s cpu (inject_Z mem / bytes_per_gb)) in
       (priced reply (inject_Z (Workload.replicas w)) = Ret c
        \/ (exists e, priced reply (inject_Z (Workload.replicas w)) = Raise e) /\ c = fb).
Proof.
  intros Hcpu Hmem Hc Hm Hr.
  assert (Hrq : 0 <= inject_Z (Workload.replicas w)).
  { change 0 with (inject_Z 0). rewrite <- Zle_Qle. assumption. }
  destruct (linear_estimate_ok cpu (inject_Z mem / bytes_per_gb)
              (inject_Z (Workload.replicas w)) Hc (nonneg_gb mem Hm) Hrq)
    as (fb & Hfb & Hval & _).
  unfold fetch_current_costs.
  assert (Hit : exists s,
             match it with
             | Some s =>
                 if String.eqb s ""
                 then _infer_instance_type w (lower (Workload.provider w))
                 else Ret s
             | None => _infer_instance_type w (lower (Workload.provider w))
             end = Ret s).
  { rewrite (infer_instance_type_ok w _ cpu mem Hcpu Hmem).
    destruct it as [s|]; [destruct (String.eqb s "")|]; eauto. }
  destruct Hit as (s & ->). rewrite Hcpu, Hmem. cbn [mbind res_bind].
  unfold _fallback_cost_estimate. rewrite Hcpu, Hmem. cbn [mbind res_bind].
  destruct (priced _ _) as [c | e] eqn:Hp; cbn [try_except].
  - exists c, fb, s. split; [reflexivity|].
    split; [eapply priced_valid; eassumption|]. split; [assumption|].
    left. exact Hp.
  - exists fb, fb, s. split; [assumption|]. split; [assumption|].
    split; [assumption|]. right. split; [eauto | reflexivity].
Qed.

End CostFacts.

Section CostFacts2.
Local Open Scope Q_scope.
Import CostCalculator.

(** The outcome of [calculate_optimized_costs] for a configuration that
    carries both requests and the replica count. *)
Lemma calculate_optimized_costs_ok (post : pricing_service) (w : Workload.t)
    (cfg : Dict.t) (cs ms : string) (cpu r : Q) (mem : Z) :
  Dict.get "cpu_request" cfg = Some (JStr cs) ->
  Dict.get "memory_request" cfg = Some (JStr ms) ->
  Dict.get "replicas" cfg = Some (JNum r) ->
  _parse_cpu cs = Ret cpu -> _parse_memory ms = Ret mem ->
  0 <= cpu -> (0 <= mem)%Z -> 0 <= r ->
  exists (c fb : CostEstimate.t) (s : string),
    calculate_optimized_costs post w cfg None = Ret c
    /\ CostEstimate.valid c
    /\ linear_estimate cpu (inject_Z mem / bytes_per_gb) r = Ret fb
    /\ let reply := post (_get_pricing_url (lower (Workload.provider w)) +:+ "/pricing")
                      (request_data s cpu (inject_Z mem / bytes_per_gb)) in
       (priced reply r = Ret c \/ (exists e, priced reply r = Raise e) /\ c = fb).
Proof.
  intros Hgc Hgm Hgr Hcpu Hmem Hc Hm Hr.
  destruct (linear_estimate_ok cpu (inject_Z mem / bytes_per_gb) r Hc (nonneg_gb mem Hm) Hr)
    as (fb & Hfb & Hval & _).
  unfold calculate_optimized_costs, _infer_instance_type_from_config,
    _fallback_optimized_cost_estimate, config_replicas, Dict.get_default.
  rewrite Hgc, Hgm, Hgr. cbn [Json.str Json.number mbind res_bind].
  rewrite Hcpu, Hmem. cbn [mbind res_bind].
  destruct (priced _ _) as [c | e] eqn:Hp; cbn [try_except].
  - eexists c, fb, _. split; [reflexivity|].
    split; [eapply priced_valid; eassumption|]. split; [assumption|].
    left. exact Hp.
  - eexists fb, fb, _. split; [exact Hfb|]. split; [assumption|].
    split; [assumption|]. right. split; [eauto | reflexivity].
Qed.

(** X8. Once the two request strings of a workload parse to non-negative
    amounts and its replica count is not negative, [compare_providers]
    returns one valid estimate for each of aws, gcp and azure, in that
    order; when the pricing call fails for all three, the three estimates
    are one and the same fall-back estimate. *)
Theorem compare_providers_entries :
  forall (post : pricing_service) (w : Workload.t) (it : option string)
         (cpu : Q) (mem : Z),
    _parse_cpu (ResourceSpec.cpu_request (Workload.current_resources w)) = Ret cpu ->
    _parse_memory (ResourceSpec.memory_request (Workload.current_resources w)) = Ret mem ->
    0 <= cpu -> (0 <= mem)%Z -> (0 <= Workload.replicas w)%Z ->
    exists a g z : CostEstimate.t,
      CostCalculator2.compare_providers post w it
      = Ret [ ("aws", a); ("gcp", g); ("azure", z) ]
      /\ CostEstimate.valid a /\ CostEstimate.valid g /\ CostEstimate.valid z
      /\ ((forall url request,
              pricing_fails (post url request) (inject_Z (Workload.replicas w))) ->
          a = g /\ g = z
          /\ CostEstimate.hourly a
             == (cpu * 0.04 + inject_Z mem / bytes_per_gb * 0.005)
                * inject_Z (Workload.replicas w)).
Proof.
  intros post w it cpu mem Hcpu Hmem Hc Hm Hr.
  assert (Hrq : 0 <= inject_Z (Workload.replicas w)).
  { change 0 with (inject_Z 0). rewrite <- Zle_Qle. assumption. }
  destruct (linear_estimate_ok cpu (inject_Z mem / bytes_per_gb)
              (inject_Z (Workload.replicas w)) Hc (nonneg_gb mem Hm) Hrq)
    as (fb0 & Hfb0 & _ & Hh & _).
  destruct (fetch_current_costs_cases post (CostCalculator2.with_provider w "aws") it
              cpu mem Hcpu Hmem Hc Hm Hr) as (a & fa & sa & Ha & Hva & Hfa & Hca).
  destruct (fetch_current_costs_cases post (CostCalculator2.with_provider w "gcp") it
              cpu mem Hcpu Hmem Hc Hm Hr) as (g & fg & sg & Hg & Hvg & Hfg & Hcg).
  destruct (fetch_current_costs_cases post (CostCalculator2.with_provider w "azure") it
              cpu mem Hcpu Hmem Hc Hm Hr) as (z & fz & sz & Hz & Hvz & Hfz & Hcz).
  cbn [CostCalculator2.with_provider Workload.replicas] in *.
  exists a, g, z.
  split.
  { unfold CostCalculator2.compare_providers. cbn [CostCalculator2.compare_loop].
    rewrite Ha. cbn [mbind res_bind]. rewrite Hg. cbn [mbind res_bind].
    rewrite Hz. reflexivity. }
  split; [assumption|]. split; [assumption|]. split; [assumption|].
  intros Hfail.
  assert (Hx : forall (c f : CostEstimate.t) url request,
             priced (post url request) (inject_Z (Workload.replicas w)) = Ret c
             \/ (exists e, priced (post url request) (inject_Z (Workload.replicas w))
                           = Raise e) /\ c = f ->
             c = f).
  { intros c f url request [Hp | [_ E]]; [|assumption].
    destruct (Hfail url request) as (e & He). congruence. }
  apply Hx in Hca, Hcg, Hcz. subst a g z.
  assert (fa = fb0) by congruence. assert (fg = fb0) by congruence.
  assert (fz = fb0) by congruence. subst. auto.
Qed.

Lemma compare_providers_entries_witness :
  exists a g z : CostEstimate.t,
    CostCalculator2.compare_providers pricing_down (example_workload "Deployment" 3) None
    = Ret [ ("aws", a); ("gcp", g); ("azure", z) ].
Proof.
  destruct (compare_providers_entries pricing_down (example_workload "Deployment" 3) None
              (500 / 1000) (512 * 1024 * 1024)%Z
              ltac:(vm_compute; reflexivity) ltac:(vm_compute; reflexivity)
              ltac:(vm_compute; discriminate) ltac:(lia) ltac:(simpl; lia))
    as (a & g & z & H & _).
  exists a, g, z. exact H.
Defined.

(** X9. The configuration of a right-sizing recommendation can always be
    priced: for non-negative p95 usages and a non-negative replica count,
    [calculate_optimized_costs] returns a valid estimate, whatever the
    request strings of the workload itself and whatever the pricing service
    answers. *)
Theorem right_sizing_config_priced :
  forall (post : pricing_service) (w : Workload.t) (m : WorkloadMetrics.t),
    0 <= MetricStats.p95 (WorkloadMetrics.cpu_usage m) ->
    0 <= MetricStats.p95 (WorkloadMetrics.memory_usage m) ->
    (0 <= Workload.replicas w)%Z ->
    exists c : CostEstimate.t,
      calculate_optimized_costs post w (right_size_config w m) None = Ret c
      /\ CostEstimate.valid c.
Proof.
  intros post w m Hcp Hmp Hr.
  set (rc := MetricStats.p95 (WorkloadMetrics.cpu_usage m) * MLEngine.safety_margin).
  set (rm := MetricStats.p95 (WorkloadMetrics.memory_usage m) * MLEngine.safety_margin).
  assert (Hrc : 0 <= rc) by (unfold rc, MLEngine.safety_margin; nra).
  assert (Hrm : 0 <= rm) by (unfold rm, MLEngine.safety_margin; nra).
  assert (Hn : (0 <= int_of_float rm)%Z).
  { unfold int_of_float. rewrite (proj2 (Qleb_true 0 rm) Hrm).
    change 0%Z with (Qfloor 0). apply Qfloor_resp_le. assumption. }
  destruct (format_cpu_parse_nonneg rc Hrc) as (cpu & Hpc & Hcpu).
  destruct (format_memory_parse_eq (int_of_float rm) Hn) as [Hpm _].
  destruct (calculate_optimized_costs_ok post w (right_size_config w m)
              (MLEngine._format_cpu rc) (MLEngine._format_memory (int_of_float rm))
              cpu (inject_Z (Workload.replicas w)) _
              eq_refl eq_refl eq_refl Hpc Hpm Hcpu)
    as (c & _ & _ & H & Hv & _).
  - pose proof (memory_unit_pos (int_of_float rm)).
    apply Z.mul_nonneg_nonneg; [apply Z.div_pos|]; lia.
  - change 0 with (inject_Z 0). rewrite <- Zle_Qle. assumption.
  - exists c. auto.
Qed.

Lemma right_sizing_config_priced_witness :
  exists c : CostEstimate.t,
    calculate_optimized_costs pricing_down tebibyte_workload
      (right_size_config tebibyte_workload (example_metrics 50 40)) None = Ret c.
Proof.
  destruct (right_sizing_config_priced pricing_down tebibyte_workload
              (example_metrics 50 40)
              ltac:(vm_compute; discriminate) ltac:(vm_compute; discriminate)
              ltac:(simpl; lia))
    as (c & H & _).
  exists c. exact H.
Defined.

End CostFacts2.

Section CostFacts3.
Local Open Scope Q_scope.
Import CostCalculator.

(** X10. [spot_vs_ondemand] raises only what the inference of the instance
    type raises; otherwise it returns a summary whose savings are the
    on-demand minus the spot cost, with a percentage between 0 and 100 when
    the spot cost lies between 0 and the on-demand cost; a price list that
    cannot be fetched or read gives the all-zero summary. *)
Theorem spot_vs_ondemand_total :
  forall (get : spot_service) (w : Workload.t) (it : option string),
    (forall e : exn,
        resolved_instance_type w it = Raise e -> spot_vs_ondemand get w it = Raise e)
    /\ (forall t : string,
           resolved_instance_type w it = Ret t ->
           exists s : SpotSummary,
             spot_vs_ondemand get w it = Ret s
             /\ monthly_savings s == on_demand_monthly s - spot_monthly s
             /\ ((exists e, Http.json_of (get (spot_prices_url w)) = Raise e) ->
                 s = no_spot_summary)
             /\ (0 <= spot_monthly s -> spot_monthly s <= on_demand_monthly s ->
                 0 <= savings_percentage s /\ savings_percentage s <= 100)).
Proof.
  intros get w it. unfold resolved_instance_type, spot_vs_ondemand, spot_prices_url.
  split.
  - intros e H. rewrite H. reflexivity.
  - intros t H. rewrite H. cbn [mbind res_bind].
    destruct (spot_lookup _ t _) as [[s|]|e] eqn:El.
    + exists s. split; [reflexivity|].
      unfold spot_lookup in El. bind_inv El. rename a into data.
      bind_inv El. bind_inv El. destruct a0 as [|p ps]; [discriminate|].
      apply bind_ret_inv in El. destruct El as (od & _ & El).
      apply bind_ret_inv in El. destruct El as (sp & _ & El).
      repeat (bind_inv El). injection El as <-.
      cbn [monthly_savings on_demand_monthly spot_monthly savings_percentage].
      split; [reflexivity|]. split.
      * intros (e & He). congruence.
      * intros Hs Ho. destruct (Qltb 0 _) eqn:E; [|split; lra].
        apply Qltb_true in E. split.
        -- apply Qmult_le_0_compat; [|lra].
           apply Qle_shift_div_l; [assumption | lra].
        -- assert (Hd : (od * 730 * inject_Z (Workload.replicas w)
                         - sp * 730 * inject_Z (Workload.replicas w))
                        / (od * 730 * inject_Z (Workload.replicas w)) <= 1).
           { apply Qle_shift_div_r; [assumption | lra]. }
           lra.
    + exists no_spot_summary. repeat split; try reflexivity; cbn; intros; lra.
    + exists no_spot_summary. repeat split; try reflexivity; cbn; intros; lra.
Qed.

Lemma spot_vs_ondemand_total_witness :
  exists s : SpotSummary,
    spot_vs_ondemand spot_down (example_workload "Deployment" 3) None = Ret s
    /\ s = no_spot_summary.
Proof.
  destruct (proj2 (spot_vs_ondemand_total spot_down (example_workload "Deployment" 3) None)
              "t3.micro" ltac:(vm_compute; reflexivity)) as (s & H & _ & Hz & _).
  exists s. split; [assumption|]. apply Hz. exists HTTPError. reflexivity.
Defined.

Lemma lower_ascii_idem (c : ascii) : lower_ascii (lower_ascii c) = lower_ascii c.
Proof. destruct c as [[] [] [] [] [] [] [] []]; vm_compute; reflexivity. Qed.

Lemma lower_idem (s : string) : lower (lower s) = lower s.
Proof.
  induction s as [|c s IH]; cbn [lower]; [reflexivity|].
  rewrite lower_ascii_idem, IH. reflexivity.
Qed.

(** X11. A workload of a provider other than aws, gcp and azure is priced
    by the AWS pricing service for an instance type of the Azure table:
    [fetch_current_costs] does for it what it does for the same workload
    declared on azure when every call is sent to the AWS address. *)
Theorem unknown_provider_priced_through_aws :
  forall (post : pricing_service) (w : Workload.t),
    unknown_provider (Workload.provider w) ->
    fetch_current_costs post w None
    = fetch_current_costs (through_aws post) (CostCalculator2.with_provider w "azure") None.
Proof.
  intros post w (Ha & Hg & Hz).
  unfold fetch_current_costs, _infer_instance_type, _fallback_cost_estimate, through_aws.
  cbn [CostCalculator2.with_provider Workload.provider Workload.current_resources
       Workload.replicas].
  assert (Hu : _get_pricing_url (lower (Workload.provider w)) = aws_pricing_url).
  { unfold _get_pricing_url. rewrite lower_idem.
    rewrite (proj2 (String.eqb_neq _ _) Ha), (proj2 (String.eqb_neq _ _) Hg),
      (proj2 (String.eqb_neq _ _) Hz). reflexivity. }
  assert (Ht : forall c g, instance_table (lower (Workload.provider w)) c g
                           = instance_table (lower "azure") c g).
  { intros c g. unfold instance_table.
    rewrite (proj2 (String.eqb_neq _ _) Ha), (proj2 (String.eqb_neq _ _) Hg).
    reflexivity. }
  rewrite Hu.
  destruct (_parse_cpu _) as [cpu|e]; [|reflexivity]. cbn [mbind res_bind].
  destruct (_parse_memory _) as [mem|e]; [|reflexivity]. cbn [mbind res_bind].
  rewrite Ht. reflexivity.
Qed.

Lemma unknown_provider_priced_through_aws_witness :
  fetch_current_costs pricing_down
    (CostCalculator2.with_provider (example_workload "Deployment" 3) "oracle") None
  = fetch_current_costs (through_aws pricing_down)
      (CostCalculator2.with_provider
         (CostCalculator2.with_provider (example_workload "Deployment" 3) "oracle")
         "azure") None.
Proof.
  apply unknown_provider_priced_through_aws.
  repeat split; vm_compute; discriminate.
Defined.

End CostFacts3.

(** ** Recommender: risk levels, order and families of the result *)

Section RecommenderFacts.
Local Open Scope Q_scope.
Import Recommender OptimizationType RiskLevel.

(** X12. [assess_risk] always returns, with a factor and a mitigation
    step at least; its level is medium for spot instances, and otherwise
    high when a StatefulSet loses capacity above 80% cpu, medium when only
    one of the two holds, low when neither does: a single replica raises
    the score but never the level. *)
Theorem assess_risk_level :
  forall (w : Workload.t) (t : OptimizationType.t) (m : option WorkloadMetrics.t),
    exists ra : RiskAssessment.t,
      assess_risk w t m = Ret ra
      /\ RiskAssessment.level ra = risk_level_of w t m
      /\ RiskAssessment.factors ra <> []
      /\ RiskAssessment.mitigation_steps ra <> [].
Proof.
  intros w t m. unfold assess_risk, risk_level_of, hot_cpu.
  destruct (String.eqb (Workload.kind w) "StatefulSet");
    destruct (Workload.replicas w =? 1)%Z;
    destruct t; cbn [bool_decide decide_rel orb andb];
    try (destruct m as [m|]; [destruct (Qltb 80 (WorkloadMetrics.cpu_utilization_pct m))|]);
    (eexists; split; [vm_compute; reflexivity|]);
    repeat split; discriminate.
Qed.

Lemma insert_by_savings_sorted (r : Recommendation.t) (l : list Recommendation.t) :
  StronglySorted by_savings l -> StronglySorted by_savings (insert_by_savings r l).
Proof.
  induction l as [|y l IH]; intros Hs; cbn [insert_by_savings].
  - repeat constructor.
  - inversion_clear Hs as [|? ? Hl Hy].
    destruct (Qltb _ _) eqn:E.
    + apply Qltb_true in E. constructor; [constructor; assumption|].
      constructor; [unfold by_savings; lra|].
      eapply Forall_impl; [exact Hy|]. unfold by_savings. intros z Hz. lra.
    + apply Qltb_false in E. constructor; [auto|].
      apply List.Forall_forall. intros z Hz. apply insert_by_savings_In in Hz.
      destruct Hz as [-> | Hz]; [exact E|].
      rewrite List.Forall_forall in Hy. auto.
Qed.

Lemma insert_by_savings_length (r : Recommendation.t) (l : list Recommendation.t) :
  length (insert_by_savings r l) = S (length l).
Proof.
  induction l as [|y l IH]; cbn [insert_by_savings]; [reflexivity|].
  destruct (Qltb _ _); cbn; [reflexivity | rewrite IH; reflexivity].
Qed.

Lemma sort_by_savings_sorted (l : list Recommendation.t) :
  StronglySorted by_savings (sort_by_savings l)
  /\ length (sort_by_savings l) = length l.
Proof.
  unfold sort_by_savings.
  assert (G : forall acc, StronglySorted by_savings acc ->
              StronglySorted by_savings
                (fold_left (fun acc r => insert_by_savings r acc) l acc)
              /\ length (fold_left (fun acc r => insert_by_savings r acc) l acc)
                 = (length l + length acc)%nat).
  { induction l as [|y l IH]; intros acc Ha; cbn [fold_left].
    - auto.
    - destruct (IH _ (insert_by_savings_sorted y acc Ha)) as [H1 H2].
      split; [assumption|]. rewrite H2, insert_by_savings_length. cbn. lia. }
  destruct (G [] ltac:(constructor)) as [H1 H2].
  split; [assumption|]. rewrite H2. cbn. lia.
Qed.

Lemma append_if_confident_length l rec c :
  (length (append_if_confident l rec c) <= S (length l))%nat.
Proof.
  unfold append_if_confident. destruct rec as [r|]; [|lia].
  destruct (Qleb c _); [rewrite length_app; cbn; lia | lia].
Qed.

(** X13. The list [generate_recommendations] returns is in decreasing
    order of monthly savings, holds at most five recommendations, and each
    of them has a confidence of at least [min_confidence]. *)
Theorem generate_recommendations_sorted :
  forall (env : collaborator) (w : Workload.t) (m : WorkloadMetrics.t) (c : Q)
         (recs : list Recommendation.t),
    generate_recommendations env w m c = Ret recs ->
    StronglySorted by_savings recs
    /\ (length recs <= 5)%nat
    /\ Forall (fun r => c <= Recommendation.confidence_score r) recs.
Proof.
  intros env w m c recs H.
  split; [|split].
  - unfold generate_recommendations in H. repeat (bind_inv H).
    injection H as <-. apply sort_by_savings_sorted.
  - unfold generate_recommendations in H. repeat (bind_inv H).
    injection H as <-. rewrite (proj2 (sort_by_savings_sorted _)).
    assert (Hu : (length a0 <= 1)%nat).
    { destruct (MLEngine.detect_unused_resources m 5).
      - bind_inv Ha0. injection Ha0 as <-.
        pose proof (append_if_confident_length [] a5 c). cbn in *. lia.
      - injection Ha0 as <-. cbn. lia. }
    do 4 (eapply Nat.le_trans;
          [apply append_if_confident_length | apply (proj1 (Nat.succ_le_mono _ _))]).
    exact Hu.
  - apply List.Forall_forall. intros r Hin.
    destruct (generate_recommendations_inv env w m c recs r H Hin) as (_ & _ & Hc & _).
    exact Hc.
Qed.

Lemma generate_recommendations_sorted_witness :
  exists recs : list Recommendation.t,
    generate_recommendations quoting_collaborator (example_workload "Deployment" 3)
      (example_metrics 50 40) default_min_confidence = Ret recs
    /\ StronglySorted by_savings recs.
Proof.
  eexists. split; [vm_compute; reflexivity|].
  eapply (proj1 (generate_recommendations_sorted quoting_collaborator
                   (example_workload "Deployment" 3) (example_metrics 50 40)
                   default_min_confidence _ _)).
  Unshelve. vm_compute. reflexivity.
Defined.

End RecommenderFacts.

Section RecommenderFamilies.
Local Open Scope Q_scope.
Import Recommender OptimizationType RiskLevel.

Lemma scheduled_weekend_false (m : WorkloadMetrics.t) :
  MLEngine.has_weekend_pattern (MLEngine.detect_patterns m) = false.
Proof. unfold MLEngine.detect_patterns. repeat case_if; reflexivity. Qed.

Lemma optimize_replicas_zero (w : Workload.t) (m : WorkloadMetrics.t) (t : Q) :
  Workload.replicas w = 0%Z ->
  exists e : exn, MLEngine.optimize_replicas w m t = Raise e.
Proof.
  intros Hz. unfold MLEngine.optimize_replicas.
  destruct (MLEngine.proposed_replicas w m t) as [r|e]; [|eauto].
  cbn [mbind res_bind]. rewrite Hz. exists ZeroDivisionError. reflexivity.
Qed.

(** X14. For a workload with no replica, [generate_recommendations] never
    returns a list: whatever the metrics and the pricing service, the
    analysis ends in an exception (the division of the replica step, unless
    an earlier step raises). *)
Theorem generate_recommendations_zero_replicas :
  forall (env : collaborator) (w : Workload.t) (m : WorkloadMetrics.t) (c : Q),
    Workload.replicas w = 0%Z ->
    exists e : exn, generate_recommendations env w m c = Raise e.
Proof.
  intros env w m c Hz. unfold generate_recommendations.
  destruct (CostCalculator.fetch_current_costs _ w None) as [cc|e]; [|eauto].
  cbn [mbind res_bind].
  match goal with
  | |- context [mbind _ (if ?b then ?x else ?y)] => destruct (if b then x else y) as [l|e]
  end; [|eauto].
  cbn [mbind res_bind].
  destruct (_create_right_sizing_recommendation env w m cc) as [rs|e]; [|eauto].
  cbn [mbind res_bind].
  destruct (optimize_replicas_zero w m MLEngine.default_target_utilization Hz) as (e & He).
  unfold _create_replica_optimization_recommendation. rewrite He. eauto.
Qed.

Lemma generate_recommendations_zero_replicas_witness :
  exists e : exn,
    generate_recommendations offline_collaborator (example_workload "Deployment" 0)
      (example_metrics 50 40) default_min_confidence = Raise e.
Proof.
  apply generate_recommendations_zero_replicas. reflexivity.
Defined.

(** The families of [generate_recommendations] by the type they carry. *)
Lemma generated_type (env : collaborator) (w : Workload.t) (m : WorkloadMetrics.t)
    (c : Q) (recs : list Recommendation.t) (r : Recommendation.t) :
  generate_recommendations env w m c = Ret recs ->
  In r recs ->
  exists cc : CostEstimate.t,
    emitted cc r
    /\ (Recommendation.optimization_type r = REMOVE_UNUSED
        \/ Recommendation.optimization_type r = RIGHT_SIZE_CPU
        \/ Recommendation.optimization_type r = REDUCE_REPLICAS
        \/ Recommendation.optimization_type r = INCREASE_REPLICAS
        \/ (Recommendation.optimization_type r = SPOT_INSTANCES
            /\ _create_spot_instance_recommendation env w m cc = Ret (Some r))
        \/ Recommendation.optimization_type r = SCHEDULED_SCALING).
Proof.
  intros Hg Hin.
  destruct (generate_recommendations_inv env w m c recs r Hg Hin)
    as (cc & Hcc & Hconf & [H | [H | [H | [H | H]]]]); exists cc.
  - apply unused_emitted in H. tauto.
  - apply right_sizing_emitted in H. tauto.
  - apply replica_emitted in H. tauto.
  - pose proof (spot_emitted _ _ _ _ _ H). tauto.
  - apply scheduled_emitted in H. tauto.
Qed.

(** X15. [generate_recommendations] builds six of the ten optimization
    types only: never a memory right-sizing, an instance-type change, a
    node consolidation or a move to another region.  A spot recommendation
    is never made for a StatefulSet, a DaemonSet or a single replica. *)
Theorem generate_recommendations_types :
  forall (env : collaborator) (w : Workload.t) (m : WorkloadMetrics.t) (c : Q)
         (recs : list Recommendation.t) (r : Recommendation.t),
    generate_recommendations env w m c = Ret recs ->
    In r recs ->
    In (Recommendation.optimization_type r)
      [ REMOVE_UNUSED; RIGHT_SIZE_CPU; REDUCE_REPLICAS; INCREASE_REPLICAS;
        SPOT_INSTANCES; SCHEDULED_SCALING ]
    /\ (Recommendation.optimization_type r = SPOT_INSTANCES ->
        Workload.kind w <> "StatefulSet" /\ Workload.kind w <> "DaemonSet"
        /\ Workload.replicas w <> 1%Z
        /\ 0.35 <= Recommendation.confidence_score r).
Proof.
  intros env w m c recs r Hg Hin.
  destruct (generated_type env w m c recs r Hg Hin)
    as (cc & _ & [Ht | [Ht | [Ht | [Ht | [[Ht H] | Ht]]]]]);
    rewrite Ht; (split; [cbn; auto 8|]); try discriminate.
  intros _. unfold _create_spot_instance_recommendation in H.
  unfold MLEngine.recommend_spot_instances in H.
  destruct (String.eqb (Workload.kind w) "StatefulSet"
            || String.eqb (Workload.kind w) "DaemonSet") eqn:Ek;
    [cbn in H; discriminate|].
  apply orb_false_iff in Ek. destruct Ek as [E1 E2].
  apply String.eqb_neq in E1. apply String.eqb_neq in E2.
  split; [assumption|]. split; [assumption|].
  destruct (MLEngine.has_burst_pattern (MLEngine.detect_patterns m));
    destruct (Qltb 80 (WorkloadMetrics.cpu_utilization_pct m)
              || Qltb 80 (WorkloadMetrics.memory_utilization_pct m));
    destruct (Workload.replicas w =? 1)%Z eqn:Er;
    cbn [negb] in H; try discriminate;
    (split; [apply Z.eqb_neq; exact Er|]);
    bind_inv H; destruct (Qleb _ 0); try discriminate;
    repeat (bind_inv H); injection H as <-;
    match goal with
    | Hm : Recommendation.make _ = Ret _ |- _ =>
        apply Recommendation_make_inv in Hm; destruct Hm as [-> _]
    end; cbn; lra.
Qed.

Lemma generate_recommendations_types_witness :
  exists (recs : list Recommendation.t) (r : Recommendation.t),
    generate_recommendations quoting_collaborator (example_workload "Deployment" 3)
      (example_metrics 50 40) default_min_confidence = Ret recs
    /\ In r recs
    /\ In (Recommendation.optimization_type r)
         [ REMOVE_UNUSED; RIGHT_SIZE_CPU; REDUCE_REPLICAS; INCREASE_REPLICAS;
           SPOT_INSTANCES; SCHEDULED_SCALING ].
Proof.
  eexists. eexists. split; [vm_compute; reflexivity|].
  split; [left; reflexivity|].
  match goal with
  | |- In (Recommendation.optimization_type ?r) _ =>
      exact (proj1 (generate_recommendations_types quoting_collaborator
                      (example_workload "Deployment" 3) (example_metrics 50 40)
                      default_min_confidence _ r
                      ltac:(vm_compute; reflexivity) ltac:(left; reflexivity)))
  end.
Defined.

(** X16. A scheduled-scaling recommendation is made only on the
    business-hours pattern; its savings are a quarter of the current
    monthly cost, its optimized monthly cost the other three quarters, its
    confidence 0.75, and it keeps at least one replica off peak. *)
Theorem scheduled_scaling_quarter :
  forall (env : collaborator) (w : Workload.t) (m : WorkloadMetrics.t) (c : Q)
         (recs : list Recommendation.t) (r : Recommendation.t),
    generate_recommendations env w m c = Ret recs ->
    In r recs ->
    Recommendation.optimization_type r = SCHEDULED_SCALING ->
    MLEngine.has_business_hours_pattern (MLEngine.detect_patterns m) = true
    /\ Recommendation.monthly_savings r
       == (1 # 4) * CostEstimate.monthly (Recommendation.current_cost r)
    /\ CostEstimate.monthly (Recommendation.optimized_cost r)
       == (3 # 4) * CostEstimate.monthly (Recommendation.current_cost r)
    /\ Recommendation.confidence_score r = 0.75
    /\ Dict.get "off_peak_replicas" (Recommendation.recommended_config r)
       = Some (jint (Z.max 1 (int_of_float (inject_Z (Workload.replicas w) * 0.5)))).
Proof.
  intros env w m c recs r Hg Hin Ht.
  destruct (generate_recommendations_inv env w m c recs r Hg Hin)
    as (cc & Hcc & Hconf & [H | [H | [H | [H | H]]]]).
  - apply unused_emitted in H. destruct H as (_ & Ht' & _). congruence.
  - apply right_sizing_emitted in H. destruct H as (_ & Ht' & _). congruence.
  - apply replica_emitted in H. destruct H as (_ & [Ht' | Ht'] & _); congruence.
  - apply spot_emitted in H. destruct H as (_ & Ht' & _). congruence.
  - unfold _create_scheduled_scaling_recommendation,
      MLEngine.detect_scheduled_scaling_opportunity in H.
    destruct (MLEngine.has_business_hours_pattern (MLEngine.detect_patterns m)).
    2:{ destruct (MLEngine.has_weekend_pattern (MLEngine.detect_patterns m)) eqn:Ew.
        - pose proof (scheduled_weekend_false m). congruence.
        - cbn in H. discriminate. }
    cbn [MLEngine.suitable negb MLEngine.off_peak_scale_down MLEngine.strategy
         MLEngine.peak_hours MLEngine.so_confidence] in H.
    destruct (Qleb _ 0); [discriminate|].
    repeat (bind_inv H). injection H as <-.
    apply Recommendation_make_inv in Ha0. destruct Ha0 as [-> _].
    cbn [Recommendation.monthly_savings Recommendation.current_cost
         Recommendation.optimized_cost Recommendation.confidence_score
         Recommendation.recommended_config CostEstimate.monthly].
    split; [reflexivity|]. split; [ring|]. split; [ring|]. split; [reflexivity|].
    reflexivity.
Qed.

Lemma scheduled_scaling_quarter_witness :
  exists (recs : list Recommendation.t) (r : Recommendation.t),
    generate_recommendations offline_collaborator (example_workload "Deployment" 3)
      office_hours_metrics default_min_confidence = Ret recs
    /\ In r recs
    /\ Recommendation.confidence_score r = 0.75.
Proof.
  eexists. eexists. split; [vm_compute; reflexivity|].
  split; [right; left; reflexivity|].
  match goal with
  | |- Recommendation.confidence_score ?r = _ =>
      exact (proj1 (proj2 (proj2 (proj2
               (scheduled_scaling_quarter offline_collaborator
                  (example_workload "Deployment" 3) office_hours_metrics
                  default_min_confidence _ r
                  ltac:(vm_compute; reflexivity) ltac:(right; left; reflexivity)
                  ltac:(reflexivity))))))
  end.
Defined.

End RecommenderFamilies.

Section ScaleUp.
Local Open Scope Q_scope.
Import Recommender OptimizationType RiskLevel CostCalculator.

Lemma linear_estimate_inv (cpu gb r : Q) (c : CostEstimate.t) :
  linear_estimate cpu gb r = Ret c ->
  CostEstimate.monthly c = (cpu * 0.04 + gb * 0.005) * r * 730
  /\ 0 <= (cpu * 0.04 + gb * 0.005) * r.
Proof.
  unfold linear_estimate. intros H. bind_inv H.
  apply CostBreakdown_make_valid in Ha. destruct Ha as [_ Hb].
  pose proof (CostEstimate_make_valid _ _ _ _ _ _ Hb H) as [-> Hv].
  split; [reflexivity|]. destruct Hv as (Hh & _). exact Hh.
Qed.

(** With the pricing service out of reach, the current cost is the linear
    estimate of the parsed requests. *)
Lemma fetch_current_costs_offline (post : pricing_service) (w : Workload.t)
    (cc : CostEstimate.t) :
  pricing_unavailable post ->
  fetch_current_costs post w None = Ret cc ->
  exists (cpu : Q) (mem : Z),
    _parse_cpu (ResourceSpec.cpu_request (Workload.current_resources w)) = Ret cpu
    /\ _parse_memory (ResourceSpec.memory_request (Workload.current_resources w)) = Ret mem
    /\ linear_estimate cpu (inject_Z mem / bytes_per_gb)
         (inject_Z (Workload.replicas w)) = Ret cc.
Proof.
  intros Hdown H. unfold fetch_current_costs in H.
  bind_inv H. bind_inv H. rename a0 into cpu. bind_inv H. rename a0 into mem.
  exists cpu, mem. split; [assumption|]. split; [assumption|].
  cbv zeta in H.
  match type of H with
  | try_except (priced (post ?u ?q) ?n) _ = _ => destruct (Hdown u q n) as (e & He)
  end.
  rewrite He in H. cbn [try_except] in H.
  unfold _fallback_cost_estimate in H. rewrite Ha0, Ha1 in H. exact H.
Qed.

Lemma calculate_optimized_costs_offline (post : pricing_service) (w : Workload.t)
    (rr : Z) (cpu : Q) (mem : Z) (oc : CostEstimate.t) :
  pricing_unavailable post ->
  _parse_cpu (ResourceSpec.cpu_request (Workload.current_resources w)) = Ret cpu ->
  _parse_memory (ResourceSpec.memory_request (Workload.current_resources w)) = Ret mem ->
  calculate_optimized_costs post w
    (Dict.merge (resources_dict (Workload.current_resources w)) [ ("replicas", jint rr) ])
    None = Ret oc ->
  linear_estimate cpu (inject_Z mem / bytes_per_gb) (inject_Z rr) = Ret oc.
Proof.
  intros Hdown Hc Hm H.
  unfold calculate_optimized_costs, _infer_instance_type_from_config,
    _fallback_optimized_cost_estimate, config_replicas in H.
  cbn [Dict.merge resources_dict fold_left Dict.set Dict.get_default Dict.get
       String.eqb Ascii.eqb Bool.eqb fst snd jint Json.str Json.number
       mbind res_bind] in H.
  rewrite Hc, Hm in H. cbn [mbind res_bind] in H.
  match type of H with
  | try_except (priced (post ?u ?q) ?n) _ = _ => destruct (Hdown u q n) as (e & He)
  end.
  rewrite He in H. exact H.
Qed.

Lemma optimize_replicas_negative (w : Workload.t) (m : WorkloadMetrics.t) (t : Q)
    (rr : Z) (conf : Q) :
  (Workload.replicas w < 0)%Z ->
  MLEngine.optimize_replicas w m t = Ret (rr, conf) ->
  rr = Workload.replicas w.
Proof.
  intros Hn H.
  destruct (MLEngine.proposed_replicas w m t) as [r|e] eqn:Ep.
  - rewrite (optimize_replicas_rule w m t r ltac:(lia) Ep) in H.
    assert (Hq : inject_Z (Z.abs (r - Workload.replicas w))
                 / inject_Z (Workload.replicas w) <= 0).
    { assert (Ha : 0 <= inject_Z (Z.abs (r - Workload.replicas w))).
      { change 0 with (inject_Z 0). rewrite <- Zle_Qle. lia. }
      assert (Hb : inject_Z (Workload.replicas w) < 0).
      { change 0 with (inject_Z 0). rewrite <- Zlt_Qlt. lia. }
      assert (Hx : inject_Z (Z.abs (r - Workload.replicas w))
                   / inject_Z (Workload.replicas w) * inject_Z (Workload.replicas w)
                   == inject_Z (Z.abs (r - Workload.replicas w))) by (field; lra).
      destruct (Qlt_le_dec 0 (inject_Z (Z.abs (r - Workload.replicas w))
                              / inject_Z (Workload.replicas w))); [nra | assumption]. }
    rewrite (proj2 (Qltb_true _ _)) in H by lra.
    injection H as <- _. reflexivity.
  - unfold MLEngine.optimize_replicas in H. rewrite Ep in H. discriminate.
Qed.

(** X17. With the pricing service out of reach for the current and for
    the replica estimate, [generate_recommendations] never recommends more
    replicas: under the linear fall-back estimate a larger count cannot
    cost less. *)
Theorem no_scale_up_when_pricing_unavailable :
  forall (env : collaborator) (w : Workload.t) (m : WorkloadMetrics.t) (c : Q)
         (recs : list Recommendation.t) (r : Recommendation.t),
    pricing_unavailable (post_current env) ->
    pricing_unavailable (post_replicas env) ->
    generate_recommendations env w m c = Ret recs ->
    In r recs ->
    Recommendation.optimization_type r <> INCREASE_REPLICAS.
Proof.
  intros env w m c recs r Hd1 Hd2 Hg Hin Ht.
  destruct (generate_recommendations_inv env w m c recs r Hg Hin)
    as (cc & Hcc & Hconf & [H | [H | [H | [H | H]]]]).
  - apply unused_emitted in H. destruct H as (_ & Ht' & _). congruence.
  - apply right_sizing_emitted in H. destruct H as (_ & Ht' & _). congruence.
  - destruct (fetch_current_costs_offline _ w cc Hd1 Hcc) as (cpu & mem & Hc & Hm & Hl).
    unfold _create_replica_optimization_recommendation in H.
    bind_inv H. destruct a as [rr conf].
    destruct (rr =? Workload.replicas w)%Z eqn:En; [discriminate|].
    apply Z.eqb_neq in En.
    bind_inv H. rename a into oc.
    pose proof (calculate_optimized_costs_offline _ w rr cpu mem oc Hd2 Hc Hm Ha0) as Ho.
    destruct (Qleb _ 0) eqn:Es; [discriminate|]. apply Qleb_false in Es.
    bind_inv H. bind_inv H. injection H as <-.
    match goal with
    | Hm : Recommendation.make _ = Ret _ |- _ =>
        apply Recommendation_make_inv in Hm; destruct Hm as [-> _]
    end.
    cbn [Recommendation.optimization_type] in Ht.
    destruct (rr <? Workload.replicas w)%Z eqn:El; [discriminate|].
    apply Z.ltb_ge in El.
    apply linear_estimate_inv in Hl. destruct Hl as [Hmc Hvc].
    apply linear_estimate_inv in Ho. destruct Ho as [Hmo Hvo].
    rewrite Hmc, Hmo in Es.
    set (rate := cpu * 0.04 + inject_Z mem / bytes_per_gb * 0.005) in *.
    assert (Hlt : inject_Z (Workload.replicas w) < inject_Z rr).
    { rewrite <- Zlt_Qlt. lia. }
    assert (Hneg : (Workload.replicas w < 0)%Z).
    { apply inject_Z_lt_inv. change (inject_Z 0) with 0.
      destruct (Qlt_le_dec (inject_Z (Workload.replicas w)) 0); [assumption|]. nra. }
    apply En. eapply optimize_replicas_negative; eassumption.
  - apply spot_emitted in H. destruct H as (_ & Ht' & _). congruence.
  - apply scheduled_emitted in H. destruct H as (_ & Ht' & _). congruence.
Qed.

Lemma no_scale_up_when_pricing_unavailable_witness :
  exists (recs : list Recommendation.t) (r : Recommendation.t),
    generate_recommendations offline_collaborator (example_workload "Deployment" 3)
      (example_metrics 50 40) default_min_confidence = Ret recs
    /\ In r recs
    /\ Recommendation.optimization_type r <> INCREASE_REPLICAS.
Proof.
  eexists. eexists. split; [vm_compute; reflexivity|].
  split; [left; reflexivity|].
  match goal with
  | |- Recommendation.optimization_type ?r <> _ =>
      exact (no_scale_up_when_pricing_unavailable offline_collaborator
               (example_workload "Deployment" 3) (example_metrics 50 40)
               default_min_confidence _ r
               (fun _ _ _ => ex_intro _ HTTPError eq_refl)
               (fun _ _ _ => ex_intro _ HTTPError eq_refl)
               ltac:(vm_compute; reflexivity) ltac:(left; reflexivity))
  end.
Defined.

End ScaleUp.

(** ** The optimizer API: filters of the optimize endpoint *)

Section Endpoint.
Local Open Scope Q_scope.
Import OptimizerApi OptimizationType RiskLevel.

Lemma within_risk_spec (q : OptimizeWorkloadRequest) (r : Recommendation.t) :
  within_risk q r = true
  <-> passes_risk_filter (max_risk_level q)
        (RiskAssessment.level (Recommendation.risk_assessment r)).
Proof.
  unfold within_risk, passes_risk_filter.
  destruct (max_risk_level q);
    destruct (RiskAssessment.level (Recommendation.risk_assessment r));
    vm_compute; intuition (discriminate || congruence).
Qed.

Lemma sum_savings_acc (l : list Recommendation.t) (acc : Q) :
  fold_left (fun a r => a + Recommendation.monthly_savings r) l acc
  == acc + sum_savings l.
Proof.
  unfold sum_savings. revert acc.
  induction l as [|r l IH]; intros acc; cbn [fold_left]; [ring|].
  rewrite IH, (IH (0 + _)). ring.
Qed.

Lemma sum_savings_nonneg (l : list Recommendation.t) :
  Forall (fun r => 0 <= Recommendation.monthly_savings r) l -> 0 <= sum_savings l.
Proof.
  induction 1 as [|r l Hr _ IH]; [unfold sum_savings; cbn; lra|].
  unfold sum_savings. cbn [fold_left]. rewrite sum_savings_acc. lra.
Qed.

(** What the endpoint returns, in terms of the list of the recommender. *)
Lemma optimize_workload_inv env w m request resp :
  optimize_workload env w m request = Ret resp ->
  exists recs : list Recommendation.t,
    Recommender.generate_recommendations env w m
      (match request with Some q => min_confidence q | None => 0.6 end) = Ret recs
    /\ total_potential_savings resp = sum_savings (recommendations resp)
    /\ forall r : Recommendation.t,
         In r (recommendations resp)
         <-> In r recs
             /\ match request with
                | Some q =>
                    within_risk q r = true
                    /\ match optimization_types q with
                       | Some (t :: ts) => of_type (t :: ts) r = true
                       | _ => True
                       end
                | None => True
                end.
Proof.
  unfold optimize_workload. intros H. bind_inv H. rename a into recs.
  injection H as <-. exists recs. split; [assumption|]. split; [reflexivity|].
  intros r. cbn [recommendations].
  destruct request as [q|]; [|tauto].
  destruct (optimization_types q) as [[|t ts]|];
    rewrite ?filter_In; tauto.
Qed.

End Endpoint.

Section EndpointFacts.
Local Open Scope Q_scope.
Import OptimizerApi OptimizationType RiskLevel.

Lemma no_member_nil {A : Type} (l : list A) : (forall x, ~ In x l) -> l = [].
Proof. destruct l as [|x l]; [reflexivity|]. intros H. destruct (H x). left. reflexivity. Qed.

Lemma filter_all {A : Type} (f : A -> bool) (l : list A) :
  (forall x, In x l -> f x = true) -> List.filter f l = l.
Proof.
  induction l as [|x l IH]; intros H; cbn [List.filter]; [reflexivity|].
  rewrite (H x (or_introl eq_refl)), IH; [reflexivity|].
  intros y Hy. apply H. right. exact Hy.
Qed.

(** X18. The risk bound of the optimize endpoint compares the names of
    the levels as strings (critical < high < low < medium).  Of the
    recommendations of the recommender, the bound medium keeps all, the
    bound low keeps the low and the high ones, the bound high keeps the
    high ones only, and the bound critical keeps none. *)
Theorem optimize_workload_risk_filter :
  forall (env : Recommender.collaborator) (w : Workload.t) (m : WorkloadMetrics.t)
         (q : OptimizeWorkloadRequest) (resp : OptimizeResponse),
    optimization_types q = None ->
    optimize_workload env w m (Some q) = Ret resp ->
    exists recs : list Recommendation.t,
      Recommender.generate_recommendations env w m (min_confidence q) = Ret recs
      /\ (forall r : Recommendation.t,
             In r (recommendations resp)
             <-> In r recs
                 /\ let level := RiskAssessment.level (Recommendation.risk_assessment r) in
                    match max_risk_level q with
                    | LOW => level = LOW \/ level = HIGH
                    | MEDIUM => True
                    | HIGH => level = HIGH
                    | CRITICAL => False
                    end)
      /\ (max_risk_level q = MEDIUM -> recommendations resp = recs)
      /\ (max_risk_level q = CRITICAL -> recommendations resp = []).
Proof.
  intros env w m q resp Hty H.
  destruct (optimize_workload_inv env w m (Some q) resp H) as (recs & Hg & _ & Hin).
  rewrite Hty in Hin. exists recs. split; [assumption|].
  assert (Hlev : forall r, In r recs ->
            RiskAssessment.level (Recommendation.risk_assessment r) <> CRITICAL).
  { intros r Hr. destruct (generated_type env w m _ recs r Hg Hr) as (cc & [_ _ _ Hl _] & _).
    exact Hl. }
  assert (Hiff : forall r : Recommendation.t,
             In r (recommendations resp)
             <-> In r recs
                 /\ let level := RiskAssessment.level (Recommendation.risk_assessment r) in
                    match max_risk_level q with
                    | LOW => level = LOW \/ level = HIGH
                    | MEDIUM => True
                    | HIGH => level = HIGH
                    | CRITICAL => False
                    end).
  { intros r. rewrite Hin, within_risk_spec. unfold passes_risk_filter. cbv zeta.
    split.
    - intros [Hr [Hp _]]. split; [assumption|]. specialize (Hlev r Hr).
      destruct (max_risk_level q);
        destruct (RiskAssessment.level (Recommendation.risk_assessment r));
        intuition congruence.
    - intros [Hr Hp]. split; [assumption|]. split; [|exact I].
      destruct (max_risk_level q);
        destruct (RiskAssessment.level (Recommendation.risk_assessment r));
        intuition congruence. }
  split; [exact Hiff|]. split.
  - intros Hm. unfold optimize_workload in H. rewrite Hg, Hty in H.
    cbn [mbind res_bind] in H. injection H as <-. cbn [recommendations].
    apply filter_all. intros r Hr. apply within_risk_spec. rewrite Hm. exact I.
  - intros Hc. apply no_member_nil. intros r Hr. apply Hiff in Hr.
    rewrite Hc in Hr. tauto.
Qed.

Lemma optimize_workload_risk_filter_witness :
  exists resp : OptimizeResponse,
    optimize_workload offline_collaborator hot_stateful_workload hot_small_metrics
      (Some (risk_request LOW)) = Ret resp
    /\ recommendations resp <> []
    /\ forall r : Recommendation.t,
         In r (recommendations resp) ->
         RiskAssessment.level (Recommendation.risk_assessment r) = LOW
         \/ RiskAssessment.level (Recommendation.risk_assessment r) = HIGH.
Proof.
  eexists. split; [vm_compute; reflexivity|].
  split; [discriminate|].
  match goal with
  | |- forall r, In r (recommendations ?resp) -> _ =>
      destruct (optimize_workload_risk_filter offline_collaborator
                  hot_stateful_workload hot_small_metrics (risk_request LOW) resp
                  ltac:(reflexivity) ltac:(vm_compute; reflexivity))
        as (recs & _ & Hiff & _)
  end.
  intros r Hr. apply Hiff in Hr. exact (proj2 Hr).
Defined.

Lemma of_type_spec (types : list OptimizationType.t) (r : Recommendation.t) :
  of_type types r = true <-> In (Recommendation.optimization_type r) types.
Proof.
  unfold of_type. rewrite existsb_exists. split.
  - intros (t & Ht & E). apply bool_decide_eq_true in E. rewrite E. exact Ht.
  - intros H. exists (Recommendation.optimization_type r). split; [exact H|].
    apply bool_decide_eq_true. reflexivity.
Qed.

(** The types of the recommendations the endpoint returns under a
    non-empty list of types. *)
Lemma optimize_workload_returned_types env w m q t ts resp r :
  optimization_types q = Some (t :: ts) ->
  optimize_workload env w m (Some q) = Ret resp ->
  In r (recommendations resp) ->
  In (Recommendation.optimization_type r) (t :: ts)
  /\ In (Recommendation.optimization_type r)
       [ REMOVE_UNUSED; RIGHT_SIZE_CPU; REDUCE_REPLICAS; INCREASE_REPLICAS;
         SPOT_INSTANCES; SCHEDULED_SCALING ].
Proof.
  intros Hty H Hr.
  destruct (optimize_workload_inv env w m (Some q) resp H) as (recs & Hg & Htot & Hin).
  rewrite Hty in Hin. apply Hin in Hr. destruct Hr as (Hr & _ & Ht).
  split; [apply of_type_spec; exact Ht|].
  destruct (generated_type env w m _ recs r Hg Hr) as (cc & _ & Hs).
  cbn [In]. intuition.
Qed.

(** X19. With a non-empty list of types in the request, the optimize
    endpoint returns only recommendations of a listed type, and the
    recommender produces six types only: a request that lists none of
    these six (memory right-sizing, instance type change, node
    consolidation, cheaper region) gets an empty list and zero savings.
    An empty list of types does not filter at all. *)
Theorem optimize_workload_type_filter :
  forall (env : Recommender.collaborator) (w : Workload.t) (m : WorkloadMetrics.t)
         (q : OptimizeWorkloadRequest) (types : list OptimizationType.t)
         (resp : OptimizeResponse),
    optimization_types q = Some types ->
    optimize_workload env w m (Some q) = Ret resp ->
    (types <> [] ->
     (forall r : Recommendation.t,
         In r (recommendations resp) ->
         In (Recommendation.optimization_type r) types
         /\ In (Recommendation.optimization_type r)
              [ REMOVE_UNUSED; RIGHT_SIZE_CPU; REDUCE_REPLICAS; INCREASE_REPLICAS;
                SPOT_INSTANCES; SCHEDULED_SCALING ])
     /\ ((forall t : OptimizationType.t,
             In t types ->
             In t [ RIGHT_SIZE_MEMORY; CHANGE_INSTANCE_TYPE; CONSOLIDATE_NODES;
                    MOVE_TO_CHEAPER_REGION ]) ->
         recommendations resp = [] /\ total_potential_savings resp = 0))
    /\ (types = [] ->
        optimize_workload env w m
          (Some (mkRequest None (min_confidence q) (max_risk_level q))) = Ret resp).
Proof.
  intros env w m q types resp Hty H. split.
  - intros Hne.
    destruct (optimize_workload_inv env w m (Some q) resp H) as (recs & Hg & Htot & Hin).
    rewrite Hty in Hin. destruct types as [|t ts]; [congruence|].
    assert (Hall : forall r : Recommendation.t,
               In r (recommendations resp) ->
               In (Recommendation.optimization_type r) (t :: ts)
               /\ In (Recommendation.optimization_type r)
                    [ REMOVE_UNUSED; RIGHT_SIZE_CPU; REDUCE_REPLICAS; INCREASE_REPLICAS;
                      SPOT_INSTANCES; SCHEDULED_SCALING ]).
    { intros r Hr. apply (optimize_workload_returned_types env w m q t ts resp r Hty H Hr). }
    split; [exact Hall|].
    intros Hout.
    assert (E : recommendations resp = []).
    { apply no_member_nil. intros r Hr. destruct (Hall r Hr) as [H1 H2].
      apply Hout in H1. cbn [In] in H1, H2.
      destruct (Recommendation.optimization_type r); intuition discriminate. }
    split; [exact E|]. rewrite Htot, E. reflexivity.
  - intros ->. unfold optimize_workload in *. cbn [min_confidence max_risk_level
      optimization_types]. rewrite Hty in H. exact H.
Qed.

Lemma optimize_workload_type_filter_witness :
  exists resp : OptimizeResponse,
    optimize_workload quoting_collaborator (example_workload "Deployment" 3)
      (example_metrics 50 40) (Some (operator_request 0.6 [RIGHT_SIZE_MEMORY])) = Ret resp
    /\ recommendations resp = [] /\ total_potential_savings resp = 0.
Proof.
  eexists. split; [vm_compute; reflexivity|].
  match goal with
  | |- recommendations ?resp = [] /\ _ =>
      refine (proj2 (proj1 (optimize_workload_type_filter quoting_collaborator
                (example_workload "Deployment" 3) (example_metrics 50 40)
                (operator_request 0.6 [RIGHT_SIZE_MEMORY]) [RIGHT_SIZE_MEMORY] resp
                ltac:(reflexivity) ltac:(vm_compute; reflexivity))
                ltac:(discriminate)) _)
  end.
  intros t [<- | []]. left. reflexivity.
Defined.

Lemma filter_sorted {A : Type} (R : A -> A -> Prop) (f : A -> bool) (l : list A) :
  StronglySorted R l -> StronglySorted R (List.filter f l).
Proof.
  induction 1 as [|x l Hs IH Hx]; cbn [List.filter]; [constructor|].
  destruct (f x); [|exact IH]. constructor; [exact IH|].
  apply List.Forall_forall. intros y Hy. apply filter_In in Hy.
  rewrite List.Forall_forall in Hx. apply Hx. tauto.
Qed.

Lemma generate_recommendations_order env w m c recs :
  Recommender.generate_recommendations env w m c = Ret recs ->
  StronglySorted by_savings recs.
Proof.
  intros H. unfold Recommender.generate_recommendations in H. repeat (bind_inv H).
  injection H as <-. apply sort_by_savings_sorted.
Qed.

Lemma sum_savings_member (l : list Recommendation.t) (r : Recommendation.t) :
  Forall (fun r => 0 <= Recommendation.monthly_savings r) l ->
  In r l -> Recommendation.monthly_savings r <= sum_savings l.
Proof.
  induction 1 as [|x l Hx Hl IH]; intros Hin; [destruct Hin|].
  unfold sum_savings. cbn [fold_left]. rewrite sum_savings_acc.
  pose proof (sum_savings_nonneg l Hl) as Hn.
  destruct Hin as [-> | Hin]; [lra|]. specialize (IH Hin). lra.
Qed.

(** The filters of the endpoint keep the order of the recommender. *)
Lemma optimize_workload_sorted env w m request resp :
  optimize_workload env w m request = Ret resp ->
  StronglySorted by_savings (recommendations resp).
Proof.
  intros H.
  destruct (optimize_workload_inv env w m request resp H) as (recs & Hg & _ & _).
  pose proof (generate_recommendations_order env w m _ recs Hg) as Hs.
  unfold optimize_workload in H. rewrite Hg in H. cbn [mbind res_bind] in H.
  injection H as <-. cbn [recommendations].
  destruct request as [q|]; [|exact Hs].
  destruct (optimization_types q) as [[|t ts]|];
    repeat apply filter_sorted; exact Hs.
Qed.

(** X20. Whatever the request, the recommendations the optimize endpoint
    returns stay in decreasing order of monthly savings, each of them
    saves between zero and the total the response reports, and that total
    is the sum over the returned (filtered) list.  Without a request body
    the list is the one of the recommender at confidence 0.6. *)
Theorem optimize_workload_total :
  forall (env : Recommender.collaborator) (w : Workload.t) (m : WorkloadMetrics.t)
         (request : option OptimizeWorkloadRequest) (resp : OptimizeResponse),
    optimize_workload env w m request = Ret resp ->
    StronglySorted by_savings (recommendations resp)
    /\ total_potential_savings resp = sum_savings (recommendations resp)
    /\ Forall (fun r => 0 <= Recommendation.monthly_savings r
                        /\ Recommendation.monthly_savings r
                           <= total_potential_savings resp)
         (recommendations resp)
    /\ (request = None ->
        Recommender.generate_recommendations env w m 0.6 = Ret (recommendations resp)).
Proof.
  intros env w m request resp H.
  destruct (optimize_workload_inv env w m request resp H) as (recs & Hg & Htot & Hin).
  assert (Hnn : Forall (fun r => 0 <= Recommendation.monthly_savings r)
                  (recommendations resp)).
  { apply List.Forall_forall. intros r Hr. apply Hin in Hr. destruct Hr as [Hr _].
    destruct (generated_type env w m _ recs r Hg Hr) as (cc & [_ Hs _ _ _] & _).
    exact Hs. }
  split; [|split; [exact Htot|split]].
  - apply (optimize_workload_sorted env w m request resp H).
  - apply List.Forall_forall. intros r Hr. split.
    + rewrite List.Forall_forall in Hnn. apply Hnn. exact Hr.
    + rewrite Htot. apply sum_savings_member; assumption.
  - intros ->. unfold optimize_workload in H. rewrite Hg in H.
    cbn [mbind res_bind] in H. injection H as <-. exact Hg.
Qed.

Lemma optimize_workload_total_witness :
  exists resp : OptimizeResponse,
    optimize_workload quoting_collaborator (example_workload "Deployment" 3)
      (example_metrics 50 40) None = Ret resp
    /\ StronglySorted by_savings (recommendations resp).
Proof.
  eexists. split; [vm_compute; reflexivity|].
  match goal with
  | |- StronglySorted _ (recommendations ?resp) =>
      exact (proj1 (optimize_workload_total quoting_collaborator
                      (example_workload "Deployment" 3) (example_metrics 50 40)
                      None resp ltac:(vm_compute; reflexivity)))
  end.
Defined.

End EndpointFacts.

(** ** The operator: what a tick, an apply and a rollback leave behind *)

Section OperatorFacts.
Import K8s Handlers RollbackHandler OptimizationHandler Operator.

Lemma no_opportunity_phase patch now w :
  phase_of (no_opportunity patch now w) = Some (JStr "Ready").
Proof.
  unfold phase_of, no_opportunity. cbn [patch_status].
  rewrite !phase_set_over by discriminate. apply phase_set.
Qed.

Lemma failed_quiet patch e w :
  world (failed patch e w) = w /\ events (failed patch e w) = []
  /\ (phase_of (failed patch e w) = Some (JStr "Ready")
      \/ phase_of (failed patch e w) = Some (JStr "Failed")).
Proof. split; [reflexivity|]. split; [reflexivity|]. right. apply failed_phase. Qed.

(** The gate of a declaration that is in dry-run mode or does not ask for
    automatic application. *)
Lemma gate_without_auto_apply patch spec status wn wk wns recommendation savings text now w :
  Json.truthy (Dict.get_default "dryRun" (JBool true) spec) = true
  \/ Json.truthy (Dict.get_default "autoApply" (JBool false) spec) = false ->
  let o := gate patch spec status wn wk wns recommendation savings text now w in
  world o = w /\ events o = []
  /\ (phase_of o = Some (JStr "Ready") \/ phase_of o = Some (JStr "Failed")).
Proof.
  intros Hs o. subst o. unfold gate.
  match goal with
  | |- context [match ?b with Ret _ => _ | Raise _ => _ end] =>
      destruct b as [[[[risk_level confidence] max_risk] current_risk] | e]
  end; [|apply failed_quiet].
  assert (E : Json.truthy (Dict.get_default "autoApply" (JBool false) spec)
              && negb (Json.truthy (Dict.get_default "dryRun" (JBool true) spec)) = false).
  { destruct Hs as [-> | ->]; [apply andb_false_r | reflexivity]. }
  rewrite E. split; [reflexivity|]. split; [reflexivity|]. left.
  unfold phase_of. cbn [patch_status].
  rewrite phase_set_over by discriminate. apply phase_set.
Qed.

(** A tick outside the apply path. *)
Lemma tick_without_auto_apply spec status ns recommendation now w :
  Json.truthy (Dict.get_default "dryRun" (JBool true) spec) = true
  \/ Json.truthy (Dict.get_default "autoApply" (JBool false) spec) = false ->
  let o := periodic_optimization_check spec status ns recommendation now w in
  world o = w
  /\ events o = []
  /\ (phase_of o = Some (JStr "Ready") \/ phase_of o = Some (JStr "Failed")).
Proof.
  intros Hs o. subst o.
  unfold periodic_optimization_check.
  match goal with
  | |- context [match ?b with Ret _ => _ | Raise _ => _ end] =>
      destruct b as [[[wn wk] wns] | e]
  end; [|apply failed_quiet].
  destruct recommendation as [recommendation|];
    [|split; [reflexivity|]; split; [reflexivity|]; left; apply no_opportunity_phase].
  destruct (negb (Json.truthy recommendation));
    [split; [reflexivity|]; split; [reflexivity|]; left; apply no_opportunity_phase|].
  match goal with
  | |- context [match ?b with Ret _ => _ | Raise _ => _ end] =>
      destruct b as [[[savings text] summary] | e]
  end; [|apply failed_quiet].
  apply gate_without_auto_apply. exact Hs.
Qed.

(** X21. A tick of a declaration that is in dry-run mode (the default when
    [dryRun] is absent) or whose [autoApply] is false or absent never
    changes the cluster, the cache or the ConfigMaps, posts no event, and
    leaves the phase Ready or Failed, whatever the recommendation is. *)
Theorem periodic_check_safe_without_auto_apply :
  forall (spec status : Dict.t) (ns : string) (recommendation : option json)
         (now : string) (w : World.t),
    Json.truthy (Dict.get_default "dryRun" (JBool true) spec) = true
    \/ Json.truthy (Dict.get_default "autoApply" (JBool false) spec) = false ->
    let o := periodic_optimization_check spec status ns recommendation now w in
    world o = w
    /\ events o = []
    /\ (phase_of o = Some (JStr "Ready") \/ phase_of o = Some (JStr "Failed")).
Proof.
  intros spec status ns recommendation now w Hs.
  apply tick_without_auto_apply. exact Hs.
Qed.

Lemma periodic_check_safe_without_auto_apply_witness :
  world (periodic_optimization_check [] [] "default" (Some low_risk_payload)
           "2024-01-01T00:00:00" (world_with sized_deployment))
  = world_with sized_deployment.
Proof.
  exact (proj1 (periodic_check_safe_without_auto_apply [] [] "default"
                  (Some low_risk_payload) "2024-01-01T00:00:00"
                  (world_with sized_deployment) ltac:(left; reflexivity))).
Defined.

(** *** [apply_optimization] *)


Lemma apply_deployment_inv name ns config now w r w' :
  _apply_deployment_optimization name ns config now w = (r, w') ->
  (r = false /\ w' = w)
  \/ (r = true
      /\ exists o body : Object,
           World.deployments w !! (ns, name) = Some o
           /\ optimized config now o = Ret body
           /\ w' = World.set_deployment ns name body w).
Proof.
  unfold _apply_deployment_optimization, World.read_namespaced_deployment,
    World.patch_namespaced_deployment.
  destruct (World.deployments w !! (ns, name)) as [o|] eqn:Eo; cbn [mbind res_bind];
    [|intros [= <- <-]; left; split; reflexivity].
  destruct (optimized config now o) as [body|e] eqn:Eb; cbn [mbind res_bind];
    [|intros [= <- <-]; left; split; reflexivity].
  intros [= <- <-]. right. split; [reflexivity|]. exists o, body. auto.
Qed.

Lemma apply_statefulset_inv name ns config now w r w' :
  _apply_statefulset_optimization name ns config now w = (r, w') ->
  (r = false /\ w' = w)
  \/ (r = true
      /\ exists o body : Object,
           World.stateful_sets w !! (ns, name) = Some o
           /\ optimized config now o = Ret body
           /\ w' = World.set_stateful_set ns name body w).
Proof.
  unfold _apply_statefulset_optimization, World.read_namespaced_stateful_set,
    World.patch_namespaced_stateful_set.
  destruct (World.stateful_sets w !! (ns, name)) as [o|] eqn:Eo; cbn [mbind res_bind];
    [|intros [= <- <-]; left; split; reflexivity].
  destruct (optimized config now o) as [body|e] eqn:Eb; cbn [mbind res_bind];
    [|intros [= <- <-]; left; split; reflexivity].
  intros [= <- <-]. right. split; [reflexivity|]. exists o, body. auto.
Qed.

(** The shape of every result of [apply_optimization] outside dry-run
    mode. *)
Lemma apply_optimization_inv name kind ns recommendation now w r w1 :
  apply_optimization name kind ns recommendation false now w = (r, w1) ->
  (r = false /\ w1 = w /\ _get_workload name kind ns w = None)
  \/ exists o : Object,
       _get_workload name kind ns w = Some o
       /\ let ws := snd (store_original_state name kind ns o now w) in
          (r = false /\ w1 = ws)
          \/ (r = true
              /\ exists (config : json) (body : Object),
                   optimized config now o = Ret body
                   /\ ((kind = "Deployment"
                        /\ w1 = World.set_deployment ns name body ws)
                       \/ (kind = "StatefulSet"
                           /\ w1 = World.set_stateful_set ns name body ws))).
Proof.
  unfold apply_optimization.
  destruct (_get_workload name kind ns w) as [o|] eqn:Eo;
    [|intros [= <- <-]; left; auto].
  intros H. right. exists o. split; [reflexivity|]. cbv zeta.
  cbn [negb] in H.
  set (ws := snd (store_original_state name kind ns o now w)) in *.
  destruct (get_of recommendation "recommended_config" (JObj [])) as [config|e];
    [|injection H as <- <-; left; auto].
  destruct (get_of recommendation "optimization_type" (JStr "")) as [ty|e];
    [|injection H as <- <-; left; auto].
  destruct (String.eqb_spec kind "Deployment") as [Ek|Ek].
  - apply apply_deployment_inv in H.
    destruct H as [[-> ->] | [-> (o' & body & Ho' & Hb & ->)]]; [left; auto|].
    right. split; [reflexivity|]. exists config, body. split.
    + subst kind. unfold _get_workload in Eo. cbn in Eo, Ho'.
      rewrite Eo in Ho'. injection Ho' as <-. exact Hb.
    + left. auto.
  - destruct (String.eqb_spec kind "StatefulSet") as [Es|Es];
      [|injection H as <- <-; left; auto].
    apply apply_statefulset_inv in H.
    destruct H as [[-> ->] | [-> (o' & body & Ho' & Hb & ->)]]; [left; auto|].
    right. split; [reflexivity|]. exists config, body. split.
    + subst kind. unfold _get_workload in Eo. cbn in Eo, Ho'.
      rewrite Eo in Ho'. injection Ho' as <-. exact Hb.
    + right. auto.
Qed.



(** *** An apply followed by a rollback *)

Lemma write_resources_name source c :
  container_name (write_resources source c) = container_name c.
Proof. reflexivity. Qed.

(** What [optimized] keeps of the object: the labels and the containers
    by name; the object carries the stamp of the apply. *)
Lemma optimized_inv config now o body :
  optimized config now o = Ret body ->
  labels body = labels o
  /\ map container_name (containers body) = map container_name (containers o)
  /\ exists a : gmap string string,
       annotations body = Some a /\ a !! optimized_at = Some now.
Proof.
  unfold optimized. intros H.
  apply bind_ret_inv in H. destruct H as (has_replicas & _ & H).
  apply bind_ret_inv in H. destruct H as (new_replicas & _ & H).
  apply bind_ret_inv in H. destruct H as (has_cpu & _ & H).
  apply bind_ret_inv in H. destruct H as (has_memory & _ & H).
  apply bind_ret_inv in H. destruct H as (new_containers & Hc & H).
  injection H as <-. unfold stamp. cbn [labels containers annotations].
  split; [reflexivity|]. split.
  - destruct (has_cpu || has_memory).
    + destruct (containers o) as [|c cs] eqn:Ec; [injection Hc as <-; reflexivity|].
      apply bind_ret_inv in Hc. destruct Hc as (x1 & _ & Hc).
      apply bind_ret_inv in Hc. destruct Hc as (x2 & _ & Hc).
      apply bind_ret_inv in Hc. destruct Hc as (x3 & _ & Hc).
      apply bind_ret_inv in Hc. destruct Hc as (x4 & _ & Hc).
      injection Hc as <-. cbn [map]. f_equal.
      rewrite map_map. apply map_ext. intros c'. reflexivity.
    + injection Hc as <-. reflexivity.
  - eexists. split; [reflexivity|].
    rewrite lookup_insert_ne by discriminate. apply lookup_insert_eq.
Qed.

Lemma rolled_back_keeps st now o :
  labels (rolled_back st now o) = labels o
  /\ map container_name (containers (rolled_back st now o))
     = map container_name (containers o)
  /\ forall (a : gmap string string) (k v : string),
       annotations o = Some a -> a !! k = Some v ->
       k <> rolled_back_at -> k <> rolled_back_by ->
       exists a' : gmap string string,
         annotations (rolled_back st now o) = Some a' /\ a' !! k = Some v.
Proof.
  unfold rolled_back, stamp. cbn [labels containers annotations].
  split; [reflexivity|]. split.
  - rewrite map_map. apply map_ext. intros c. reflexivity.
  - intros a k v Ha Hk H1 H2. rewrite Ha. cbn [default].
    eexists. split; [reflexivity|].
    rewrite !lookup_insert_ne by (unfold rolled_back_at, rolled_back_by in *; congruence).
    exact Hk.
Qed.

(** An apply that succeeds can be rolled back. *)
Lemma apply_rollback_round_trip :
  forall (name kind ns : string) (recommendation : json) (now now' : string)
         (w w1 : World.t),
    apply_optimization name kind ns recommendation false now w = (true, w1) ->
    exists (o : Object) (w2 : World.t) (o2 : Object),
      _get_workload name kind ns w = Some o
      /\ execute_rollback name kind ns now' w1 = (true, w2)
      /\ _get_workload name kind ns w2 = Some o2
      /\ replicas o2 = replicas o
      /\ labels o2 = labels o
      /\ map container_name (containers o2) = map container_name (containers o)
      /\ (uniform o ->
          map resource_view (containers o2) = map resource_view (containers o))
      /\ exists a : gmap string string,
           annotations o2 = Some a
           /\ a !! optimized_at = Some now
           /\ a !! rolled_back_at = Some now'.
Proof.
  intros name kind ns recommendation now now' w w1 H.
  destruct (apply_optimization_inv _ _ _ _ _ _ _ _ H)
    as [(Hf & _) | (o & Ho & [[Hf _] | (_ & config & body & Hb & Hk)])];
    try discriminate.
  destruct (store_then_get name kind ns o now w) as (st & Hst & Hrep & Hres).
  assert (Hkind : kind = "Deployment" \/ kind = "StatefulSet")
    by (destruct Hk as [[-> _] | [-> _]]; auto).
  assert (Hst1 : _get_original_state name kind ns w1 = Some st)
    by (destruct Hk as [[_ ->] | [_ ->]]; exact Hst).
  assert (Hw1 : _get_workload name kind ns w1 = Some body).
  { destruct Hk as [[-> ->] | [-> ->]]; unfold _get_workload; cbn;
      apply lookup_insert_eq. }
  destruct (execute_rollback_ok name kind ns now' w1 st body Hkind Hst1 Hw1)
    as (w2 & Hex & Hw2).
  destruct (optimized_inv config now o body Hb) as (Hl & Hn & a & Ha & Hat).
  destruct (rolled_back_keeps st now' body) as (Hl' & Hn' & Hann).
  exists o, w2, (rolled_back st now' body).
  split; [exact Ho|]. split; [exact Hex|]. split; [exact Hw2|].
  split; [rewrite rolled_back_replicas; exact Hrep|].
  split; [congruence|]. split; [congruence|]. split.
  - intros Hu. rewrite rolled_back_views, Hres.
    assert (Hlen : length (containers body) = length (containers o)).
    { rewrite <- (length_map container_name (containers body)), Hn.
      apply length_map. }
    destruct (head (containers o)) as [c0|] eqn:Hh.
    + rewrite (uniform_views o c0 Hh Hu), <- Hlen, <- map_const.
      apply map_ext. intros c. apply extract_fully_specified; [assumption|].
      apply (Hu c0 c0 Hh). destruct (containers o); [discriminate|].
      simpl in Hh. injection Hh as ->. left. reflexivity.
    + destruct (containers o); [|discriminate]. simpl in Hlen.
      destruct (containers body); [reflexivity | discriminate].
  - destruct (Hann a optimized_at now Ha Hat ltac:(discriminate) ltac:(discriminate))
      as (a' & Ha' & Hat').
    destruct (rolled_back_annotations st now' body) as (a'' & Ha'' & Hrb & _).
    exists a'. split; [exact Ha'|]. split; [exact Hat'|]. congruence.
Qed.

(** X23. When [apply_optimization] succeeds outside dry-run mode, a
    rollback of the same workload right after it succeeds too: the replica
    count is the one from before the apply, the labels and the containers
    (by name) are as before, and a workload whose containers all carried
    the four resource fields of the first one has them all back.  The
    annotation written by the apply stays on the object. *)
Theorem apply_then_rollback :
  forall (name kind ns : string) (recommendation : json) (now now' : string)
         (w w1 : World.t),
    apply_optimization name kind ns recommendation false now w = (true, w1) ->
    exists (o : Object) (w2 : World.t) (o2 : Object),
      _get_workload name kind ns w = Some o
      /\ execute_rollback name kind ns now' w1 = (true, w2)
      /\ _get_workload name kind ns w2 = Some o2
      /\ replicas o2 = replicas o
      /\ labels o2 = labels o
      /\ map container_name (containers o2) = map container_name (containers o)
      /\ (uniform o ->
          map resource_view (containers o2) = map resource_view (containers o))
      /\ exists a : gmap string string,
           annotations o2 = Some a
           /\ a !! optimized_at = Some now
           /\ a !! rolled_back_at = Some now'.
Proof.
  intros name kind ns recommendation now now' w w1 H.
  apply apply_rollback_round_trip with (recommendation := recommendation). exact H.
Qed.

Lemma apply_then_rollback_witness :
  exists (w2 : World.t) (o2 : Object),
    execute_rollback "web" "Deployment" "default" "t2"
      (snd (apply_optimization "web" "Deployment" "default" shrink_recommendation
              false "t1" (world_with sized_deployment))) = (true, w2)
    /\ _get_workload "web" "Deployment" "default" w2 = Some o2
    /\ replicas o2 = 3%Z.
Proof.
  destruct (apply_then_rollback "web" "Deployment" "default" shrink_recommendation
              "t1" "t2" (world_with sized_deployment)
              (snd (apply_optimization "web" "Deployment" "default"
                      shrink_recommendation false "t1" (world_with sized_deployment)))
              ltac:(vm_compute; reflexivity))
    as (o & w2 & o2 & Ho & Hex & Hw2 & Hrep & _).
  exists w2, o2. split; [exact Hex|]. split; [exact Hw2|].
  rewrite Hrep. vm_compute in Ho. injection Ho as <-. reflexivity.
Defined.

(** *** Where the snapshot is kept *)

Lemma append_inv_tail (a b s : string) : a +:+ s = b +:+ s -> a = b.
Proof.
  intros H.
  assert (Hl : String.length a = String.length b).
  { apply (f_equal String.length) in H. rewrite !string_length_app in H. lia. }
  rewrite <- (substring_app_l a s), <- (substring_app_l b s), H, Hl. reflexivity.
Qed.

Lemma append_inv_head (p a b : string) : p +:+ a = p +:+ b -> a = b.
Proof.
  induction p as [|c p IH]; intros H; [exact H|].
  apply IH. change (String c (p +:+ a) = String c (p +:+ b)) in H. congruence.
Qed.

Lemma redis_key_kind (ns kind kind' name : string) :
  redis_key ns kind name = redis_key ns kind' name -> kind = kind'.
Proof.
  unfold redis_key. intros H.
  apply append_inv_head in H. apply append_inv_head in H. apply append_inv_head in H.
  apply append_inv_tail in H. exact H.
Qed.

(** X24. The ConfigMap that holds a snapshot is named after the workload
    and not after its kind.  When the cache holds nothing for the other
    kind (or there is no cache), looking up the snapshot of a workload of
    another kind with the same name and namespace returns the snapshot just
    stored, and a rollback then applies it. *)
Theorem snapshot_shared_across_kinds :
  forall (name kind kind' ns : string) (o : Object) (now : string) (w : World.t),
    not_cached (redis_key ns kind' name) w ->
    exists st : RollbackState.t,
      _get_original_state name kind' ns
        (snd (store_original_state name kind ns o now w)) = Some st
      /\ RollbackState.workload_kind st = kind
      /\ RollbackState.replicas st = replicas o
      /\ RollbackState.resources st = _extract_resources o
      /\ forall (o' : Object) (now' : string),
           kind' = "Deployment" \/ kind' = "StatefulSet" ->
           _get_workload name kind' ns w = Some o' ->
           exists w2 : World.t,
             execute_rollback name kind' ns now'
               (snd (store_original_state name kind ns o now w)) = (true, w2)
             /\ _get_workload name kind' ns w2 = Some (rolled_back st now' o').
Proof.
  intros name kind kind' ns o now w Hc.
  set (st := RollbackState.mk name kind ns (replicas o) (_extract_resources o) now
               (default ∅ (annotations o)) (default ∅ (labels o))).
  assert (Hst : _get_original_state name kind' ns
                  (snd (store_original_state name kind ns o now w)) = Some st).
  { unfold store_original_state, _store_in_configmap, _get_original_state,
      World.set_redis.
    cbn [snd World.redis World.config_maps World.set_config_map].
    unfold not_cached in Hc.
    destruct (World.redis w) as [kv|].
    - destruct (decide (kind' = kind)) as [->|Hk].
      + rewrite lookup_insert_eq. reflexivity.
      + rewrite lookup_insert_ne by (intros E; apply redis_key_kind in E; congruence).
        rewrite Hc, lookup_insert_eq. reflexivity.
    - rewrite lookup_insert_eq. reflexivity. }
  exists st. split; [exact Hst|]. split; [reflexivity|]. split; [reflexivity|].
  split; [reflexivity|].
  intros o' now' Hk Ho'.
  apply execute_rollback_ok; [exact Hk | exact Hst | exact Ho'].
Qed.

Lemma snapshot_shared_across_kinds_witness :
  exists st : RollbackState.t,
    _get_original_state "web" "StatefulSet" "default"
      (snd (store_original_state "web" "Deployment" "default" sized_deployment "t1"
              (stateful_world bare_deployment))) = Some st
    /\ RollbackState.workload_kind st = "Deployment".
Proof.
  destruct (snapshot_shared_across_kinds "web" "Deployment" "StatefulSet" "default"
              sized_deployment "t1" (stateful_world bare_deployment) I)
    as (st & Hst & Hk & _).
  exists st. split; assumption.
Defined.

End OperatorFacts.

(** ** The validating webhook *)

Section Admission.
Import OptimizationHandler Operator AdmissionWebhook.
Local Open Scope Q_scope.

Lemma get_of_ret (d : json) (k : string) (default v : json) :
  get_of d k default = Ret v ->
  exists fields : Dict.t, d = JObj fields /\ v = Dict.get_default k default fields.
Proof.
  destruct d; try discriminate. cbn [get_of]. intros [= <-]. eauto.
Qed.

Lemma lt_ret (x : json) (n : Q) (b : bool) :
  lt x n = Ret b -> exists v : Q, Json.number x = Ret v /\ b = Qltb v n.
Proof.
  unfold lt. intros H. apply bind_ret_inv in H. destruct H as (v & Hv & H).
  injection H as <-. eauto.
Qed.

Lemma gt_ret (x : json) (n : Q) (b : bool) :
  gt x n = Ret b -> exists v : Q, Json.number x = Ret v /\ b = Qltb n v.
Proof.
  unfold gt. intros H. apply bind_ret_inv in H. destruct H as (v & Hv & H).
  injection H as <-. eauto.
Qed.

(** What [validate_cost_optimization] has checked when it accepts. *)
Lemma validate_cost_optimization_accepts (obj : json) (message : string) :
  validate_cost_optimization obj = Ret (true, message) ->
  exists spec target : Dict.t,
    get_of obj "spec" (JObj []) = Ret (JObj spec)
    /\ Dict.get_default "targetWorkload" (JObj []) spec = JObj target
    /\ Json.truthy (Dict.get_default "name" JNull target) = true
    /\ among (Dict.get_default "kind" JNull target) allowed_kinds = true
    /\ among (Dict.get_default "optimizationType" JNull spec) allowed_types = true
    /\ (exists p : Q,
           Json.number (Dict.get_default "maxChangePercent" (JNum 50) spec) = Ret p
           /\ 1 <= p <= 100)
    /\ (exists c : Q,
           Json.number (Dict.get_default "minConfidence" (JNum 0.7) spec) = Ret c
           /\ 0 <= c <= 1
           /\ (is_str (Dict.get_default "optimizationType" JNull spec) "SPOT_INSTANCES"
               && Json.truthy (Dict.get_default "autoApply" (JBool false) spec) = true ->
               0.8 <= c))
    /\ among (Dict.get_default "maxRiskLevel" (JStr "MEDIUM") spec) allowed_risk_levels
       = true
    /\ Json.truthy (Dict.get_default "autoApply" (JBool false) spec)
       && Json.truthy (Dict.get_default "dryRun" (JBool true) spec) = false
    /\ Json.truthy (Dict.get_default "autoApply" (JBool false) spec)
       && among (Dict.get_default "maxRiskLevel" (JStr "MEDIUM") spec) [ "HIGH"; "CRITICAL" ]
       = false
    /\ is_str (Dict.get_default "kind" JNull target) "StatefulSet"
       && is_str (Dict.get_default "optimizationType" JNull spec) "REPLICAS"
       && Json.truthy (Dict.get_default "autoApply" (JBool false) spec) = false
    /\ is_str (Dict.get_default "kind" JNull target) "DaemonSet"
       && among (Dict.get_default "optimizationType" JNull spec) [ "REPLICAS"; "ALL" ]
       = false.
Proof.
  unfold validate_cost_optimization. intros H.
  apply bind_ret_inv in H. destruct H as (spec & Hspec & H).
  apply bind_ret_inv in H. destruct H as (target & Htarget & H).
  apply bind_ret_inv in H. destruct H as (name & Hname & H).
  destruct (Json.truthy name) eqn:Tn; cbn [negb] in H; [|discriminate].
  apply bind_ret_inv in H. destruct H as (kind & Hkind & H).
  destruct (Json.truthy kind) eqn:Tk; cbn [negb] in H; [|discriminate].
  destruct (among kind allowed_kinds) eqn:Ak; cbn [negb] in H; [|discriminate].
  apply bind_ret_inv in H. destruct H as (ty & Hty & H).
  destruct (Json.truthy ty) eqn:Tt; cbn [negb] in H; [|discriminate].
  destruct (among ty allowed_types) eqn:At; cbn [negb] in H; [|discriminate].
  apply bind_ret_inv in H. destruct H as (mcp & Hmcp & H).
  apply bind_ret_inv in H. destruct H as (below & Hb & H).
  apply bind_ret_inv in H. destruct H as (outside & Ho & H).
  destruct outside; [discriminate|].
  destruct below; [discriminate|].
  apply bind_ret_inv in H. destruct H as (mc & Hmc & H).
  apply bind_ret_inv in H. destruct H as (below' & Hb' & H).
  apply bind_ret_inv in H. destruct H as (outside' & Ho' & H).
  destruct outside'; [discriminate|].
  destruct below'; [discriminate|].
  apply bind_ret_inv in H. destruct H as (dry & Hdry & H).
  apply bind_ret_inv in H. destruct H as (auto & Hauto & H).
  destruct (Json.truthy auto && Json.truthy dry) eqn:Ead; [discriminate|].
  apply bind_ret_inv in H. destruct H as (risk & Hrisk & H).
  destruct (among risk allowed_risk_levels) eqn:Ar; cbn [negb] in H; [|discriminate].
  destruct (Json.truthy auto && among risk ["HIGH"; "CRITICAL"]) eqn:Ear; [discriminate|].
  destruct (is_str kind "StatefulSet" && is_str ty "REPLICAS" && Json.truthy auto)
    eqn:Es; [discriminate|].
  destruct (is_str kind "DaemonSet" && among ty ["REPLICAS"; "ALL"]) eqn:Ed;
    [discriminate|].
  apply bind_ret_inv in H. destruct H as (unsure & Hu & H).
  destruct unsure; [discriminate|]. clear H.
  destruct (get_of_ret _ _ _ _ Hspec) as (objd & -> & ->).
  destruct (get_of_ret _ _ _ _ Htarget) as (specd & Es' & ->).
  destruct (get_of_ret _ _ _ _ Hname) as (targetd & Et' & ->).
  assert (Hs0 : get_of (JObj objd) "spec" (JObj []) = Ret (JObj specd))
    by (cbn [get_of]; congruence).
  rewrite Et' in *. rewrite Es' in *. clear Es'.
  cbn [get_of] in Hkind, Hty, Hmcp, Hmc, Hdry, Hauto, Hrisk.
  injection Hkind as <-. injection Hty as <-. injection Hmcp as <-.
  injection Hmc as <-. injection Hdry as <-. injection Hauto as <-.
  injection Hrisk as <-.
  exists specd, targetd.
  split; [exact Hs0|]. split; [exact Et'|].
  split; [exact Tn|]. split; [exact Ak|]. split; [exact At|].
  apply lt_ret in Hb. destruct Hb as (p & Hp & Hb).
  apply gt_ret in Ho. destruct Ho as (p' & Hp' & Ho).
  rewrite Hp in Hp'. injection Hp' as <-.
  apply lt_ret in Hb'. destruct Hb' as (c & Hc & Hb').
  apply gt_ret in Ho'. destruct Ho' as (c' & Hc' & Ho').
  rewrite Hc in Hc'. injection Hc' as <-.
  symmetry in Hb, Ho, Hb', Ho'. apply Qltb_false in Hb, Ho, Hb', Ho'.
  split; [exists p; auto|]. split.
  - exists c. split; [exact Hc|]. split; [auto|].
    intros Hsp. rewrite Hsp in Hu. apply lt_ret in Hu.
    destruct Hu as (c' & Hc' & Hu). rewrite Hc in Hc'. injection Hc' as <-.
    symmetry in Hu. apply Qltb_false in Hu. exact Hu.
  - auto.
Qed.

(** What [prevent_dangerous_optimization] has checked when it accepts. *)
Lemma prevent_dangerous_optimization_accepts (obj : json) (message : string) :
  prevent_dangerous_optimization obj = Ret (true, message) ->
  exists spec metadata target : Dict.t,
    get_of obj "spec" (JObj []) = Ret (JObj spec)
    /\ get_of obj "metadata" (JObj []) = Ret (JObj metadata)
    /\ Dict.get_default "targetWorkload" (JObj []) spec = JObj target
    /\ among (Dict.get_default "namespace" (JStr "default") metadata) system_namespaces
       = false
    /\ among (Dict.get_default "name" (JStr "") target) protected_workloads = false
    /\ (Json.truthy (Dict.get_default "autoApply" (JBool false) spec) = true ->
        exists p : Q,
          Json.number (Dict.get_default "maxChangePercent" (JNum 50) spec) = Ret p
          /\ p <= 80).
Proof.
  unfold prevent_dangerous_optimization. intros H.
  apply bind_ret_inv in H. destruct H as (spec & Hspec & H).
  apply bind_ret_inv in H. destruct H as (metadata & Hmeta & H).
  apply bind_ret_inv in H. destruct H as (namespace & Hns & H).
  destruct (among namespace system_namespaces) eqn:An; [discriminate|].
  apply bind_ret_inv in H. destruct H as (target & Htarget & H).
  apply bind_ret_inv in H. destruct H as (name & Hname & H).
  destruct (among name protected_workloads) eqn:Ap; [discriminate|].
  apply bind_ret_inv in H. destruct H as (labels & Hlabels & H).
  apply bind_ret_inv in H. destruct H as (component & Hcomp & H).
  destruct (is_str component "controller"); [discriminate|].
  apply bind_ret_inv in H. destruct H as (mcp & Hmcp & H).
  apply bind_ret_inv in H. destruct H as (large & Hl & H).
  apply bind_ret_inv in H. destruct H as (auto & Hauto & H).
  destruct (large && Json.truthy auto) eqn:Ela; [discriminate|]. clear H.
  destruct (get_of_ret _ _ _ _ Hspec) as (objd & -> & ->).
  destruct (get_of_ret _ _ _ _ Htarget) as (specd & Es' & ->).
  destruct (get_of_ret _ _ _ _ Hname) as (targetd & Et' & ->).
  destruct (get_of_ret _ _ _ _ Hmeta) as (objd' & [= <-] & ->).
  destruct (get_of_ret _ _ _ _ Hns) as (metad & Em' & ->).
  exists specd, metad, targetd.
  split; [cbn [get_of]; congruence|]. split; [cbn [get_of]; congruence|].
  rewrite Es' in *. cbn [get_of] in Hmcp, Hauto. injection Hmcp as <-.
  split; [exact Et'|]. split; [exact An|]. split; [exact Ap|].
  intros Ha. apply gt_ret in Hl. destruct Hl as (p & Hp & Hl).
  exists p. split; [exact Hp|]. apply Qltb_false.
  destruct large; [|auto]. cbn [get_of] in Hauto. injection Hauto as <-.
  rewrite Ha in Ela. discriminate.
Qed.

Lemma among_low_medium (risk : json) :
  among risk allowed_risk_levels = true ->
  among risk [ "HIGH"; "CRITICAL" ] = false ->
  among risk [ "LOW"; "MEDIUM" ] = true.
Proof.
  destruct risk as [| b | q | s | l | d]; try discriminate.
  unfold among, allowed_risk_levels. cbn [existsb].
  destruct (String.eqb s "LOW"), (String.eqb s "MEDIUM"), (String.eqb s "HIGH"),
    (String.eqb s "CRITICAL"); cbn; congruence.
Qed.

Lemma get_default_truthy (k : string) (d : Dict.t) (a b : json) :
  Json.truthy (Dict.get_default k a d) = true ->
  Json.truthy a = false ->
  Dict.get_default k b d = Dict.get_default k a d.
Proof.
  unfold Dict.get_default. destruct (Dict.get k d); [reflexivity|]. congruence.
Qed.

(** The declarations the route admits. *)
Lemma validate_allowed (admission_review : json) (resp : Response) :
  validate admission_review = Ret resp ->
  allowed resp = true ->
  exists (obj : json) (m1 m2 : string),
    declared_spec admission_review = get_of obj "spec" (JObj [])
    /\ validate_cost_optimization obj = Ret (true, m1)
    /\ prevent_dangerous_optimization obj = Ret (true, m2)
    /\ http_status resp = 200%Z
    /\ status resp = None.
Proof.
  unfold validate, try_except, declared_spec. intros H Ha.
  match type of H with
  | match ?b with Ret _ => _ | Raise _ => _ end = _ => destruct b as [r|e] eqn:Eb
  end.
  - injection H as ->.
    apply bind_ret_inv in Eb. destruct Eb as (req & Hreq & Eb).
    apply bind_ret_inv in Eb. destruct Eb as (u0 & _ & Eb).
    apply bind_ret_inv in Eb. destruct Eb as (obj & Hobj & Eb).
    apply bind_ret_inv in Eb. destruct Eb as ([valid m1] & Hv & Eb).
    destruct valid; cbn [negb] in Eb;
      [|apply bind_ret_inv in Eb; destruct Eb as (u & _ & Eb);
        injection Eb as <-; discriminate].
    apply bind_ret_inv in Eb. destruct Eb as ([safe m2] & Hp & Eb).
    destruct safe; cbn [negb] in Eb;
      [|apply bind_ret_inv in Eb; destruct Eb as (u & _ & Eb);
        injection Eb as <-; discriminate].
    apply bind_ret_inv in Eb. destruct Eb as (metadata & _ & Eb).
    apply bind_ret_inv in Eb. destruct Eb as (n & _ & Eb).
    apply bind_ret_inv in Eb. destruct Eb as (u & _ & Eb).
    injection Eb as <-.
    exists obj, m1, m2. rewrite Hreq. cbn [mbind res_bind]. rewrite Hobj.
    cbn [mbind res_bind]. auto.
  - apply bind_ret_inv in H. destruct H as (req & _ & H).
    apply bind_ret_inv in H. destruct H as (u & _ & H).
    injection H as <-. discriminate.
Qed.

(** X25. What the route [/validate] guarantees of a declaration it
    admits: the target kind and the optimization type are among the listed
    ones, the target is not a protected workload, a DaemonSet is not asked
    for a replica change, and a declaration with [autoApply] has [dryRun]
    set and false, a risk bound of LOW or MEDIUM, a [maxChangePercent]
    between 1 and 80, no replica optimization of a StatefulSet, and for
    spot instances a [minConfidence] of at least 0.8. *)
Theorem validate_admits_guarded_auto_apply :
  forall (admission_review : json) (resp : Response),
    validate admission_review = Ret resp ->
    allowed resp = true ->
    exists spec target : Dict.t,
      declared_spec admission_review = Ret (JObj spec)
      /\ Dict.get_default "targetWorkload" (JObj []) spec = JObj target
      /\ http_status resp = 200%Z
      /\ status resp = None
      /\ let kind := Dict.get_default "kind" JNull target in
         let type := Dict.get_default "optimizationType" JNull spec in
         among kind allowed_kinds = true
         /\ among type allowed_types = true
         /\ among (Dict.get_default "name" JNull target) protected_workloads = false
         /\ (is_str kind "DaemonSet" = true -> among type [ "REPLICAS"; "ALL" ] = false)
         /\ (Json.truthy (Dict.get_default "autoApply" (JBool false) spec) = true ->
             Dict.get "dryRun" spec <> None
             /\ Json.truthy (Dict.get_default "dryRun" (JBool true) spec) = false
             /\ among (Dict.get_default "maxRiskLevel" (JStr "MEDIUM") spec)
                  [ "LOW"; "MEDIUM" ] = true
             /\ (exists p : Q,
                    Json.number (Dict.get_default "maxChangePercent" (JNum 50) spec)
                    = Ret p
                    /\ 1 <= p <= 80)
             /\ (is_str kind "StatefulSet" = true -> is_str type "REPLICAS" = false)
             /\ (is_str type "SPOT_INSTANCES" = true ->
                 exists c : Q,
                   Json.number (Dict.get_default "minConfidence" (JNum 0.7) spec)
                   = Ret c
                   /\ 0.8 <= c <= 1)).
Proof.
  intros admission_review resp H Ha.
  destruct (validate_allowed _ _ H Ha) as (obj & m1 & m2 & Hd & Hv & Hp & Hh & Hs).
  destruct (validate_cost_optimization_accepts _ _ Hv)
    as (spec & target & Hspec & Ht & Hn & Hk & Hty & (p & Hp1 & Hp2)
        & (c & Hc1 & Hc2 & Hc3) & Hr & Had & Har & Hst & Hds).
  destruct (prevent_dangerous_optimization_accepts _ _ Hp)
    as (spec' & metadata & target' & Hspec' & _ & Ht' & _ & Hprot & Hmax).
  rewrite Hspec in Hspec'. injection Hspec' as <-.
  rewrite Ht in Ht'. injection Ht' as <-.
  exists spec, target.
  split; [rewrite Hd; exact Hspec|]. split; [exact Ht|].
  split; [exact Hh|]. split; [exact Hs|]. cbv zeta.
  split; [exact Hk|]. split; [exact Hty|].
  split; [rewrite <- (get_default_truthy "name" target JNull (JStr "") Hn eq_refl);
          exact Hprot|].
  split; [intros E; rewrite E in Hds; exact Hds|].
  intros Hauto. rewrite Hauto in *. cbn [andb] in Had, Har.
  split.
  - unfold Dict.get_default in Had. destruct (Dict.get "dryRun" spec); [discriminate|].
    discriminate.
  - split; [exact Had|]. split; [apply among_low_medium; assumption|]. split.
    + destruct (Hmax eq_refl) as (p' & Hp' & Hle).
      rewrite Hp1 in Hp'. injection Hp' as <-. exists p. split; [exact Hp1|].
      split; [apply Hp2 | exact Hle].
    + split.
      * intros E. rewrite E in Hst. cbn [andb] in Hst.
        rewrite andb_true_r in Hst. exact Hst.
      * intros E. exists c. split; [exact Hc1|]. split; [|apply Hc2].
        apply Hc3. rewrite E. reflexivity.
Qed.

Lemma validate_admits_guarded_auto_apply_witness :
  exists resp : Response,
    validate (review_of (auto_apply_spec "MEDIUM")) = Ret resp
    /\ allowed resp = true
    /\ http_status resp = 200%Z.
Proof.
  eexists. split; [vm_compute; reflexivity|]. split; [reflexivity|].
  match goal with
  | |- http_status ?resp = _ =>
      destruct (validate_admits_guarded_auto_apply
                  (review_of (auto_apply_spec "MEDIUM")) resp
                  ltac:(vm_compute; reflexivity) ltac:(reflexivity))
        as (spec & target & _ & _ & Hh & _)
  end.
  exact Hh.
Defined.

(** X26. A declaration that the route [/validate] admits never has a
    recommendation of the optimizer API applied by the periodic check:
    whatever recommendation the API serialises, the tick leaves the cluster
    as it was and the phase Ready or Failed. *)
Theorem admitted_declaration_never_applied :
  forall (admission_review : json) (resp : Response) (spec status : Dict.t)
         (ns now : string) (r : Recommendation.t) (w : World.t),
    validate admission_review = Ret resp ->
    allowed resp = true ->
    declared_spec admission_review = Ret (JObj spec) ->
    let o := periodic_optimization_check spec status ns
               (Some (Wire.recommendation_json r)) now w in
    world o = w
    /\ (phase_of o = Some (JStr "Ready") \/ phase_of o = Some (JStr "Failed")).
Proof.
  intros admission_review resp spec status ns now r w H Ha Hd.
  destruct (validate_allowed _ _ H Ha) as (obj & m1 & m2 & Hd' & Hv & _).
  destruct (validate_cost_optimization_accepts _ _ Hv)
    as (spec' & target & Hspec & _ & _ & _ & _ & _ & _ & Hr & _ & Har & _).
  rewrite Hd' in Hd. rewrite Hspec in Hd. injection Hd as ->.
  destruct (Json.truthy (Dict.get_default "autoApply" (JBool false) spec)) eqn:Eauto.
  - apply serialised_recommendation_never_applied.
    cbn [andb] in Har. intros E. rewrite E in Har. discriminate.
  - destruct (tick_without_auto_apply spec status ns
                (Some (Wire.recommendation_json r)) now w (or_intror Eauto))
      as (Hw & _ & Hp).
    split; assumption.
Qed.

Lemma admitted_declaration_never_applied_witness :
  exists r : Recommendation.t,
    low_risk_recommendation = Some r
    /\ world (periodic_optimization_check (auto_apply_spec "MEDIUM") [] "default"
                (Some (Wire.recommendation_json r)) "2024-01-01T00:00:00"
                (world_with sized_deployment))
       = world_with sized_deployment.
Proof.
  eexists. split; [vm_compute; reflexivity|].
  match goal with
  | |- world (periodic_optimization_check _ _ _ (Some (Wire.recommendation_json ?r)) _ _)
       = _ =>
      exact (proj1 (admitted_declaration_never_applied
                      (review_of (auto_apply_spec "MEDIUM"))
                      (mkResponse 200%Z (JStr "uid-1") true None)
                      (auto_apply_spec "MEDIUM") [] "default" "2024-01-01T00:00:00"
                      r (world_with sized_deployment)
                      ltac:(vm_compute; reflexivity) ltac:(reflexivity)
                      ltac:(reflexivity)))
  end.
Defined.

End Admission.

(** ** The operator and the optimizer API together *)

Section OperatorAndApi.
Import K8s Handlers RollbackHandler OptimizationHandler Operator Operator2
  OptimizationHandler2 OptimizerApi.
Local Open Scope Q_scope.

(** A tick that ends in the phase Applied went through
    [apply_optimization] with the three names of the target. *)
Lemma tick_applied_inv spec status ns recommendation now w :
  phase_of (periodic_optimization_check spec status ns recommendation now w)
  = Some (JStr "Applied") ->
  exists (payload : json) (name kind wns : string),
    recommendation = Some payload
    /\ get_of (Dict.get_default "targetWorkload" (JObj []) spec) "name" JNull
       = Ret (JStr name)
    /\ get_of (Dict.get_default "targetWorkload" (JObj []) spec) "kind" JNull
       = Ret (JStr kind)
    /\ get_of (Dict.get_default "targetWorkload" (JObj []) spec) "namespace" (JStr ns)
       = Ret (JStr wns)
    /\ apply_optimization name kind wns payload false now w
       = (true, Operator.world (periodic_optimization_check spec status ns
                                  recommendation now w)).
Proof.
  unfold periodic_optimization_check.
  match goal with
  | |- context [match ?b with Ret _ => _ | Raise _ => _ end] =>
      destruct b as [[[wn wk] wns] | e] eqn:Et
  end; [|rewrite failed_phase; discriminate].
  cbn [mbind res_bind mret res_ret] in Et.
  apply bind_ret_inv in Et. destruct Et as (wn' & Hn & Et).
  apply bind_ret_inv in Et. destruct Et as (wk' & Hk & Et).
  apply bind_ret_inv in Et. destruct Et as (wns' & Hns & Et).
  injection Et as -> -> ->.
  destruct recommendation as [payload|];
    [|rewrite no_opportunity_phase; discriminate].
  destruct (negb (Json.truthy payload));
    [rewrite no_opportunity_phase; discriminate|].
  match goal with
  | |- context [match ?b with Ret _ => _ | Raise _ => _ end] =>
      destruct b as [[[savings text] summary] | e]
  end; [|rewrite failed_phase; discriminate].
  unfold gate.
  match goal with
  | |- context [match ?b with Ret _ => _ | Raise _ => _ end] =>
      destruct b as [[[[risk_level confidence] max_risk] current_risk] | e]
  end; [|rewrite failed_phase; discriminate].
  destruct (Json.truthy _ && negb (Json.truthy _)).
  2:{ unfold phase_of. cbn [patch_status].
      rewrite phase_set_over by discriminate. rewrite phase_set. discriminate. }
  destruct (ge confidence _) as [confident|e]; [|rewrite failed_phase; discriminate].
  destruct (confident && (current_risk <=? max_risk)%Z).
  2:{ intros H. destruct (not_applied_phase
        (Dict.set "lastAnalysis" (JStr now)
           (Dict.set "currentRecommendation" (JObj summary) []))
        confidence risk_level w) as [E|E]; rewrite E in H; discriminate. }
  unfold auto_apply_path.
  destruct (call_apply wn wk wns payload now w) as [success w'] eqn:Ec.
  destruct success.
  2:{ unfold phase_of. cbn [patch_status].
      rewrite phase_set_over by discriminate. rewrite phase_set. discriminate. }
  destruct (add _ savings) as [new_savings|e]; [|rewrite failed_phase; discriminate].
  destruct (add _ (JNum 1)) as [applied|e]; [|rewrite failed_phase; discriminate].
  intros _. cbn [Operator.world].
  unfold call_apply in Ec.
  destruct wn as [| b | q | name | l | d]; cbn [api_name] in Ec; try discriminate.
  destruct wk as [| b | q | kind | l | d]; cbn [api_name] in Ec; try discriminate.
  destruct wns as [| b | q | wns | l | d]; cbn [api_name] in Ec; try discriminate.
  exists payload, name, kind, wns. auto.
Qed.

Lemma is_str_spec (x : json) (s : string) :
  AdmissionWebhook.is_str x s = true <-> x = JStr s.
Proof.
  unfold AdmissionWebhook.is_str, AdmissionWebhook.among.
  destruct x as [| b | q | x | l | d]; try (split; [discriminate | discriminate]).
  cbn [existsb]. rewrite orb_false_r. split.
  - intros E. apply String.eqb_eq in E. congruence.
  - intros [= ->]. apply String.eqb_refl.
Qed.

Lemma phase_applied (status : Dict.t) :
  AdmissionWebhook.is_str (Dict.get_default "phase" JNull status) "Applied" = true
  <-> Dict.get "phase" status = Some (JStr "Applied").
Proof.
  rewrite is_str_spec. unfold Dict.get_default.
  destruct (Dict.get "phase" status); split; congruence.
Qed.

(** X27. Deleting a declaration whose stored phase is not Applied, or
    whose [rollbackOnFailure] is false, leaves the cluster as it is and
    counts no rollback.  Deleting a declaration right after a tick that
    applied an optimization rolls the target back: the workload has the
    replica count and labels from before the tick, a workload whose
    containers all carried the four resource fields of the first one has
    them back, one rollback is counted and the deletion event is posted. *)
Theorem delete_after_applied_tick :
  forall (spec status' : Dict.t) (dname ns now' : string) (w1 : World.t),
    let d := delete_optimization spec status' dname ns now' w1 in
    (Dict.get "phase" status' <> Some (JStr "Applied")
     \/ Json.truthy (Dict.get_default "rollbackOnFailure" (JBool true) spec) = false ->
     Operator2.world d = w1 /\ rollbacks_executed d = 0%Z)
    /\ (forall (status : Dict.t) (recommendation : option json) (now : string)
               (w : World.t),
          let o := periodic_optimization_check spec status ns recommendation now w in
          phase_of o = Some (JStr "Applied") ->
          w1 = Operator.world o ->
          Dict.get "phase" status' = Some (JStr "Applied") ->
          Json.truthy (Dict.get_default "rollbackOnFailure" (JBool true) spec) = true ->
          exists (name kind wns : string) (o0 o2 : Object),
            get_of (Dict.get_default "targetWorkload" (JObj []) spec) "name" JNull
            = Ret (JStr name)
            /\ get_of (Dict.get_default "targetWorkload" (JObj []) spec) "kind" JNull
               = Ret (JStr kind)
            /\ get_of (Dict.get_default "targetWorkload" (JObj []) spec) "namespace"
                 (JStr ns)
               = Ret (JStr wns)
            /\ _get_workload name kind wns w = Some o0
            /\ _get_workload name kind wns (Operator2.world d) = Some o2
            /\ replicas o2 = replicas o0
            /\ labels o2 = labels o0
            /\ (uniform o0 ->
                map resource_view (containers o2) = map resource_view (containers o0))
            /\ rollbacks_executed d = 1%Z
            /\ Operator2.events d
               = [ mkEvent "info" "OptimizationDeleted"
                     ("CostOptimization " +:+ dname +:+ " deleted") ]).
Proof.
  intros spec status' dname ns now' w1 d. subst d. split.
  - intros Hc. unfold delete_optimization.
    destruct (AdmissionWebhook.is_str (Dict.get_default "phase" JNull status') "Applied")
      eqn:Ep; [|split; reflexivity].
    apply phase_applied in Ep. destruct Hc as [Hc | Hc]; [congruence|].
    rewrite Hc. cbn [mbind res_bind mret res_ret].
    destruct (get_of _ "name" JNull); cbn [mbind res_bind]; [|split; reflexivity].
    destruct (get_of _ "kind" JNull); cbn [mbind res_bind]; [|split; reflexivity].
    destruct (get_of _ "namespace" (JStr ns)); cbn [mbind res_bind]; split; reflexivity.
  - intros status recommendation now w o Hp -> Hs Hr. subst o.
    destruct (tick_applied_inv spec status ns recommendation now w Hp)
      as (payload & name & kind & wns & -> & Hn & Hk & Hns & Ha).
    destruct (apply_rollback_round_trip name kind wns payload now now' w _ Ha)
      as (o0 & w2 & o2 & Ho0 & Hex & Hw2 & Hrep & Hl & _ & Hu & _).
    exists name, kind, wns, o0, o2.
    split; [exact Hn|]. split; [exact Hk|]. split; [exact Hns|]. split; [exact Ho0|].
    assert (Ed : delete_optimization spec status' dname ns now'
                   (Operator.world (periodic_optimization_check spec status ns
                                      (Some payload) now w))
                 = mkDeletion
                     [ mkEvent "info" "OptimizationDeleted"
                         ("CostOptimization " +:+ dname +:+ " deleted") ]
                     w2 1%Z).
    { unfold delete_optimization.
      rewrite (proj2 (phase_applied status') Hs).
      cbn [mbind res_bind mret res_ret]. rewrite Hn. cbn [mbind res_bind].
      rewrite Hk. cbn [mbind res_bind]. rewrite Hns. cbn [mbind res_bind].
      rewrite Hr. unfold call_rollback. cbn [api_name]. rewrite Hex. reflexivity. }
    rewrite Ed. cbn [Operator2.world rollbacks_executed Operator2.events].
    auto 10.
Qed.

Lemma delete_after_applied_tick_witness :
  let o := periodic_optimization_check (auto_apply_spec "MEDIUM") [] "default"
             (Some (with_level "LOW" low_risk_payload)) "t1"
             (world_with sized_deployment) in
  let d := delete_optimization (auto_apply_spec "MEDIUM") (patch_status o)
             "opt-web" "default" "t2" (Operator.world o) in
  replicas <$> _get_workload "web" "Deployment" "default" (Operator.world o) = Some 2%Z
  /\ replicas <$> _get_workload "web" "Deployment" "default" (Operator2.world d)
     = Some 3%Z.
Proof.
  cbv zeta. split; [vm_compute; reflexivity|].
  destruct (proj2 (delete_after_applied_tick (auto_apply_spec "MEDIUM")
                     (patch_status
                        (periodic_optimization_check (auto_apply_spec "MEDIUM") []
                           "default" (Some (with_level "LOW" low_risk_payload)) "t1"
                           (world_with sized_deployment)))
                     "opt-web" "default" "t2"
                     (Operator.world
                        (periodic_optimization_check (auto_apply_spec "MEDIUM") []
                           "default" (Some (with_level "LOW" low_risk_payload)) "t1"
                           (world_with sized_deployment))))
             [] (Some (with_level "LOW" low_risk_payload)) "t1"
             (world_with sized_deployment)
             ltac:(vm_compute; reflexivity) eq_refl
             ltac:(vm_compute; reflexivity) ltac:(reflexivity))
    as (name & kind & wns & o0 & o2 & Hn & Hk & Hns & Ho0 & Ho2 & Hrep & _).
  vm_compute in Hn, Hk, Hns.
  injection Hn as <-. injection Hk as <-. injection Hns as <-.
  rewrite Ho2. cbn [fmap option_fmap option_map]. rewrite Hrep.
  vm_compute in Ho0. injection Ho0 as <-. reflexivity.
Defined.

(** *** The recommendation the operator acts on *)

Lemma savings_key_wire (r : Recommendation.t) :
  savings_key (Wire.recommendation_json r) = Ret (JNum (Recommendation.monthly_savings r)).
Proof. reflexivity. Qed.

Lemma max_loop_sorted (best : Recommendation.t) (items : list Recommendation.t) :
  Forall (by_savings best) items ->
  max_loop (Wire.recommendation_json best) (JNum (Recommendation.monthly_savings best))
    (map Wire.recommendation_json items)
  = Ret (Wire.recommendation_json best).
Proof.
  induction 1 as [|x items Hx _ IH]; [reflexivity|].
  cbn [map max_loop]. rewrite savings_key_wire. cbn [mbind res_bind].
  unfold key_gt. cbn [Json.number mbind res_bind].
  rewrite (proj2 (Qltb_false _ _) Hx). exact IH.
Qed.

(** X28. From a reply of the optimize endpoint, [analyze_workload] takes
    the first recommendation of the list: the endpoint returns the list in
    decreasing order of monthly savings and [max] keeps the first of the
    greatest.  With an empty list it returns nothing. *)
Theorem analyze_workload_takes_first :
  forall (env : Recommender.collaborator) (w : Workload.t) (m : WorkloadMetrics.t)
         (request : option OptimizeWorkloadRequest) (resp : OptimizeResponse)
         (data : Dict.t),
    optimize_workload env w m request = Ret resp ->
    Dict.get "recommendations" data
    = Some (JArr (map Wire.recommendation_json (recommendations resp))) ->
    best_recommendation (JObj data)
    = option_map Wire.recommendation_json (head (recommendations resp)).
Proof.
  intros env w m request resp data H Hd.
  pose proof (optimize_workload_sorted env w m request resp H) as Hs.
  unfold best_recommendation. cbn [get_of]. unfold Dict.get_default. rewrite Hd.
  cbn [mbind res_bind].
  destruct (recommendations resp) as [|r rest]; [reflexivity|].
  cbn [map Json.truthy negb head option_map].
  rewrite savings_key_wire. cbn [mbind res_bind].
  apply StronglySorted_inv in Hs. destruct Hs as [_ Hf].
  rewrite (max_loop_sorted r rest Hf). reflexivity.
Qed.

Lemma analyze_workload_takes_first_witness :
  exists (resp : OptimizeResponse) (r : Recommendation.t),
    optimize_workload quoting_collaborator (example_workload "Deployment" 3)
      (example_metrics 50 40) None = Ret resp
    /\ head (recommendations resp) = Some r
    /\ best_recommendation
         (JObj [ ("recommendations",
                  JArr (map Wire.recommendation_json (recommendations resp))) ])
       = Some (Wire.recommendation_json r).
Proof.
  eexists. eexists. split; [vm_compute; reflexivity|].
  split; [reflexivity|].
  match goal with
  | |- best_recommendation (JObj ?data) = _ =>
      match data with
      | context [recommendations ?resp] =>
          exact (analyze_workload_takes_first quoting_collaborator
                   (example_workload "Deployment" 3) (example_metrics 50 40) None
                   resp data ltac:(vm_compute; reflexivity) ltac:(reflexivity))
      end
  end.
Defined.

(** *** The types the operator asks for *)

Lemma requested_types_parse (optimization_type : json) :
  exists types : list OptimizationType.t,
    mapM of_value (_get_optimization_types optimization_type) = Some types
    /\ map OptimizationType.value types = _get_optimization_types optimization_type
    /\ types <> [].
Proof.
  unfold _get_optimization_types.
  repeat match goal with
         | |- context [if ?b then _ else _] => destruct b
         end;
    (eexists; split; [vm_compute; reflexivity|]; split; [reflexivity | discriminate]).
Qed.

(** X29. Every type name the operator puts in its request is the value
    of a member of [OptimizationType], so the request is read whenever its
    confidence is a number.  The endpoint then returns only
    recommendations of the types asked for: with MEMORY none at all, and
    with ALL never one that increases the replicas or removes the
    workload. *)
Theorem operator_request_types :
  forall (min_confidence optimization_type : json),
    (forall c : Q,
        Json.float_field min_confidence = Ret c ->
        exists types : list OptimizationType.t,
          optimize_request min_confidence optimization_type
          = Ret (mkRequest (Some types) c RiskLevel.MEDIUM)
          /\ map OptimizationType.value types
             = _get_optimization_types optimization_type)
    /\ (forall (q : OptimizeWorkloadRequest) (env : Recommender.collaborator)
               (w : Workload.t) (m : WorkloadMetrics.t) (resp : OptimizeResponse),
          optimize_request min_confidence optimization_type = Ret q ->
          optimize_workload env w m (Some q) = Ret resp ->
          (forall r : Recommendation.t,
              In r (recommendations resp) ->
              In (OptimizationType.value (Recommendation.optimization_type r))
                (_get_optimization_types optimization_type))
          /\ (optimization_type = JStr "MEMORY" -> recommendations resp = [])
          /\ (optimization_type = JStr "ALL" ->
              forall r : Recommendation.t,
                In r (recommendations resp) ->
                Recommendation.optimization_type r <> OptimizationType.INCREASE_REPLICAS
                /\ Recommendation.optimization_type r <> OptimizationType.REMOVE_UNUSED)).
Proof.
  intros min_confidence optimization_type.
  destruct (requested_types_parse optimization_type) as (types & Hp & Hv & Hne).
  split.
  - intros c Hc. exists types. unfold optimize_request. rewrite Hc, Hp.
    cbn [mbind res_bind]. split; [reflexivity | exact Hv].
  - intros q env w m resp Hq H.
    unfold optimize_request in Hq. apply bind_ret_inv in Hq. destruct Hq as (c & Hc & Hq).
    rewrite Hp in Hq. cbn [mbind res_bind] in Hq. injection Hq as <-.
    destruct types as [|t ts]; [congruence|].
    assert (Hin : forall r : Recommendation.t,
               In r (recommendations resp) ->
               In (Recommendation.optimization_type r) (t :: ts)
               /\ In (Recommendation.optimization_type r)
                    [ OptimizationType.REMOVE_UNUSED; OptimizationType.RIGHT_SIZE_CPU;
                      OptimizationType.REDUCE_REPLICAS;
                      OptimizationType.INCREASE_REPLICAS;
                      OptimizationType.SPOT_INSTANCES;
                      OptimizationType.SCHEDULED_SCALING ]).
    { intros r Hr.
      apply (optimize_workload_returned_types env w m
               (mkRequest (Some (t :: ts)) c default_max_risk_level) t ts resp r
               eq_refl H Hr). }
    split; [|split].
    + intros r Hr. rewrite <- Hv. apply in_map. apply (Hin r Hr).
    + intros ->. apply no_member_nil. intros r Hr. destruct (Hin r Hr) as [H1 H2].
      vm_compute in Hp. injection Hp as <- <-.
      cbn [In] in H1, H2. intuition congruence.
    + intros -> r Hr. destruct (Hin r Hr) as [H1 _].
      vm_compute in Hp. injection Hp as <- <-.
      cbn [In] in H1. intuition congruence.
Qed.

End OperatorAndApi.
